(** * cricgeo: the geo application's schema and its seed command

    The repository declares Django models (two definitions of the [geo]
    models: [geo/models.py] and [geo/models/cric.py] with the abstract bases
    of [geo/models/abstracts.py]), registers two of them with the admin
    ([geo/admin.py]) and seeds ten stadiums
    ([geo/management/commands/seed_stadiums.py]).

    The models are declarations: they are embedded as data (module
    [GeoModels] and module [Cric]).  What the declarations mean when rows are
    read, inserted and deleted is the object-relational mapper's and the
    database's business; the part of it the repository calls or relies on
    ([get], [create], [get_or_create], [delete], the column checks, the
    uniqueness constraints and the [on_delete] rules) is written once, for any
    schema, in module [Orm].  The seed command is embedded statement by
    statement in module [SeedStadiums].

    Numbers: a Python float is a binary64 number and is kept as one
    ([PrimFloat.float]); the decimal literals of the source are rounded to
    binary64 as Python rounds them, and sums and differences are those of
    binary64.  What a stored coordinate is worth as a number is given by
    [Binary64.exact]; geometry on these exact numbers is in module [Plane].

    Text: a string is the sequence of the bytes of its UTF-8 encoding; a
    column of width [n] holds [n] characters, not bytes (module [Text]).

    Primary keys: the store gives a new row a key above every key of its
    model; the database draws the keys from a sequence, which in addition
    never goes back to the key of a row that was deleted.  Of a new key the
    statements below say only that no stored row has it.  Timestamps: a column
    filled by the clock takes the value [now] that the operation is given. *)

From Stdlib Require Import String List ZArith QArith Qabs Bool Arith Lia.
From Stdlib Require PrimFloat FloatOps SpecFloat.
Import ListNotations.

Close Scope Q_scope.
Open Scope string_scope.
Open Scope list_scope.

(* ================================================================== *)
(** * Binary64 numbers and their exact values                          *)
(* ================================================================== *)

Module Binary64.

Definition float : Set := PrimFloat.float.

(** The number a finite binary64 value stands for; an infinity and a NaN
    stand for none. *)
Definition exact (x : float) : option Q :=
  match FloatOps.Prim2SF x with
  | SpecFloat.S754_zero _ => Some 0%Q
  | SpecFloat.S754_finite s m e =>
      let v := match e with
               | Z0 => inject_Z (Zpos m)
               | Zpos p => inject_Z (Zpos m * Zpos (2 ^ p))
               | Zneg p => Qmake (Zpos m) (2 ^ p)
               end in
      Some (if s then Qopp v else v)
  | _ => None
  end.

Definition exact_coord (c : float * float) : option (Q * Q) :=
  match exact (fst c), exact (snd c) with
  | Some x, Some y => Some (x, y)
  | _, _ => None
  end.

Fixpoint exact_ring (ring : list (float * float)) : option (list (Q * Q)) :=
  match ring with
  | [] => Some []
  | c :: ring' =>
      match exact_coord c, exact_ring ring' with
      | Some q, Some qs => Some (q :: qs)
      | _, _ => None
      end
  end.

(** Equality of two doubles as the database compares them: equal numbers
    (the two zeros are equal), and NaN equal to NaN. *)
Definition same (a b : float) : bool :=
  match FloatOps.Prim2SF a, FloatOps.Prim2SF b with
  | SpecFloat.S754_zero _, SpecFloat.S754_zero _ => true
  | SpecFloat.S754_infinity s, SpecFloat.S754_infinity t => Bool.eqb s t
  | SpecFloat.S754_nan, SpecFloat.S754_nan => true
  | SpecFloat.S754_finite s m e, SpecFloat.S754_finite t n f =>
      Bool.eqb s t && Pos.eqb m n && Z.eqb e f
  | _, _ => false
  end.

(** [lo <= x <= hi], as binary64 compares. *)
Definition between (lo hi x : float) : bool :=
  PrimFloat.leb lo x && PrimFloat.leb x hi.

Import PrimFloat.
Local Open Scope float_scope.

(** A coordinate (longitude, latitude) within the bounds of the globe. *)
Definition geodetic (c : float * float) : bool :=
  between (-180) 180 (fst c) && between (-90) 90 (snd c).

End Binary64.

(* ================================================================== *)
(** * Text: characters of a UTF-8 string                               *)
(* ================================================================== *)

Module Text.

(** A byte [10xxxxxx] continues a character; every other byte starts one. *)
Definition continuation (a : Ascii.ascii) : bool :=
  match a with
  | Ascii.Ascii _ _ _ _ _ _ false true => true
  | _ => false
  end.

(** [len(s)]: the number of characters. *)
Fixpoint chars (s : string) : nat :=
  match s with
  | EmptyString => 0
  | String a s' => (if continuation a then 0 else 1) + chars s'
  end.

(** The first [n] characters, and what follows them. *)
Fixpoint take (n : nat) (s : string) : string :=
  match s with
  | EmptyString => EmptyString
  | String a s' =>
      if continuation a then String a (take n s')
      else match n with
           | O => EmptyString
           | S n' => String a (take n' s')
           end
  end.

Fixpoint drop (n : nat) (s : string) : string :=
  match s with
  | EmptyString => EmptyString
  | String a s' =>
      if continuation a then drop n s'
      else match n with
           | O => s
           | S n' => drop n' s'
           end
  end.

(** Nothing but spaces. *)
Fixpoint blank (s : string) : bool :=
  match s with
  | EmptyString => true
  | String a s' => Ascii.eqb a (Ascii.ascii_of_nat 32) && blank s'
  end.

Definition bytes (s : string) : list N :=
  map Ascii.N_of_ascii (list_ascii_of_string s).

Definition cont (b : N) : bool := N.leb 128 b && N.leb b 191.

(** The bytes are the UTF-8 encoding of a sequence of characters none of
    which is NUL: what a Python [str] that the database accepts encodes to. *)
Fixpoint encodes (l : list N) : bool :=
  match l with
  | [] => true
  | b :: l1 =>
      if N.leb 1 b && N.leb b 127 then encodes l1
      else
        match l1 with
        | [] => false
        | c1 :: l2 =>
            if N.leb 194 b && N.leb b 223 then cont c1 && encodes l2
            else
              match l2 with
              | [] => false
              | c2 :: l3 =>
                  if N.leb 224 b && N.leb b 239 then
                    (if N.eqb b 224 then N.leb 160 c1 && N.leb c1 191
                     else if N.eqb b 237 then N.leb 128 c1 && N.leb c1 159
                     else cont c1)
                    && cont c2 && encodes l3
                  else
                    match l3 with
                    | [] => false
                    | c3 :: l4 =>
                        N.leb 240 b && N.leb b 244
                        && (if N.eqb b 240 then N.leb 144 c1 && N.leb c1 191
                            else if N.eqb b 244
                                 then N.leb 128 c1 && N.leb c1 143
                                 else cont c1)
                        && cont c2 && cont c3 && encodes l4
                    end
              end
        end
  end.

Definition well_formed (s : string) : bool := encodes (bytes s).

End Text.

(* ================================================================== *)
(** * The mapper: values, rows, exceptions, schema declarations        *)
(* ================================================================== *)

Module Orm.

Definition float : Set := Binary64.float.

(** A column value.  [VFloat] is a Python float, [VRef] the key held by a
    [ForeignKey] column, [VPoint x y] a GEOS [Point(x, y)], [VPolygon shell]
    a GEOS [Polygon] given by the coordinates of its exterior ring. *)
Inductive value : Type :=
| VNull
| VStr (s : string)
| VInt (n : Z)
| VFloat (x : float)
| VRef (pk : nat)
| VPoint (x y : float)
| VPolygon (shell : list (float * float)).

Definition coord_eqb (a b : float * float) : bool :=
  Binary64.same (fst a) (fst b) && Binary64.same (snd a) (snd b).

Fixpoint shell_eqb (a b : list (float * float)) : bool :=
  match a, b with
  | [], [] => true
  | x :: a', y :: b' => coord_eqb x y && shell_eqb a' b'
  | _, _ => false
  end.

(** Equality of two stored values, as a query or a uniqueness constraint
    compares them. *)
Definition value_eqb (a b : value) : bool :=
  match a, b with
  | VNull, VNull => true
  | VStr s, VStr t => String.eqb s t
  | VInt n, VInt m => Z.eqb n m
  | VFloat x, VFloat y => Binary64.same x y
  | VRef i, VRef j => Nat.eqb i j
  | VPoint x y, VPoint u v => Binary64.same x u && Binary64.same y v
  | VPolygon s, VPolygon t => shell_eqb s t
  | _, _ => false
  end.

Definition is_null (v : value) : bool :=
  match v with VNull => true | _ => false end.

(** A stored row: the model it belongs to, its primary key (the implicit
    [id] column every model gets) and the declared columns by name. *)
Record Row : Type := mkRow {
  row_model : string;
  row_pk : nat;
  row_fields : list (string * value)
}.

(** The database: every stored row, oldest first. *)
Definition Store : Type := list Row.

Fixpoint assoc {A : Type} (k : string) (l : list (string * A)) : option A :=
  match l with
  | [] => None
  | (k', v) :: l' => if String.eqb k k' then Some v else assoc k l'
  end.

Definition row_get (f : string) (r : Row) : option value :=
  assoc f (row_fields r).

(** Attribute access that reads an absent column as [None]. *)
Definition attr (f : string) (r : Row) : value :=
  match row_get f r with Some v => v | None => VNull end.

Definition is_model (m : string) (r : Row) : bool :=
  String.eqb (row_model r) m.

Definition table (m : string) (db : Store) : list Row :=
  filter (is_model m) db.

(** ** Exceptions and the state-and-exception monad *)

Inductive Constraint : Type :=
| NotNull (field : string)
| Check (field : string)
| Unique (fields : list string)
| ForeignKeyExists (field : string).

Inductive Exn : Type :=
| DoesNotExist
| MultipleObjectsReturned
| IntegrityError (c : Constraint)
| DataError (field : string)
| TypeError (kwarg : string)
| ValueError (what : string)
| FieldError (lookup : string)
| GEOSException (what : string).

Inductive Result (A : Type) : Type :=
| Ok (a : A)
| Raise (e : Exn).
Arguments Ok {A} a.
Arguments Raise {A} e.

(** A computation over a state [S]: it returns or raises, and the state it
    leaves behind is kept in both cases (statements run in autocommit mode:
    what was written before an exception stays written). *)
Definition M (S A : Type) : Type := S -> Result A * S.

Definition ret {S A : Type} (a : A) : M S A := fun s => (Ok a, s).

Definition raise {S A : Type} (e : Exn) : M S A := fun s => (Raise e, s).

Definition bind {S A B : Type} (m : M S A) (k : A -> M S B) : M S B :=
  fun s =>
    match m s with
    | (Ok a, s') => k a s'
    | (Raise e, s') => (Raise e, s')
    end.

(** [try: m except h] *)
Definition catch {S A : Type} (m : M S A) (h : Exn -> M S A) : M S A :=
  fun s =>
    match m s with
    | (Ok a, s') => (Ok a, s')
    | (Raise e, s') => h e s'
    end.

Declare Scope orm_scope.
Delimit Scope orm_scope with orm.
Notation "x <- m ;; k" := (bind m (fun x => k))
  (at level 100, m at next level, right associativity) : orm_scope.
Notation "' p <- m ;; k" := (bind m (fun p => k))
  (at level 100, p pattern, m at next level, right associativity) : orm_scope.
Notation "m ;;; k" := (bind m (fun _ => k))
  (at level 100, right associativity) : orm_scope.

(** ** Schema declarations *)

Inductive OnDelete : Type := CASCADE | SET_NULL.

Inductive FieldKind : Type :=
| CharField (max_length : nat)
| SlugField (max_length : nat)
| TextField
| IntegerField
| PositiveIntegerField
| PositiveSmallIntegerField
| FloatField
| DateField
| DateTimeField
| JSONField
| FileField (upload_to : string)
| PointField
| PolygonField
| MultiPolygonField
| ForeignKey (to : string) (on_delete : OnDelete).

(** [default=...]; [Now] stands for [default=timezone.now], [AutoNow] for
    [auto_now=True] and [auto_now_add=True]. *)
Inductive Default : Type :=
| NoDefault
| DefaultValue (v : value)
| Now
| AutoNow.

Record Field : Type := mkField {
  f_name : string;
  f_kind : FieldKind;
  f_null : bool;
  f_unique : bool;
  f_default : Default
}.

Record ModelDef : Type := mkModel {
  m_name : string;
  m_fields : list Field;
  m_unique_together : list (list string)
}.

Definition Schema : Type := list ModelDef.

(** Shorthands for the declarations. *)
Definition field (n : string) (k : FieldKind) : Field :=
  mkField n k false false NoDefault.
Definition nullable (f : Field) : Field :=
  mkField (f_name f) (f_kind f) true (f_unique f) (f_default f).
Definition unique (f : Field) : Field :=
  mkField (f_name f) (f_kind f) (f_null f) true (f_default f).
Definition with_default (v : value) (f : Field) : Field :=
  mkField (f_name f) (f_kind f) (f_null f) (f_unique f) (DefaultValue v).
Definition with_now (f : Field) : Field :=
  mkField (f_name f) (f_kind f) (f_null f) (f_unique f) Now.
Definition auto_now (f : Field) : Field :=
  mkField (f_name f) (f_kind f) (f_null f) (f_unique f) AutoNow.

Fixpoint find_model (S : Schema) (m : string) : option ModelDef :=
  match S with
  | [] => None
  | d :: S' => if String.eqb (m_name d) m then Some d else find_model S' m
  end.

Definition fields_of (S : Schema) (m : string) : list Field :=
  match find_model S m with Some d => m_fields d | None => [] end.

Definition field_names (S : Schema) (m : string) : list string :=
  map f_name (fields_of S m).

Definition has_field (S : Schema) (m f : string) : bool :=
  existsb (String.eqb f) (field_names S m).

Definition mem (x : string) (l : list string) : bool :=
  existsb (String.eqb x) l.

(** ** Operations on the store, for a schema [S] *)

Section Operations.

Variable S : Schema.

(** [Field.get_default()]: the declared default; without one, [None] for a
    nullable column and for the kinds that do not allow empty strings, the
    empty string otherwise. *)
Definition empty_strings_allowed (k : FieldKind) : bool :=
  match k with
  | CharField _ | SlugField _ | TextField | FileField _ => true
  | _ => false
  end.

Definition get_default (now : Z) (f : Field) : value :=
  match f_default f with
  | DefaultValue v => v
  | Now | AutoNow => VInt now
  | NoDefault =>
      if f_null f then VNull
      else if empty_strings_allowed (f_kind f) then VStr "" else VNull
  end.

(** [Model.__init__] with keyword arguments: a keyword that names no field
    is a [TypeError]; every field takes its keyword's value or its default.
    A field with [auto_now] or [auto_now_add] is given the time of the save
    whatever the keywords say. *)
Definition unexpected (m : string) (kwargs : list (string * value))
  : option string :=
  match filter (fun kv => negb (has_field S m (fst kv))) kwargs with
  | [] => None
  | kv :: _ => Some (fst kv)
  end.

Definition init_fields (now : Z) (m : string) (kwargs : list (string * value))
  : list (string * value) :=
  map (fun f =>
         (f_name f,
          match f_default f with
          | AutoNow => VInt now
          | _ =>
              match assoc (f_name f) kwargs with
              | Some v => v
              | None => get_default now f
              end
          end))
      (fields_of S m).

Definition find_field (m f : string) : option Field :=
  find (fun fd => String.eqb (f_name fd) f) (fields_of S m).

(** The checks of an INSERT, in the order the database applies them: the
    values are brought to the types of their columns (width of a text, range
    of an integer), then NOT NULL, then the CHECK constraints, then
    uniqueness, then, at the end of the statement, the referenced rows. *)

(** The width in characters of the column a field makes ([FileField] has
    [max_length=100] unless it is told otherwise). *)
Definition width (k : FieldKind) : option nat :=
  match k with
  | CharField n | SlugField n => Some n
  | FileField _ => Some 100
  | _ => None
  end.

(** The range of the integer column a field makes. *)
Definition int_range (k : FieldKind) : option (Z * Z) :=
  match k with
  | IntegerField | PositiveIntegerField => Some (-2147483648, 2147483647)%Z
  | PositiveSmallIntegerField => Some (-32768, 32767)%Z
  | _ => None
  end.

(** A text is too long for its column when it has more characters than the
    width and what exceeds is not all spaces; spaces in excess are cut off
    by [clip]. *)
Definition too_long (f : Field) (v : value) : bool :=
  match width (f_kind f), v with
  | Some n, VStr s =>
      Nat.ltb n (Text.chars s) && negb (Text.blank (Text.drop n s))
  | _, _ => false
  end.

Definition clip (f : Field) (v : value) : value :=
  match width (f_kind f), v with
  | Some n, VStr s => VStr (Text.take n s)
  | _, _ => v
  end.

Definition out_of_range (f : Field) (v : value) : bool :=
  match int_range (f_kind f), v with
  | Some (lo, hi), VInt n => Z.ltb n lo || Z.ltb hi n
  | _, _ => false
  end.

Definition value_in (vals : list (string * value)) (f : Field) : value :=
  match assoc (f_name f) vals with Some v => v | None => VNull end.

Definition check_data (m : string) (vals : list (string * value))
  : option Exn :=
  match filter (fun f => too_long f (value_in vals f)
                         || out_of_range f (value_in vals f))
               (fields_of S m) with
  | [] => None
  | f :: _ => Some (DataError (f_name f))
  end.

Definition check_not_null (m : string) (vals : list (string * value))
  : option Exn :=
  match filter (fun f => negb (f_null f) && is_null (value_in vals f))
               (fields_of S m) with
  | [] => None
  | f :: _ => Some (IntegrityError (NotNull (f_name f)))
  end.

(** [PositiveIntegerField] and [PositiveSmallIntegerField] come with
    [CHECK (column >= 0)]. *)
Definition negative (f : Field) (v : value) : bool :=
  match f_kind f, v with
  | PositiveIntegerField, VInt n | PositiveSmallIntegerField, VInt n =>
      Z.ltb n 0
  | _, _ => false
  end.

Definition check_positive (m : string) (vals : list (string * value))
  : option Exn :=
  match filter (fun f => negative f (value_in vals f)) (fields_of S m) with
  | [] => None
  | f :: _ => Some (IntegrityError (Check (f_name f)))
  end.

Definition or_else {A : Type} (a b : option A) : option A :=
  match a with Some _ => a | None => b end.

(** The checks on the columns of the new row alone. *)
Definition check_columns (m : string) (vals : list (string * value))
  : option Exn :=
  or_else (check_data m vals)
    (or_else (check_not_null m vals) (check_positive m vals)).

(** The values as their columns store them. *)
Definition as_stored (m : string) (vals : list (string * value))
  : list (string * value) :=
  map (fun kv =>
         match find_field m (fst kv) with
         | Some f => (fst kv, clip f (snd kv))
         | None => kv
         end) vals.

(** The uniqueness constraints of a model: one per [unique=True] field, then
    the [unique_together] tuples. *)
Definition unique_sets (m : string) : list (list string) :=
  match find_model S m with
  | Some d =>
      map (fun f => [f_name f]) (filter f_unique (m_fields d))
      ++ m_unique_together d
  | None => []
  end.

(** Two rows collide on a constraint when they agree on each of its columns
    and none of these is NULL (NULLs never collide). *)
Definition same_key (c : list string) (vals : list (string * value)) (r : Row)
  : bool :=
  forallb (fun f =>
             match assoc f vals, row_get f r with
             | Some a, Some b => negb (is_null a) && value_eqb a b
             | _, _ => false
             end) c.

Definition collides (m : string) (vals : list (string * value)) (db : Store)
  (c : list string) : bool :=
  existsb (same_key c vals) (table m db).

Definition check_unique (m : string) (vals : list (string * value))
  (db : Store) : option Exn :=
  match filter (collides m vals db) (unique_sets m) with
  | [] => None
  | c :: _ => Some (IntegrityError (Unique c))
  end.

Definition has_row (m : string) (pk : nat) (db : Store) : bool :=
  existsb (fun r => is_model m r && Nat.eqb (row_pk r) pk) db.

Definition dangling (vals : list (string * value)) (db : Store) (f : Field)
  : bool :=
  match f_kind f, value_in vals f with
  | ForeignKey to _, VRef pk => negb (has_row to pk db)
  | _, _ => false
  end.

Definition check_references (m : string) (vals : list (string * value))
  (db : Store) : option Exn :=
  match filter (dangling vals db) (fields_of S m) with
  | [] => None
  | f :: _ => Some (IntegrityError (ForeignKeyExists (f_name f)))
  end.

Definition check_insert (m : string) (vals : list (string * value))
  (db : Store) : option Exn :=
  or_else (check_columns m vals)
    (or_else (check_unique m (as_stored m vals) db)
       (check_references m vals db)).

(** The key the store gives a new row: one above every key of the model.
    The database draws the key from the model's sequence, which stays above
    every key it has issued, also after the row with the highest key is
    deleted; what is relied on below is that the key is the key of no stored
    row. *)
Definition next_pk (m : string) (db : Store) : nat :=
  Datatypes.S (list_max (map row_pk (table m db))).

(** The INSERT of [Model.save()]: the object comes back with its key and
    the values it was given; the row is stored with the values as the columns
    hold them. *)
Definition insert (m : string) (vals : list (string * value)) : M Store Row :=
  fun db =>
    match check_insert m vals db with
    | Some e => (Raise e, db)
    | None =>
        let pk := next_pk m db in
        (Ok (mkRow m pk vals), db ++ [mkRow m pk (as_stored m vals)])
    end.

(** The shell of a polygon value is one that [Polygon] accepts: empty, or
    at least four coordinates that end where they start. *)
Definition ring_shape (shell : list (float * float)) : bool :=
  match shell with
  | [] => true
  | a :: _ =>
      Nat.leb 4 (length shell)
      && PrimFloat.eqb (fst a) (fst (last shell a))
      && PrimFloat.eqb (snd a) (snd (last shell a))
  end.

(** The values the operations are given are of the type their column
    holds: a text (the encoding of a Python [str] without NUL) for a text
    column, an integer for an integer column and for a date or time, a float
    for a float column, a key for a reference, a point or a polygon of the
    globe for a geography column, a text or an integer for a JSON column;
    [None] anywhere.  What the mapper does with a value of another type is
    not modelled. *)
Definition storable (k : FieldKind) (v : value) : bool :=
  match v with
  | VNull => true
  | VStr s =>
      match k with
      | CharField _ | SlugField _ | TextField | FileField _ | JSONField =>
          Text.well_formed s
      | _ => false
      end
  | VInt _ =>
      match k with
      | IntegerField | PositiveIntegerField | PositiveSmallIntegerField
      | DateField | DateTimeField | JSONField => true
      | _ => false
      end
  | VFloat _ => match k with FloatField => true | _ => false end
  | VRef _ => match k with ForeignKey _ _ => true | _ => false end
  | VPoint x y =>
      match k with PointField => Binary64.geodetic (x, y) | _ => false end
  | VPolygon shell =>
      match k with
      | PolygonField => ring_shape shell && forallb Binary64.geodetic shell
      | _ => false
      end
  end.

Fixpoint same_names (a b : list string) : bool :=
  match a, b with
  | [], [] => true
  | x :: a', y :: b' => String.eqb x y && same_names a' b'
  | _, _ => false
  end.

(** The values list the columns of the model, each with a value its column
    can hold. *)
Definition well_typed (m : string) (vals : list (string * value)) : bool :=
  same_names (map fst vals) (field_names S m)
  && forallb (fun f => storable (f_kind f) (value_in vals f)) (fields_of S m).

(** [Model.objects.create] with keyword arguments *)
Definition create (now : Z) (m : string) (kwargs : list (string * value))
  : M Store Row :=
  match unexpected m kwargs with
  | Some k => raise (TypeError k)
  | None => insert m (init_fields now m kwargs)
  end.

(** [Model.objects.get] with keyword lookups *)
Definition matches (lookup : list (string * value)) (r : Row) : bool :=
  forallb (fun kv =>
             match row_get (fst kv) r with
             | Some v => value_eqb v (snd kv)
             | None => false
             end) lookup.

Definition get (m : string) (lookup : list (string * value)) : M Store Row :=
  fun db =>
    match unexpected m lookup with
    | Some k => (Raise (FieldError k), db)
    | None =>
        match filter (matches lookup) (table m db) with
        | [] => (Raise DoesNotExist, db)
        | [r] => (Ok r, db)
        | _ :: _ :: _ => (Raise MultipleObjectsReturned, db)
        end
    end.

(** [params = dict(lookup); params.update(defaults)] *)
Definition dict_update (d e : list (string * value)) : list (string * value) :=
  filter (fun kv => match assoc (fst kv) e with
                    | Some _ => false
                    | None => true
                    end) d ++ e.

(** [Model.objects.get_or_create] with lookups and [defaults]: the row found and
    [False], or, when none exists, the row created and [True].  More than one
    match is [MultipleObjectsReturned]; a parameter that names no field is a
    [FieldError]; an [IntegrityError] of the insert is raised again unless the
    row can be read by then. *)
Definition get_or_create (now : Z) (m : string)
  (lookup defaults : list (string * value)) : M Store (Row * bool) :=
  catch (bind (get m lookup) (fun r => ret (r, false)))
    (fun e =>
       match e with
       | DoesNotExist =>
           let params := dict_update lookup defaults in
           match unexpected m params with
           | Some k => raise (FieldError k)
           | None =>
               catch (bind (create now m params) (fun r => ret (r, true)))
                 (fun e' =>
                    match e' with
                    | IntegrityError c =>
                        catch (bind (get m lookup) (fun r => ret (r, false)))
                          (fun e'' =>
                             match e'' with
                             | DoesNotExist => raise (IntegrityError c)
                             | _ => raise e''
                             end)
                    | _ => raise e'
                    end)
           end
       | _ => raise e
       end).

(** ** Deletion: the collector

    A row is named by its model and key.  Deleting a row dooms it, and with
    it every row that holds a [CASCADE] reference to a doomed row, and so on;
    the rows that survive lose ([SET_NULL]) their references to doomed
    rows. *)
Definition Key : Type := string * nat.

Definition key_of (r : Row) : Key := (row_model r, row_pk r).

Definition key_eqb (a b : Key) : bool :=
  String.eqb (fst a) (fst b) && Nat.eqb (snd a) (snd b).

Definition in_keys (k : Key) (ks : list Key) : bool :=
  existsb (key_eqb k) ks.

Definition on_delete_eqb (a b : OnDelete) : bool :=
  match a, b with
  | CASCADE, CASCADE | SET_NULL, SET_NULL => true
  | _, _ => false
  end.

(** Column [f] of row [r] is a reference with rule [od] to a doomed row. *)
Definition points_to (od : OnDelete) (doomed : list Key) (r : Row) (f : Field)
  : bool :=
  match f_kind f, row_get (f_name f) r with
  | ForeignKey to od', Some (VRef pk) =>
      on_delete_eqb od od' && in_keys (to, pk) doomed
  | _, _ => false
  end.

Definition cascades (doomed : list Key) (r : Row) : bool :=
  existsb (points_to CASCADE doomed r) (fields_of S (row_model r)).

Definition doomed_next (db : Store) (doomed : list Key) : list Row :=
  filter (fun r => negb (in_keys (key_of r) doomed) && cascades doomed r) db.

Fixpoint collect (fuel : nat) (db : Store) (doomed : list Key) : list Key :=
  match fuel with
  | O => doomed
  | Datatypes.S n =>
      match doomed_next db doomed with
      | [] => doomed
      | more => collect n db (doomed ++ map key_of more)
      end
  end.

Definition nullify (doomed : list Key) (m : string) (kv : string * value)
  : string * value :=
  match find_field m (fst kv), snd kv with
  | Some fd, VRef pk =>
      match f_kind fd with
      | ForeignKey to SET_NULL =>
          if in_keys (to, pk) doomed then (fst kv, VNull) else kv
      | _ => kv
      end
  | _, _ => kv
  end.

Definition set_null (doomed : list Key) (r : Row) : Row :=
  mkRow (row_model r) (row_pk r)
        (map (nullify doomed (row_model r)) (row_fields r)).

Definition survives (doomed : list Key) (r : Row) : bool :=
  negb (in_keys (key_of r) doomed).

(** [instance.delete()].  A round of the collector that finds something
    dooms a row not doomed before, so as many rounds as there are rows reach
    the closure. *)
Definition delete (k : Key) : M Store unit :=
  fun db =>
    let doomed := collect (length db) db [k] in
    (Ok tt, map (set_null doomed) (filter (survives doomed) db)).

(** ** Vocabulary for the statements about deletion and uniqueness *)

(** A set [R] of model names that cascading deletion does not leave: a model
    that holds a [CASCADE] reference to a model of [R] is in [R]. *)
Definition closed_under_cascade (R : list string) : bool :=
  forallb (fun d =>
             forallb (fun f =>
                        match f_kind f with
                        | ForeignKey to CASCADE =>
                            implb (mem to R) (mem (m_name d) R)
                        | _ => true
                        end) (m_fields d)) S.

(** The columns of a model that the deletion of the row they refer to sets
    to NULL. *)
Definition set_null_columns (m : string) : list string :=
  map f_name
      (filter (fun f =>
                 match f_kind f with
                 | ForeignKey _ SET_NULL => true
                 | _ => false
                 end) (fields_of S m)).

End Operations.


(** ** Further operations and vocabulary *)

(** [Model.objects.get(pk=...)] *)
Definition get_pk (m : string) (pk : nat) : M Store Row :=
  fun db =>
    match filter (fun r => Nat.eqb (row_pk r) pk) (table m db) with
    | [] => (Raise DoesNotExist, db)
    | [r] => (Ok r, db)
    | _ :: _ :: _ => (Raise MultipleObjectsReturned, db)
    end.

(** [self.f] for a reference column [f] declared NOT NULL: the row the
    column refers to, read from the store; [DoesNotExist] when the column holds
    no key or the key names no row. *)
Definition related (S : Schema) (self : Row) (f : string) : M Store Row :=
  fun db =>
    match find_field S (row_model self) f with
    | Some fd =>
        match f_kind fd, row_get f self with
        | ForeignKey to _, Some (VRef pk) => get_pk to pk db
        | ForeignKey _ _, _ => (Raise DoesNotExist, db)
        | _, _ => (Raise (FieldError f), db)
        end
    | None => (Raise (FieldError f), db)
    end.

(** No [SET_NULL] reference of the schema points to a model of [R]. *)
Definition no_set_null_into (S : Schema) (R : list string) : bool :=
  forallb (fun d =>
             forallb (fun f =>
                        match f_kind f with
                        | ForeignKey to SET_NULL => negb (mem to R)
                        | _ => true
                        end) (m_fields d)) S.

(** Every [SET_NULL] reference column is declared [null=True]. *)
Definition set_null_is_nullable (S : Schema) : bool :=
  forallb (fun d =>
             forallb (fun f =>
                        match f_kind f with
                        | ForeignKey _ SET_NULL => f_null f
                        | _ => true
                        end) (m_fields d)) S.

(** No reference column of the schema points to the model [m]. *)
Definition unreferenced_in (S : Schema) (m : string) : bool :=
  forallb (fun d =>
             forallb (fun f =>
                        match f_kind f with
                        | ForeignKey to _ => negb (String.eqb to m)
                        | _ => true
                        end) (m_fields d)) S.

(** No row of [d] has the key of [r]. *)
Definition gone (d : Store) (r : Row) : Prop :=
  forall r', In r' d -> key_of r' <> key_of r.

(** The row has a value in every column declared NOT NULL. *)
Definition not_null_ok (S : Schema) (r : Row) : Prop :=
  check_not_null S (row_model r) (row_fields r) = None.

End Orm.

(* ================================================================== *)
(** * GEOS: points and polygons                                        *)
(* ================================================================== *)

Module Geos.

Import Orm.

Definition Coord : Type := float * float.

(** [Point(x, y)] *)
Definition Point (x y : float) : value := VPoint x y.

(** Two coordinates are the same when their numbers are equal, as binary64
    compares them. *)
Definition same_coord (a b : Coord) : bool :=
  PrimFloat.eqb (fst a) (fst b) && PrimFloat.eqb (snd a) (snd b).

(** [Polygon(shell)] for a tuple of coordinates: an empty tuple makes an
    empty polygon; a [LinearRing] needs at least four coordinates
    ([ValueError]), and GEOS refuses one that does not end where it
    starts. *)
Definition Polygon (shell : list Coord) : Result value :=
  match shell with
  | [] => Ok (VPolygon [])
  | a :: _ =>
      if Nat.ltb (length shell) 4 then
        Raise (ValueError "LinearRing requires at least 4 points")
      else if same_coord a (last shell a) then Ok (VPolygon shell)
      else Raise (GEOSException "LinearRing")
  end.

(** A coordinate (longitude, latitude) within the bounds of the globe. *)
Definition on_globe (c : Coord) : Prop := Binary64.geodetic c = true.

End Geos.

(* ================================================================== *)
(** * Plane geometry on exact numbers                                  *)
(* ================================================================== *)

(** The vocabulary of the statements about stored coordinates: rings of
    points with rational coordinates, which is what the stored binary64
    numbers are.  Nothing here is computed by the program; in particular
    [centroid] is the centroid of the region a ring encloses, not a value
    returned by a library. *)
Module Plane.

Local Open Scope Q_scope.

Definition Coord : Type := Q * Q.

(** The same fraction, written the same way. *)
Definition same (a b : Coord) : bool :=
  Z.eqb (Qnum (fst a)) (Qnum (fst b)) && Pos.eqb (Qden (fst a)) (Qden (fst b))
  && Z.eqb (Qnum (snd a)) (Qnum (snd b))
  && Pos.eqb (Qden (snd a)) (Qden (snd b)).

(** Area-weighted centroid of the region a ring encloses (shoelace sums):
    [ring_sums] returns twice the signed area and six times the area-weighted
    coordinate sums. *)
Fixpoint ring_sums (ring : list Coord) : Q * Q * Q :=
  match ring with
  | p :: (q :: _) as rest =>
      let c := fst p * snd q - fst q * snd p in
      let '(a, sx, sy) := ring_sums rest in
      (a + c, sx + (fst p + fst q) * c, sy + (snd p + snd q) * c)
  | _ => (0, 0, 0)
  end.

Definition centroid (ring : list Coord) : Coord :=
  let '(a, sx, sy) := ring_sums ring in
  (sx / (3 * a), sy / (3 * a)).

Definition coord_eq (a b : Coord) : Prop :=
  fst a == fst b /\ snd a == snd b.

Definition coord_eqb (a b : Coord) : bool :=
  Qeq_bool (fst a) (fst b) && Qeq_bool (snd a) (snd b).

Definition side (a b : Coord) : Coord := (fst b - fst a, snd b - snd a).

Definition dot (u v : Coord) : Q := fst u * fst v + snd u * snd v.

(** A ring of five coordinates that closes on its first one, whose four
    corners are pairwise different and whose consecutive sides are
    perpendicular. *)
Definition is_rectangle (ring : list Coord) : Prop :=
  exists a b c d,
    ring = [a; b; c; d; a]
    /\ ~ coord_eq a b /\ ~ coord_eq a c /\ ~ coord_eq a d
    /\ ~ coord_eq b c /\ ~ coord_eq b d /\ ~ coord_eq c d
    /\ dot (side a b) (side b c) == 0
    /\ dot (side b c) (side c d) == 0
    /\ dot (side c d) (side d a) == 0
    /\ dot (side d a) (side a b) == 0.

Definition rectangle (ring : list Coord) : bool :=
  match ring with
  | [a; b; c; d; e] =>
      same a e
      && negb (coord_eqb a b) && negb (coord_eqb a c) && negb (coord_eqb a d)
      && negb (coord_eqb b c) && negb (coord_eqb b d) && negb (coord_eqb c d)
      && Qeq_bool (dot (side a b) (side b c)) 0
      && Qeq_bool (dot (side b c) (side c d)) 0
      && Qeq_bool (dot (side c d) (side d a)) 0
      && Qeq_bool (dot (side d a) (side a b)) 0
  | _ => false
  end.

(** An axis-aligned rectangle given as a closed ring of five coordinates
    [(x0,y0); (x0,y1); (x1,y1); (x1,y0); (x0,y0)], of width [w], height [h]
    and centre [o]. *)
Definition is_axis_aligned_box (ring : list Coord) (o : Coord) (w h : Q)
  : Prop :=
  exists x0 y0 x1 y1,
    ring = [(x0, y0); (x0, y1); (x1, y1); (x1, y0); (x0, y0)]
    /\ x0 < x1 /\ y0 < y1
    /\ x1 - x0 == w /\ y1 - y0 == h
    /\ (x0 + x1) / 2 == fst o /\ (y0 + y1) / 2 == snd o.

(** An axis-aligned square of side [s] and centre [o]. *)
Definition is_axis_aligned_square (ring : list Coord) (o : Coord) (s : Q)
  : Prop :=
  is_axis_aligned_box ring o s s.

(** The width and the height of the box a ring of five coordinates spans
    between its first and its third corner. *)
Definition spans (ring : list Coord) : Q * Q :=
  match ring with
  | a :: _ :: c :: _ => (fst c - fst a, snd c - snd a)
  | _ => (0, 0)
  end.

Definition axis_aligned_box (ring : list Coord) (o : Coord) : bool :=
  match ring with
  | [a; b; c; d; e] =>
      same a e
      && same b (fst a, snd c) && same d (fst c, snd a)
      && negb (Qle_bool (fst c) (fst a)) && negb (Qle_bool (snd c) (snd a))
      && Qeq_bool ((fst a + fst c) / 2) (fst o)
      && Qeq_bool ((snd a + snd c) / 2) (snd o)
  | _ => false
  end.

(** Signed area of the region a ring encloses: positive when the ring runs
    counter-clockwise (x to the right, y upwards), negative when clockwise. *)
Definition signed_area (ring : list Coord) : Q :=
  fst (fst (ring_sums ring)) / 2.

(** [a] is within [eps] of [b]. *)
Definition near (eps a b : Q) : Prop := Qabs (a - b) <= eps.

Definition nearb (eps a b : Q) : bool := Qle_bool (Qabs (a - b)) eps.

End Plane.

(* ================================================================== *)
(** * geo/models.py                                                    *)
(* ================================================================== *)

Module GeoModels.

Import Orm.

Definition SURFACE_CHOICES : list (string * string) :=
  [ ("grass", "Grass");
    ("dry", "Dry");
    ("dusty", "Dusty");
    ("green", "Green Top");
    ("artificial", "Artificial") ].

Definition PITCH_CONDITION_CHOICES : list (string * string) :=
  [ ("batting_friendly", "Batting friendly");
    ("bowling_friendly", "Bowling friendly");
    ("balanced", "Balanced") ].

Definition Stadium : ModelDef :=
  mkModel "Stadium"
    [ field "name" (CharField 255);
      nullable (field "city" (CharField 120));
      nullable (field "country" (CharField 80));
      nullable (field "location" PointField) ]
    [].

Definition Pitch : ModelDef :=
  mkModel "Pitch"
    [ field "stadium" (ForeignKey "Stadium" CASCADE);
      with_default (VStr "Main") (field "name" (CharField 120));
      nullable (field "area" PolygonField);
      nullable (field "centroid" PointField);
      with_default (VStr "grass") (field "surface_type" (CharField 32));
      nullable (field "current_condition" (CharField 32)) ]
    [].

Definition schema : Schema := [Stadium; Pitch].

End GeoModels.

(* ================================================================== *)
(** * geo/models/abstracts.py and geo/models/cric.py                   *)
(* ================================================================== *)

Module Abstracts.

Import Orm.

Definition TimeStampedModel : list Field :=
  [ auto_now (field "created_at" DateTimeField);
    auto_now (field "updated_at" DateTimeField) ].

Definition GeoModel : list Field :=
  [ nullable (field "location" PointField);
    nullable (field "boundary" MultiPolygonField) ].

Definition PayloadModel : list Field :=
  [ nullable (field "raw_payload" JSONField);
    nullable (field "meta" JSONField) ].

Definition SourceTrackedModel : list Field :=
  [ nullable (field "source" (CharField 120)) ].

End Abstracts.

(** The declarations of [cric.py].  The columns of a model come in the
    order in which the fields were made: those of the abstract bases, in the
    order of [abstracts.py], in front of the model's own.  [Meta.ordering], [Meta.indexes], [db_index],
    [blank], [choices] and [related_name] do not change which rows are stored
    or deleted and are left out. *)
Module Cric.

Import Orm Abstracts.

Definition SURFACE_CHOICES : list (string * string) :=
  [ ("grass", "Grass");
    ("dry", "Dry");
    ("dusty", "Dusty");
    ("green", "Green Top");
    ("artificial", "Artificial") ].

Definition PITCH_CONDITION_CHOICES : list (string * string) :=
  [ ("batting_friendly", "Batting friendly");
    ("bowling_friendly", "Bowling friendly");
    ("balanced", "Balanced") ].

Definition SENSOR_TYPE_CHOICES : list (string * string) :=
  [ ("soil_moisture", "Soil Moisture");
    ("temperature", "Temperature");
    ("humidity", "Humidity");
    ("ndvi", "NDVI");
    ("hardness", "Hardness") ].

Definition Stadium : ModelDef :=
  mkModel "Stadium"
    (TimeStampedModel ++ GeoModel ++
     [ field "name" (CharField 255);
       unique (field "slug" (SlugField 255));
       nullable (field "city" (CharField 120));
       nullable (field "country" (CharField 80));
       nullable (field "capacity" PositiveIntegerField) ])
    [].

Definition StadiumFeature : ModelDef :=
  mkModel "StadiumFeature"
    [ field "stadium" (ForeignKey "Stadium" CASCADE);
      field "key" (CharField 80);
      field "value" (CharField 255) ]
    [ ["stadium"; "key"] ].

Definition Pitch : ModelDef :=
  mkModel "Pitch"
    (TimeStampedModel ++
     [ field "stadium" (ForeignKey "Stadium" CASCADE);
       with_default (VStr "Main") (field "name" (CharField 120));
       nullable (field "area" PolygonField);
       nullable (field "centroid" PointField);
       nullable (field "length_m" FloatField);
       nullable (field "width_m" FloatField);
       with_default (VStr "grass") (field "surface_type" (CharField 32));
       nullable (field "preferred_usage" (CharField 64)) ])
    [].

Definition PitchSnapshot : ModelDef :=
  mkModel "PitchSnapshot"
    (TimeStampedModel ++ PayloadModel ++ SourceTrackedModel ++
     [ field "pitch" (ForeignKey "Pitch" CASCADE);
       with_now (field "timestamp" DateTimeField);
       nullable (field "soil_moisture" FloatField);
       nullable (field "humidity" FloatField);
       nullable (field "temperature_c" FloatField);
       nullable (field "grass_cover_pct" FloatField);
       nullable (field "ndvi" FloatField);
       nullable (field "hardness" FloatField);
       nullable (field "predicted_condition" (CharField 32));
       nullable (field "predicted_confidence" FloatField);
       nullable (field "measure_point" PointField) ])
    [].

Definition SoilSample : ModelDef :=
  mkModel "SoilSample"
    (PayloadModel ++
     [ field "pitch" (ForeignKey "Pitch" CASCADE);
       field "taken_at" DateTimeField;
       field "sample_point" PointField;
       nullable (field "ph" FloatField);
       nullable (field "organic_matter_pct" FloatField);
       nullable (field "nitrogen_mgkg" FloatField);
       nullable (field "phosphorus_mgkg" FloatField);
       nullable (field "potassium_mgkg" FloatField);
       nullable (field "lab_report" (FileField "soil_reports/")) ])
    [].

Definition SensorDevice : ModelDef :=
  mkModel "SensorDevice"
    (PayloadModel ++
     [ unique (field "uid" (CharField 120));
       nullable (field "label" (CharField 120));
       field "device_type" (CharField 80);
       nullable (field "installed_at" DateTimeField);
       nullable (field "last_heartbeat" DateTimeField);
       nullable (field "pitch" (ForeignKey "Pitch" SET_NULL)) ])
    [].

Definition SensorReading : ModelDef :=
  mkModel "SensorReading"
    (PayloadModel ++
     [ field "device" (ForeignKey "SensorDevice" CASCADE);
       with_now (field "timestamp" DateTimeField);
       field "value" FloatField;
       nullable (field "unit" (CharField 32));
       nullable (field "location" PointField) ])
    [].

(** Abstract: the columns [SatelliteImage] and [CameraImage] share. *)
Definition BaseImage : list Field :=
  TimeStampedModel ++ PayloadModel ++
  [ nullable (field "pitch" (ForeignKey "Pitch" CASCADE));
    field "acquired_at" DateTimeField;
    field "footprint" PolygonField;
    field "provider" (CharField 80);
    nullable (field "file_url" (CharField 1024)) ].

Definition SatelliteImage : ModelDef :=
  mkModel "SatelliteImage"
    (BaseImage ++
     [ nullable (field "product_id" (CharField 200));
       nullable (field "derived_indices" JSONField) ])
    [].

Definition CameraImage : ModelDef :=
  mkModel "CameraImage"
    (BaseImage ++
     [ field "image_file" (FileField "camera_images/");
       nullable (field "view_point" PointField) ])
    [].

Definition Team : ModelDef :=
  mkModel "Team"
    [ field "name" (CharField 200);
      nullable (field "code" (CharField 10));
      nullable (field "country" (CharField 80)) ]
    [].

Definition Player : ModelDef :=
  mkModel "Player"
    (PayloadModel ++
     [ nullable (field "team" (ForeignKey "Team" SET_NULL));
       field "first_name" (CharField 80);
       nullable (field "last_name" (CharField 80));
       nullable (field "jersey_no" PositiveIntegerField);
       nullable (field "role" (CharField 64)) ])
    [].

Definition Match : ModelDef :=
  mkModel "Match"
    (TimeStampedModel ++ PayloadModel ++
     [ nullable (field "pitch" (ForeignKey "Pitch" SET_NULL));
       nullable (field "stadium" (ForeignKey "Stadium" SET_NULL));
       field "name" (CharField 255);
       field "start_date" DateTimeField;
       nullable (field "end_date" DateTimeField) ])
    [].

(** [Match.teams = ManyToManyField(Team)]: the link table the mapper keeps
    for it. *)
Definition Match_teams : ModelDef :=
  mkModel "Match_teams"
    [ field "match" (ForeignKey "Match" CASCADE);
      field "team" (ForeignKey "Team" CASCADE) ]
    [ ["match"; "team"] ].

Definition Inning : ModelDef :=
  mkModel "Inning"
    [ field "match" (ForeignKey "Match" CASCADE);
      field "number" PositiveSmallIntegerField;
      nullable (field "batting_team" (ForeignKey "Team" SET_NULL));
      nullable (field "bowling_team" (ForeignKey "Team" SET_NULL));
      with_default (VInt 0) (field "overs" PositiveSmallIntegerField) ]
    [ ["match"; "number"] ].

Definition Over : ModelDef :=
  mkModel "Over"
    [ field "inning" (ForeignKey "Inning" CASCADE);
      field "number" PositiveSmallIntegerField;
      nullable (field "bowler" (ForeignKey "Player" SET_NULL));
      nullable (field "start_time" DateTimeField) ]
    [ ["inning"; "number"] ].

Definition Delivery : ModelDef :=
  mkModel "Delivery"
    (PayloadModel ++
     [ field "over" (ForeignKey "Over" CASCADE);
       field "ball_in_over" PositiveSmallIntegerField;
       nullable (field "batsman" (ForeignKey "Player" SET_NULL));
       nullable (field "bowler" (ForeignKey "Player" SET_NULL));
       with_now (field "timestamp" DateTimeField);
       nullable (field "pitch_point" PointField);
       nullable (field "impact_point" PointField);
       nullable (field "landing_distance" FloatField);
       nullable (field "speed_kmph" FloatField);
       nullable (field "spin_rpm" FloatField);
       nullable (field "outcome" (CharField 120)) ])
    [].

Definition PlayerTrackPoint : ModelDef :=
  mkModel "PlayerTrackPoint"
    (PayloadModel ++
     [ field "match" (ForeignKey "Match" CASCADE);
       field "player" (ForeignKey "Player" CASCADE);
       field "timestamp" DateTimeField;
       field "location" PointField;
       nullable (field "speed" FloatField);
       nullable (field "heading" FloatField) ])
    [].

Definition PitchMetric : ModelDef :=
  mkModel "PitchMetric"
    (TimeStampedModel ++
     [ field "pitch" (ForeignKey "Pitch" CASCADE);
       field "date" DateField;
       nullable (field "avg_soil_moisture" FloatField);
       nullable (field "avg_ndvi" FloatField);
       nullable (field "avg_grass_cover" FloatField);
       nullable (field "notes" TextField) ])
    [ ["pitch"; "date"] ].

Definition PitchAnalysis : ModelDef :=
  mkModel "PitchAnalysis"
    (TimeStampedModel ++
     [ field "snapshot" (ForeignKey "PitchSnapshot" CASCADE);
       field "model_name" (CharField 120);
       nullable (field "model_version" (CharField 50));
       field "prediction" (CharField 120);
       nullable (field "confidence" FloatField);
       nullable (field "details" JSONField) ])
    [].

Definition IngestionEvent : ModelDef :=
  mkModel "IngestionEvent"
    (TimeStampedModel ++ PayloadModel ++
     [ field "source" (CharField 120);
       nullable (field "finished_at" DateTimeField);
       with_default (VStr "pending") (field "status" (CharField 32));
       with_default (VInt 0) (field "items_processed" IntegerField) ])
    [].

Definition schema : Schema :=
  [ Stadium; StadiumFeature; Pitch; PitchSnapshot; SoilSample; SensorDevice;
    SensorReading; SatelliteImage; CameraImage; Team; Player; Match;
    Match_teams; Inning; Over; Delivery; PlayerTrackPoint; PitchMetric;
    PitchAnalysis; IngestionEvent ].

(** The models a deletion that starts at a Stadium, at a Pitch, at a
    SensorDevice can reach through [CASCADE] references. *)
Definition below_stadium : list string :=
  [ "Stadium"; "StadiumFeature"; "Pitch"; "PitchSnapshot"; "SoilSample";
    "SatelliteImage"; "CameraImage"; "PitchMetric"; "PitchAnalysis" ].

Definition below_pitch : list string :=
  [ "Pitch"; "PitchSnapshot"; "SoilSample"; "SatelliteImage"; "CameraImage";
    "PitchMetric"; "PitchAnalysis" ].

Definition below_device : list string := [ "SensorDevice"; "SensorReading" ].

(** The models whose rows go with their Pitch. *)
Definition pitch_children : list string :=
  [ "PitchSnapshot"; "SoilSample"; "SatelliteImage"; "CameraImage";
    "PitchMetric" ].


(** The models a deletion that starts at a Match, at a Team, at a Player can
    reach through [CASCADE] references. *)
Definition below_match : list string :=
  [ "Match"; "Match_teams"; "Inning"; "Over"; "Delivery";
    "PlayerTrackPoint" ].

Definition below_team : list string := [ "Team"; "Match_teams" ].



(** The models no reference column points to. *)
Definition unreferenced : list string :=
  [ "StadiumFeature"; "SoilSample"; "SensorReading"; "SatelliteImage";
    "CameraImage"; "Match_teams"; "Delivery"; "PlayerTrackPoint";
    "PitchMetric"; "PitchAnalysis"; "IngestionEvent" ].

(** A team with a player, every column filled as [create] fills it. *)
Definition squad : Store :=
  [ mkRow "Team" 1 (init_fields schema 0 "Team" [("name", VStr "Black Caps")]);
    mkRow "Player" 1
      (init_fields schema 0 "Player"
         [("team", VRef 1); ("first_name", VStr "Kane")]) ].

(** A small database: a stadium with a feature, a pitch with a snapshot (and
    its analysis), a metric, a device (and its reading) and a match; and a
    second stadium with its own pitch.  Only the key columns are filled. *)
Definition sample : Store :=
  [ mkRow "Stadium" 1 [("name", VStr "Eden Park"); ("slug", VStr "eden-park")];
    mkRow "StadiumFeature" 1 [("stadium", VRef 1); ("key", VStr "soil")];
    mkRow "Pitch" 1 [("stadium", VRef 1); ("name", VStr "Main")];
    mkRow "PitchSnapshot" 1 [("pitch", VRef 1)];
    mkRow "PitchAnalysis" 1 [("snapshot", VRef 1)];
    mkRow "PitchMetric" 1 [("pitch", VRef 1); ("date", VInt 20240101)];
    mkRow "SensorDevice" 1 [("uid", VStr "d-1"); ("pitch", VRef 1)];
    mkRow "SensorReading" 1 [("device", VRef 1)];
    mkRow "Match" 1
      [("pitch", VRef 1); ("stadium", VRef 1); ("name", VStr "Final")];
    mkRow "Stadium" 2 [("name", VStr "Newlands"); ("slug", VStr "newlands")];
    mkRow "Pitch" 2 [("stadium", VRef 2); ("name", VStr "Main")] ].

(** The columns of a complete Stadium row with the slug [eden-park]. *)
Definition eden_park : list (string * value) :=
  init_fields schema 0 "Stadium"
    [("name", VStr "Eden Park, Auckland"); ("slug", VStr "eden-park")].

End Cric.

(* ================================================================== *)
(** * geo/admin.py                                                     *)
(* ================================================================== *)

Module Admin.

Import Orm.

Record ModelAdmin : Type := mkAdmin {
  model : ModelDef;
  list_display : list string;
  list_filter : list string;
  search_fields : list string
}.

(** [from .models import Stadium, Pitch] *)
Definition StadiumAdmin : ModelAdmin :=
  mkAdmin GeoModels.Stadium
    ["name"; "city"; "country"]
    []
    ["name"; "city"; "country"].

Definition PitchAdmin : ModelAdmin :=
  mkAdmin GeoModels.Pitch
    ["name"; "stadium"; "surface_type"; "current_condition"]
    ["surface_type"; "current_condition"; "stadium"]
    ["name"; "stadium__name"].

Definition registry : list ModelAdmin := [StadiumAdmin; PitchAdmin].

End Admin.

(* ================================================================== *)
(** * geo/management/commands/seed_stadiums.py                         *)
(* ================================================================== *)

Module SeedStadiums.

Import Orm.
Import PrimFloat.

(** [from geo.models import Stadium, Pitch] *)
Definition schema : Schema := GeoModels.schema.

Definition help : string :=
  "Seed 10 famous international cricket stadiums (excluding India) with sample pitches".

Record Venue : Type := mkVenue {
  name : string;
  country : string;
  coords : float * float
}.

(** The decimal literals stand for the binary64 numbers nearest to them. *)
#[warnings="-inexact-float"]
Definition stadiums_data : list Venue :=
  [ mkVenue "Lord's Cricket Ground" "England" (51.5281, -0.1720)%float;
    mkVenue "Melbourne Cricket Ground" "Australia" (-37.8199, 144.9834)%float;
    mkVenue "Eden Park" "New Zealand" (-36.8485, 174.7670)%float;
    mkVenue "The Oval" "England" (51.4826, -0.1122)%float;
    mkVenue "SCG - Sydney Cricket Ground" "Australia"
      (-33.8912, 151.2241)%float;
    mkVenue "Wellington Regional Stadium" "New Zealand"
      (-41.3048, 174.7815)%float;
    mkVenue "Old Trafford Cricket Ground" "England" (53.4560, -2.2910)%float;
    mkVenue "Kensington Oval" "Barbados" (13.0936, -59.6100)%float;
    mkVenue "Queen's Park Oval" "Trinidad & Tobago"
      (10.6541, -61.5168)%float;
    mkVenue "Newlands" "South Africa" (-33.9460, 18.4647)%float ].

(** A line written to the command's standard output, with the style it was
    given. *)
Inductive Line : Type :=
| SUCCESS (text : string)
| Plain (text : string).

(** What the command acts on: the database and its standard output. *)
Record World : Type := mkWorld {
  db : Store;
  stdout : list Line
}.

Definition on_db {A : Type} (m : M Store A) : M World A :=
  fun w =>
    match m (db w) with
    | (res, db') => (res, mkWorld db' (stdout w))
    end.

Definition write (l : Line) : M World unit :=
  fun w => (Ok tt, mkWorld (db w) (stdout w ++ [l])).

Definition lift {S A : Type} (r : Result A) : M S A := fun s => (r, s).

(** [str(x)] for what a [CharField] attribute can hold. *)
Definition str (v : value) : string :=
  match v with
  | VStr s => s
  | _ => "None"
  end.

#[warnings="-inexact-float"]
Definition delta : float := 0.0003%float.

(** The ring of the sample pitch around [(lon, lat)]; the sums and
    differences are those of binary64. *)
Definition pitch_ring (lat lon : float) : list (float * float) :=
  [ (lon - delta, lat - delta);
    (lon - delta, lat + delta);
    (lon + delta, lat + delta);
    (lon + delta, lat - delta);
    (lon - delta, lat - delta) ]%float.

Local Open Scope orm_scope.

(** The body of the loop, for one entry [data] of [stadiums_data]. *)
Definition seed_one (now : Z) (data : Venue) : M World unit :=
  ' (stadium, created) <-
      on_db (get_or_create schema now "Stadium"
               [ ("name", VStr (name data)) ]
               [ ("country", VStr (country data));
                 ("location",
                  Geos.Point (snd (coords data)) (fst (coords data))) ]) ;;
  if created : bool then
    let '(lat, lon) := coords data in
    polygon <- lift (Geos.Polygon (pitch_ring lat lon)) ;;
    _ <- on_db (create schema now "Pitch"
                  [ ("stadium", VRef (row_pk stadium));
                    ("name", VStr "Main Pitch");
                    ("area", polygon);
                    ("centroid", attr "location" stadium);
                    ("surface_type", VStr "grass");
                    ("current_condition", VStr "balanced") ]) ;;
    write (SUCCESS (String.append "Created stadium and pitch: "
                                  (str (attr "name" stadium))))
  else
    write (Plain (String.append "Stadium already exists: "
                                (str (attr "name" stadium)))).

(** [for data in l: body(data)] *)
Fixpoint for_each {S A : Type} (l : list A) (body : A -> M S unit)
  : M S unit :=
  match l with
  | [] => ret tt
  | a :: l' => body a ;;; for_each l' body
  end.

Definition handle (now : Z) : M World unit :=
  for_each stadiums_data (seed_one now).

(** The command run against a database, with an empty output. *)
Definition run (now : Z) (d : Store) : Result unit * World :=
  handle now (mkWorld d []).

(** ** Vocabulary for the statements about the command *)

(** The Stadium rows that carry the name [n]. *)
Definition named (n : string) (d : Store) : list Row :=
  filter (matches [("name", VStr n)]) (table "Stadium" d).

Definition absent (n : string) (d : Store) : bool :=
  match named n d with [] => true | _ :: _ => false end.

(** The Pitch rows of [d] whose [stadium] column holds the key of [s]. *)
Definition pitches_of (s : Row) (d : Store) : list Row :=
  filter (fun p => is_model "Pitch" p
                   && value_eqb (attr "stadium" p) (VRef (row_pk s))) d.

(** The two lines the command can write for a venue. *)
Definition created_line (v : Venue) : Line :=
  SUCCESS (String.append "Created stadium and pitch: " (name v)).

Definition exists_line (v : Venue) : Line :=
  Plain (String.append "Stadium already exists: " (name v)).

Definition line_for (d : Store) (v : Venue) : Line :=
  if absent (name v) d then created_line v else exists_line v.

(** The rows the loop body stores for a venue that has no Stadium yet. *)
Definition stadium_row (d : Store) (v : Venue) : Row :=
  mkRow "Stadium" (next_pk "Stadium" d)
    [ ("name", VStr (name v));
      ("city", VNull);
      ("country", VStr (country v));
      ("location", VPoint (snd (coords v)) (fst (coords v))) ].

Definition pitch_row (d : Store) (v : Venue) : Row :=
  mkRow "Pitch" (next_pk "Pitch" d)
    [ ("stadium", VRef (next_pk "Stadium" d));
      ("name", VStr "Main Pitch");
      ("area", VPolygon (pitch_ring (fst (coords v)) (snd (coords v))));
      ("centroid", VPoint (snd (coords v)) (fst (coords v)));
      ("surface_type", VStr "grass");
      ("current_condition", VStr "balanced") ].

(** The name and the country fit their columns, and the ring of the sample
    pitch makes a polygon. *)
Definition venue_ok (v : Venue) : bool :=
  Nat.leb (Text.chars (name v)) 255
  && Nat.leb (Text.chars (country v)) 80
  && match Geos.Polygon (pitch_ring (fst (coords v)) (snd (coords v))) with
     | Ok _ => true
     | Raise _ => false
     end.

(** What is checked of the ring of a venue, on the exact numbers its
    binary64 coordinates stand for: it is a rectangle with its centroid at
    the location, axis-aligned, with sides of 0.0006 up to 1e-13; it runs
    clockwise around an area of 0.0006 by 0.0006 up to 1e-16; the location
    and the corners are on the globe. *)
Definition ring_ok (v : Venue) : bool :=
  let lat := fst (coords v) in
  let lon := snd (coords v) in
  match Binary64.exact_ring (pitch_ring lat lon),
        Binary64.exact_coord (lon, lat) with
  | Some R, Some o =>
      Plane.rectangle R
      && Plane.coord_eqb (Plane.centroid R) o
      && Plane.axis_aligned_box R o
      && Plane.nearb 1e-13 (fst (Plane.spans R)) 0.0006
      && Plane.nearb 1e-13 (snd (Plane.spans R)) 0.0006
      && negb (Qle_bool 0 (Plane.signed_area R))
      && Plane.nearb 1e-16 (Plane.signed_area R) (- (0.0006 * 0.0006))
      && Binary64.geodetic (lon, lat)
      && forallb Binary64.geodetic (pitch_ring lat lon)
  | _, _ => false
  end.

(** Rows stored pairwise: a Stadium row, then at once the Pitch row that
    refers to it. *)
Inductive paired : list Row -> Prop :=
| paired_nil : paired []
| paired_cons (s p : Row) (rest : list Row) :
    is_model "Stadium" s = true ->
    is_model "Pitch" p = true ->
    row_get "stadium" p = Some (VRef (row_pk s)) ->
    paired rest ->
    paired (s :: p :: rest).

(** The rows a run appends to a store [d]: for one venue of [vs] after the
    other, the Stadium row and the Pitch row of the loop body, each pair
    computed on the store as the pairs before it left it. *)
Inductive seeded (vs : list Venue) : Store -> list Row -> Prop :=
| seeded_nil (d : Store) : seeded vs d []
| seeded_cons (d : Store) (v : Venue) (rest : list Row) :
    In v vs ->
    seeded vs (d ++ [stadium_row d v; pitch_row d v]) rest ->
    seeded vs d (stadium_row d v :: pitch_row d v :: rest).

(** Stores in which a venue's name is carried by two Stadium rows (what
    two [create] calls with that name leave behind), and one in which a
    venue's Stadium exists once. *)
Definition bare_stadium (pk : nat) (n : string) : Row :=
  mkRow "Stadium" pk
    [ ("name", VStr n); ("city", VNull); ("country", VNull);
      ("location", VNull) ].

Definition two_lords : Store :=
  [ bare_stadium 1 "Lord's Cricket Ground";
    bare_stadium 2 "Lord's Cricket Ground" ].

Definition two_edens : Store :=
  [ bare_stadium 1 "Eden Park"; bare_stadium 2 "Eden Park" ].

Definition one_oval : Store := [ bare_stadium 7 "The Oval" ].

(** The first and the third venue of the table. *)
#[warnings="-inexact-float"]
Definition lords : Venue :=
  mkVenue "Lord's Cricket Ground" "England" (51.5281, -0.1720)%float.

#[warnings="-inexact-float"]
Definition eden_park : Venue :=
  mkVenue "Eden Park" "New Zealand" (-36.8485, 174.7670)%float.

(** The first number of [coords] is within the bounds of a latitude; the
    second is not always. *)
Definition latitude_first (v : Venue) : bool :=
  Binary64.between (-90)%float 90%float (fst (coords v)).

Definition beyond_latitude (v : Venue) : bool :=
  negb (Binary64.between (-90)%float 90%float (snd (coords v))).

(** A name of 128 characters that takes 256 bytes: 128 times the letter
    e with an acute accent. *)
Fixpoint times (k : nat) (s : string) : string :=
  match k with
  | O => EmptyString
  | Datatypes.S k' => String.append s (times k' s)
  end.

Definition accents : string :=
  times 128 (String (Ascii.ascii_of_nat 195)
               (String (Ascii.ascii_of_nat 169) EmptyString)).

(** [Model.objects.create(name=n)] twice. *)
Definition create_twice (n : string) : M Store Row :=
  bind (create schema 0 "Stadium" [("name", VStr n)])
       (fun _ => create schema 0 "Stadium" [("name", VStr n)]).

End SeedStadiums.

(* ================================================================== *)
(** * The methods of geo/models.py                                     *)
(* ================================================================== *)

Module ModelsPy.

Import Orm.


(** What the source has between the two names of [Pitch.__str__]: the eight
    bytes that encode the characters U+00E2, U+20AC and U+201D. *)
Definition separator : string :=
  String (Ascii.ascii_of_nat 195) (String (Ascii.ascii_of_nat 162)
  (String (Ascii.ascii_of_nat 226) (String (Ascii.ascii_of_nat 130)
  (String (Ascii.ascii_of_nat 172) (String (Ascii.ascii_of_nat 226)
  (String (Ascii.ascii_of_nat 128) (String (Ascii.ascii_of_nat 157)
  EmptyString))))))).

(** [Pitch.__str__]: the name of the pitch's stadium, read through the
    reference, then the name of the pitch. *)
Definition Pitch_str (self : Row) : M Store string :=
  bind (related GeoModels.schema self "stadium")
       (fun stadium =>
          ret (String.append (SeedStadiums.str (attr "name" stadium))
                 (String.append " "
                    (String.append separator
                       (String.append " "
                          (SeedStadiums.str (attr "name" self))))))).

End ModelsPy.

(* ================================================================== *)
(** * Facts about the mapper                                           *)
(* ================================================================== *)

Module OrmFacts.

Import Orm.




(** A text that fits its column is stored as it is. *)
Lemma take_all (n : nat) (s : string) :
  Text.chars s <= n -> Text.take n s = s.
Proof.
  revert n. induction s as [|a s IH]; intros n H; simpl in *; [reflexivity|].
  destruct (Text.continuation a).
  - f_equal. apply IH. exact H.
  - destruct n as [|n]; [lia|]. f_equal. apply IH. lia.
Qed.

Lemma chars_take (n : nat) (s : string) : Text.chars (Text.take n s) <= n.
Proof.
  revert n. induction s as [|a s IH]; intros n; simpl; [lia|].
  destruct (Text.continuation a) eqn:E; simpl; rewrite ?E.
  - apply IH.
  - destruct n as [|n]; simpl; [lia|]. rewrite E. specialize (IH n). lia.
Qed.

Lemma value_eqb_VStr (v : value) (s : string) :
  value_eqb v (VStr s) = true <-> v = VStr s.
Proof.
  destruct v; simpl; split; intros H; try discriminate.
  - apply String.eqb_eq in H. now subst.
  - inversion H. apply String.eqb_refl.
Qed.

Lemma value_eqb_VRef (v : value) (k : nat) :
  value_eqb v (VRef k) = true <-> v = VRef k.
Proof.
  destruct v; simpl; split; intros H; try discriminate.
  - apply Nat.eqb_eq in H. now subst.
  - inversion H. apply Nat.eqb_refl.
Qed.

Lemma table_app (m : string) (d e : Store) :
  table m (d ++ e) = table m d ++ table m e.
Proof. apply filter_app. Qed.

Lemma table_In (m : string) (d : Store) (r : Row) :
  In r (table m d) <-> In r d /\ row_model r = m.
Proof.
  unfold table, is_model. rewrite filter_In, String.eqb_eq. tauto.
Qed.

Lemma key_eqb_eq (a b : Key) : key_eqb a b = true <-> a = b.
Proof.
  destruct a as [m i], b as [n j]. unfold key_eqb. simpl.
  rewrite andb_true_iff, String.eqb_eq, Nat.eqb_eq.
  split; [intros [-> ->]; reflexivity | intros H; inversion H; auto].
Qed.

Lemma in_keys_In (k : Key) (ks : list Key) : in_keys k ks = true <-> In k ks.
Proof.
  unfold in_keys. rewrite existsb_exists. split.
  - intros [x [Hx E]]. apply key_eqb_eq in E. now subst.
  - intros H. exists k. split; [assumption | now apply key_eqb_eq].
Qed.

Lemma filter_nil {A : Type} (f : A -> bool) (l : list A) :
  (forall x, In x l -> f x = false) -> filter f l = [].
Proof.
  induction l as [|a l IH]; intros H; simpl; [reflexivity|].
  rewrite (H a (or_introl eq_refl)). apply IH. intros x Hx. apply H. now right.
Qed.

(** ** Deletion *)

Section Deletion.

Variable S : Schema.

Lemma collect_mono (fuel : nat) (db : Store) (doomed : list Key) (k : Key) :
  In k doomed -> In k (collect S fuel db doomed).
Proof.
  revert doomed. induction fuel as [|n IH]; intros doomed H; simpl; [exact H|].
  destruct (doomed_next S db doomed) as [|r more]; [exact H|].
  apply IH. apply in_or_app. now left.
Qed.

(** One round is enough for the rows that refer to a doomed row directly. *)
Lemma collect_direct (fuel : nat) (db : Store) (doomed : list Key) (r : Row) :
  In r db -> cascades S doomed r = true ->
  In (key_of r) (collect S (Datatypes.S fuel) db doomed).
Proof.
  intros Hr Hc. simpl.
  destruct (in_keys (key_of r) doomed) eqn:E.
  - apply in_keys_In in E.
    destruct (doomed_next S db doomed); [exact E|].
    apply collect_mono. apply in_or_app. now left.
  - assert (Hn : In r (doomed_next S db doomed)).
    { unfold doomed_next. apply filter_In. split; [exact Hr|].
      now rewrite E, Hc. }
    destruct (doomed_next S db doomed) as [|r0 more] eqn:En; [contradiction|].
    apply collect_mono. apply in_or_app. right.
    exact (in_map key_of _ _ Hn).
Qed.

Lemma find_model_some (m : string) (d : ModelDef) :
  find_model S m = Some d -> In d S /\ m_name d = m.
Proof.
  induction S as [|d0 S' IH]; simpl; [discriminate|].
  destruct (String.eqb (m_name d0) m) eqn:E.
  - intros H. inversion H; subst. apply String.eqb_eq in E. auto.
  - intros H. destruct (IH H). auto.
Qed.

Lemma find_field_some (m f : string) (fd : Field) :
  find_field S m f = Some fd -> In fd (fields_of S m) /\ f_name fd = f.
Proof.
  unfold find_field. intros H. apply find_some in H.
  destruct H as [H E]. apply String.eqb_eq in E. auto.
Qed.

Lemma cascades_via (doomed : list Key) (r : Row) (f to : string) (pk : nat)
  (fd : Field) :
  find_field S (row_model r) f = Some fd ->
  f_kind fd = ForeignKey to CASCADE ->
  row_get f r = Some (VRef pk) ->
  In (to, pk) doomed ->
  cascades S doomed r = true.
Proof.
  intros Hf Hk Hv Hd. apply find_field_some in Hf. destruct Hf as [Hin Hn].
  unfold cascades. apply existsb_exists. exists fd. split; [exact Hin|].
  unfold points_to. rewrite Hk, Hn, Hv. simpl.
  now apply in_keys_In.
Qed.

(** The collector stays inside a set of models closed under CASCADE. *)
Lemma cascades_model (R : list string) (doomed : list Key) (r : Row) :
  closed_under_cascade S R = true ->
  (forall k, In k doomed -> mem (fst k) R = true) ->
  cascades S doomed r = true ->
  mem (row_model r) R = true.
Proof.
  intros Hc Hd H. unfold cascades in H. apply existsb_exists in H.
  destruct H as (fd & Hin & Hp). unfold fields_of in Hin.
  destruct (find_model S (row_model r)) as [md|] eqn:Em; [|contradiction].
  apply find_model_some in Em. destruct Em as [Hmd Hname].
  unfold closed_under_cascade in Hc. rewrite forallb_forall in Hc.
  specialize (Hc md Hmd). rewrite forallb_forall in Hc. specialize (Hc fd Hin).
  unfold points_to in Hp.
  destruct (f_kind fd) as [| | | | | | | | | | | | | |to od]; try discriminate.
  destruct (row_get (f_name fd) r) as [[| | | |pk| |]|]; try discriminate.
  destruct od; [|discriminate]. simpl in Hp.
  apply in_keys_In in Hp. specialize (Hd _ Hp). simpl in Hd.
  rewrite Hd, Hname in Hc. exact Hc.
Qed.

Lemma collect_models (R : list string) (fuel : nat) (db : Store)
  (doomed : list Key) :
  closed_under_cascade S R = true ->
  (forall k, In k doomed -> mem (fst k) R = true) ->
  forall k, In k (collect S fuel db doomed) -> mem (fst k) R = true.
Proof.
  intros Hc. revert doomed. induction fuel as [|n IH]; intros doomed Hd k Hk;
    simpl in Hk; [now apply Hd|].
  destruct (doomed_next S db doomed) as [|r more] eqn:En; [now apply Hd|].
  apply (IH (doomed ++ map key_of (r :: more))); [|exact Hk].
  intros k' Hk'. apply in_app_or in Hk'. destruct Hk' as [Hk'|Hk'].
  - now apply Hd.
  - apply in_map_iff in Hk'. destruct Hk' as (r' & <- & Hr').
    rewrite <- En in Hr'. unfold doomed_next in Hr'. apply filter_In in Hr'.
    destruct Hr' as [_ Hr']. apply andb_true_iff in Hr'.
    simpl. eapply cascades_model; [exact Hc | exact Hd | apply Hr'].
Qed.

(** What [delete] leaves: the surviving rows, after [set_null]. *)
Lemma delete_ok (k : Key) (db : Store) : fst (delete S k db) = Ok tt.
Proof. reflexivity. Qed.

Lemma key_of_set_null (doomed : list Key) (r : Row) :
  key_of (set_null S doomed r) = key_of r.
Proof. reflexivity. Qed.

Lemma delete_In (k : Key) (db : Store) (r' : Row) :
  In r' (snd (delete S k db)) ->
  exists r, In r db
            /\ survives (collect S (length db) db [k]) r = true
            /\ r' = set_null S (collect S (length db) db [k]) r.
Proof.
  unfold delete. simpl. intros H. apply in_map_iff in H.
  destruct H as (r & <- & Hr). apply filter_In in Hr. exists r. tauto.
Qed.

Lemma delete_removes_key (k : Key) (db : Store) (r' : Row) :
  In r' (snd (delete S k db)) -> key_of r' <> k.
Proof.
  intros H E. apply delete_In in H. destruct H as (r & _ & Hs & ->).
  rewrite key_of_set_null in E. unfold survives in Hs.
  apply negb_true_iff in Hs.
  assert (Hin : in_keys (key_of r) (collect S (length db) db [k]) = true).
  { apply in_keys_In. apply collect_mono. rewrite E. now left. }
  congruence.
Qed.

Lemma delete_removes_child (k : Key) (db : Store) (c : Row) :
  In c db -> cascades S [k] c = true ->
  forall r', In r' (snd (delete S k db)) -> key_of r' <> key_of c.
Proof.
  intros Hc Hcas r' H E. apply delete_In in H. destruct H as (r & _ & Hs & ->).
  rewrite key_of_set_null in E. unfold survives in Hs.
  apply negb_true_iff in Hs.
  assert (Hin : in_keys (key_of r) (collect S (length db) db [k]) = true).
  { apply in_keys_In. rewrite E.
    destruct db as [|r0 db']; [contradiction|].
    apply collect_direct; assumption. }
  congruence.
Qed.

Lemma delete_keeps (R : list string) (k : Key) (db : Store) (r : Row) :
  closed_under_cascade S R = true ->
  mem (fst k) R = true ->
  mem (row_model r) R = false ->
  In r db ->
  In (set_null S (collect S (length db) db [k]) r) (snd (delete S k db)).
Proof.
  intros Hc Hk Hr Hin. unfold delete. simpl. apply in_map.
  apply filter_In. split; [exact Hin|]. unfold survives.
  apply negb_true_iff. apply not_true_is_false. intros E.
  apply in_keys_In in E.
  assert (Hm : mem (fst (key_of r)) R = true).
  { eapply collect_models; [exact Hc | | exact E].
    intros k' [<- | []]. exact Hk. }
  simpl in Hm. congruence.
Qed.

Lemma nullify_fst (doomed : list Key) (m : string) (kv : string * value) :
  fst (nullify S doomed m kv) = fst kv.
Proof.
  unfold nullify. destruct (find_field S m (fst kv)) as [fd|]; [|reflexivity].
  destruct (snd kv); try reflexivity.
  destruct (f_kind fd) as [| | | | | | | | | | | | | |to od]; try reflexivity.
  destruct od; [reflexivity|].
  destruct (in_keys (to, pk) doomed); reflexivity.
Qed.

Lemma assoc_nullify (doomed : list Key) (m f : string)
  (l : list (string * value)) :
  assoc f (map (nullify S doomed m) l)
  = option_map (fun v => snd (nullify S doomed m (f, v))) (assoc f l).
Proof.
  induction l as [|[k v] l IH]; simpl; [reflexivity|].
  pose proof (nullify_fst doomed m (k, v)) as Hf.
  destruct (nullify S doomed m (k, v)) as [k' v'] eqn:E. simpl in Hf. subst k'.
  destruct (String.eqb f k) eqn:Ef.
  - apply String.eqb_eq in Ef. subst k. simpl. now rewrite E.
  - exact IH.
Qed.

Lemma row_get_set_null (doomed : list Key) (f : string) (r : Row) :
  row_get f (set_null S doomed r)
  = option_map (fun v => snd (nullify S doomed (row_model r) (f, v)))
               (row_get f r).
Proof. unfold row_get, set_null. simpl. apply assoc_nullify. Qed.

(** A [SET_NULL] reference to a doomed row becomes NULL. *)
Lemma set_null_clears (doomed : list Key) (r : Row) (f to : string) (pk : nat)
  (fd : Field) :
  find_field S (row_model r) f = Some fd ->
  f_kind fd = ForeignKey to SET_NULL ->
  row_get f r = Some (VRef pk) ->
  In (to, pk) doomed ->
  row_get f (set_null S doomed r) = Some VNull.
Proof.
  intros Hf Hk Hv Hd. rewrite row_get_set_null, Hv. simpl.
  unfold nullify. simpl. rewrite Hf, Hk.
  apply in_keys_In in Hd. now rewrite Hd.
Qed.

(** Every other column keeps its value. *)
Lemma set_null_keeps (doomed : list Key) (r : Row) (f : string) :
  ~ In f (set_null_columns S (row_model r)) ->
  row_get f (set_null S doomed r) = row_get f r.
Proof.
  intros Hn. rewrite row_get_set_null.
  destruct (row_get f r) as [v|]; [|reflexivity]. simpl. f_equal.
  unfold nullify. simpl.
  destruct (find_field S (row_model r) f) as [fd|] eqn:Ef; [|reflexivity].
  destruct v; try reflexivity.
  destruct (f_kind fd) as [| | | | | | | | | | | | | |to od] eqn:Ek;
    try reflexivity.
  destruct od; [reflexivity|].
  exfalso. apply Hn. apply find_field_some in Ef. destruct Ef as [Hin <-].
  unfold set_null_columns. apply in_map. apply filter_In.
  split; [exact Hin|]. now rewrite Ek.
Qed.

End Deletion.

(** ** The collector reaches its closure *)

Section Closure.

Variable S : Schema.

Lemma filter_length_mono {A : Type} (f g : A -> bool) (l : list A) :
  (forall x, In x l -> f x = true -> g x = true) ->
  length (filter f l) <= length (filter g l).
Proof.
  induction l as [|a l IH]; intros H; simpl; [lia|].
  assert (IH' : length (filter f l) <= length (filter g l)).
  { apply IH. intros x Hx. apply H. now right. }
  pose proof (H a (or_introl eq_refl)) as Ha.
  destruct (f a); destruct (g a); simpl; try lia;
    specialize (Ha eq_refl); discriminate.
Qed.

Lemma filter_length_strict {A : Type} (f g : A -> bool) (l : list A) (r : A) :
  (forall x, In x l -> f x = true -> g x = true) ->
  In r l -> g r = true -> f r = false ->
  length (filter f l) < length (filter g l).
Proof.
  induction l as [|a l IH]; intros H Hr Hg Hf; [contradiction|].
  simpl. destruct Hr as [-> | Hr].
  - rewrite Hg, Hf. simpl.
    pose proof (filter_length_mono f g l
                  (fun x Hx => H x (or_intror Hx))). lia.
  - assert (IH' : length (filter f l) < length (filter g l)).
    { apply IH; auto. intros x Hx. apply H. now right. }
    pose proof (H a (or_introl eq_refl)) as Ha.
    destruct (f a); destruct (g a); simpl; try lia;
      specialize (Ha eq_refl); discriminate.
Qed.

Lemma survives_app (doomed more : list Key) (r : Row) :
  survives (doomed ++ more) r = true -> survives doomed r = true.
Proof.
  unfold survives, in_keys. rewrite existsb_app, negb_orb, andb_true_iff.
  tauto.
Qed.

(** With as much fuel as there are rows not yet doomed, the collector ends
    on a set that no surviving row cascades from. *)
Lemma collect_closed (fuel : nat) (db : Store) (doomed : list Key) :
  length (filter (survives doomed) db) <= fuel ->
  doomed_next S db (collect S fuel db doomed) = [].
Proof.
  revert doomed. induction fuel as [|n IH]; intros doomed Hfuel; simpl.
  - apply filter_nil. intros r Hr.
    destruct (filter (survives doomed) db) eqn:E; [|simpl in Hfuel; lia].
    assert (Hs : survives doomed r = false).
    { destruct (survives doomed r) eqn:Es; [|reflexivity].
      assert (Hin : In r (filter (survives doomed) db))
        by (apply filter_In; auto).
      rewrite E in Hin. contradiction. }
    unfold survives in Hs. now rewrite Hs.
  - destruct (doomed_next S db doomed) as [|r more] eqn:En; [exact En|].
    apply IH.
    assert (Hr : In r (doomed_next S db doomed)) by (rewrite En; now left).
    unfold doomed_next in Hr. apply filter_In in Hr. destruct Hr as [Hr Hp].
    apply andb_true_iff in Hp. destruct Hp as [Hp _].
    assert (Hlt : length (filter (survives (doomed ++ map key_of (r :: more))) db)
                  < length (filter (survives doomed) db)).
    { apply (filter_length_strict _ _ db r).
      - intros x _. apply survives_app.
      - exact Hr.
      - exact Hp.
      - unfold survives. apply negb_false_iff. apply in_keys_In.
        apply in_or_app. right. now left. }
    simpl map in Hlt. lia.
Qed.

(** After [delete], no row that is left cascades from a row that is gone. *)
Lemma delete_closed (k : Key) (db : Store) (r : Row) :
  In r db ->
  survives (collect S (length db) db [k]) r = true ->
  cascades S (collect S (length db) db [k]) r = false.
Proof.
  intros Hr Hs.
  assert (Hc : doomed_next S db (collect S (length db) db [k]) = []).
  { apply collect_closed. apply filter_length_le. }
  destruct (cascades S (collect S (length db) db [k]) r) eqn:E; [|reflexivity].
  assert (Hin : In r (doomed_next S db (collect S (length db) db [k]))).
  { unfold doomed_next. apply filter_In. split; [exact Hr|].
    unfold survives in Hs. now rewrite Hs, E. }
  rewrite Hc in Hin. contradiction.
Qed.

End Closure.

(** ** Referential integrity after deletion *)

Section Integrity.

Variable S : Schema.

Lemma find_by_name (l : list Field) (fd : Field) :
  NoDup (map f_name l) -> In fd l ->
  find (fun x => String.eqb (f_name x) (f_name fd)) l = Some fd.
Proof.
  induction l as [|a l IH]; intros Hnd Hin; [contradiction|].
  simpl in Hnd. inversion Hnd as [|? ? Hnotin Hnd']; subst. simpl.
  destruct Hin as [-> | Hin].
  - now rewrite String.eqb_refl.
  - destruct (String.eqb (f_name a) (f_name fd)) eqn:E.
    + apply String.eqb_eq in E. exfalso. apply Hnotin. rewrite E.
      now apply in_map.
    + now apply IH.
Qed.

(** After [delete], no reference column of a row that is left holds the key
    of a row that is gone. *)
Lemma delete_no_dangling (k : Key) (db : Store) (r' : Row) (fd : Field)
  (to : string) (od : OnDelete) (pk : nat) :
  NoDup (field_names S (row_model r')) ->
  In r' (snd (delete S k db)) ->
  In fd (fields_of S (row_model r')) ->
  f_kind fd = ForeignKey to od ->
  row_get (f_name fd) r' = Some (VRef pk) ->
  ~ In (to, pk) (collect S (length db) db [k]).
Proof.
  intros Hnd Hr' Hfd Hk Hv Hin.
  apply delete_In in Hr'. destruct Hr' as (r & Hr & Hs & ->).
  change (row_model (set_null S (collect S (length db) db [k]) r))
    with (row_model r) in *.
  assert (Hf : find_field S (row_model r) (f_name fd) = Some fd)
    by (apply find_by_name; assumption).
  rewrite row_get_set_null in Hv.
  destruct (row_get (f_name fd) r) as [v|] eqn:Ev; [|discriminate].
  simpl in Hv. unfold nullify in Hv. simpl in Hv. rewrite Hf, Hk in Hv.
  apply in_keys_In in Hin.
  destruct v; try discriminate. destruct od.
  - inversion Hv; subst.
    pose proof (delete_closed S k db r Hr Hs) as Hc.
    unfold cascades in Hc.
    assert (Hp : points_to CASCADE (collect S (length db) db [k]) r fd = true).
    { unfold points_to. rewrite Hk, Ev. simpl. exact Hin. }
    assert (Hex : existsb (points_to CASCADE (collect S (length db) db [k]) r)
                    (fields_of S (row_model r)) = true).
    { apply existsb_exists. exists fd. auto. }
    congruence.
  - destruct (in_keys (to, pk0) (collect S (length db) db [k])) eqn:E.
    + discriminate.
    + inversion Hv; subst. congruence.
Qed.

End Integrity.

Lemma field_names_nodup (S : Schema) (m : string) :
  Forall (fun d => NoDup (map f_name (m_fields d))) S ->
  NoDup (field_names S m).
Proof.
  intros H. unfold field_names, fields_of.
  destruct (find_model S m) as [d|] eqn:E; [|constructor].
  apply find_model_some in E. destruct E as [Hd _].
  rewrite Forall_forall in H. now apply H.
Qed.

(** ** Uniqueness *)

Section Uniqueness.

Variable S : Schema.




End Uniqueness.

(** ** More about deletion *)
Section MoreDeletion.

Variable S : Schema.

(** A row that cascades from the rows that go, goes. *)
Lemma collect_absorbs (k : Key) (db : Store) (c : Row) :
  In c db ->
  cascades S (collect S (length db) db [k]) c = true ->
  In (key_of c) (collect S (length db) db [k]).
Proof.
  intros Hc Hcas. apply in_keys_In.
  destruct (in_keys (key_of c) (collect S (length db) db [k])) eqn:E;
    [reflexivity|].
  assert (Hs : survives (collect S (length db) db [k]) c = true)
    by (unfold survives; now rewrite E).
  pose proof (delete_closed S k db c Hc Hs). congruence.
Qed.

Lemma delete_removes_doomed (k : Key) (db : Store) (key : Key) :
  In key (collect S (length db) db [k]) ->
  forall r', In r' (snd (delete S k db)) -> key_of r' <> key.
Proof.
  intros Hk r' H E. apply delete_In in H. destruct H as (r & _ & Hs & ->).
  rewrite key_of_set_null in E. unfold survives in Hs.
  apply negb_true_iff in Hs. apply in_keys_In in Hk. congruence.
Qed.

(** A step down a [CASCADE] reference: the row that refers to a row that
    goes, goes. *)
Lemma collect_step (k : Key) (db : Store) (c : Row) (f to : string)
  (pk : nat) (fd : Field) :
  In c db ->
  find_field S (row_model c) f = Some fd ->
  f_kind fd = ForeignKey to CASCADE ->
  row_get f c = Some (VRef pk) ->
  In (to, pk) (collect S (length db) db [k]) ->
  In (key_of c) (collect S (length db) db [k]).
Proof.
  intros Hc Hf Hk Hv Hin. apply collect_absorbs; [exact Hc|].
  eapply cascades_via; eassumption.
Qed.

Lemma map_nullify_id (R : list string) (doomed : list Key) (m : string)
  (l : list (string * value)) :
  no_set_null_into S R = true ->
  (forall key, In key doomed -> mem (fst key) R = true) ->
  map (nullify S doomed m) l = l.
Proof.
  intros Hn Hd. rewrite <- (map_id l) at 2. apply map_ext. intros [f v].
  unfold nullify. simpl.
  destruct (find_field S m f) as [fd|] eqn:Ef; [|reflexivity].
  destruct v; try reflexivity.
  destruct (f_kind fd) as [| | | | | | | | | | | | | |to od] eqn:Ek;
    try reflexivity.
  destruct od; [reflexivity|].
  destruct (in_keys (to, pk) doomed) eqn:E; [|reflexivity].
  exfalso. apply in_keys_In in E. specialize (Hd _ E). simpl in Hd.
  apply find_field_some in Ef. destruct Ef as [Hin _].
  unfold fields_of in Hin.
  destruct (find_model S m) as [md|] eqn:Em; [|contradiction].
  apply find_model_some in Em. destruct Em as [Hmd _].
  unfold no_set_null_into in Hn. rewrite forallb_forall in Hn.
  specialize (Hn md Hmd). rewrite forallb_forall in Hn.
  specialize (Hn fd Hin). rewrite Ek, Hd in Hn. discriminate.
Qed.

Lemma set_null_id (R : list string) (doomed : list Key) (r : Row) :
  no_set_null_into S R = true ->
  (forall key, In key doomed -> mem (fst key) R = true) ->
  set_null S doomed r = r.
Proof.
  intros Hn Hd. unfold set_null. rewrite (map_nullify_id R); auto.
  now destruct r.
Qed.

(** The same for the rows of one model, when none of its [SET_NULL]
    references points to a model of [R]. *)
Lemma set_null_id_model (R : list string) (doomed : list Key) (r : Row) :
  forallb (fun f => match f_kind f with
                    | ForeignKey to SET_NULL => negb (mem to R)
                    | _ => true
                    end) (fields_of S (row_model r)) = true ->
  (forall key, In key doomed -> mem (fst key) R = true) ->
  set_null S doomed r = r.
Proof.
  intros Hn Hd. unfold set_null.
  replace (map (nullify S doomed (row_model r)) (row_fields r))
    with (row_fields r); [now destruct r|].
  rewrite <- (map_id (row_fields r)) at 1. apply map_ext. intros [f v].
  unfold nullify. cbn [fst snd].
  destruct (find_field S (row_model r) f) as [fd|] eqn:Ef; [|reflexivity].
  destruct v; try reflexivity.
  destruct (f_kind fd) as [| | | | | | | | | | | | | |to od] eqn:Ek;
    try reflexivity.
  destruct od; [reflexivity|].
  destruct (in_keys (to, pk) doomed) eqn:E; [|reflexivity].
  exfalso. apply in_keys_In in E. specialize (Hd _ E). simpl in Hd.
  apply find_field_some in Ef. destruct Ef as [Hin _].
  rewrite forallb_forall in Hn. specialize (Hn fd Hin).
  rewrite Ek, Hd in Hn. discriminate.
Qed.

(** Where no [SET_NULL] reference points into the models a deletion can
    reach, the deletion only removes rows. *)
Lemma delete_only_removes (R : list string) (k : Key) (db : Store) :
  closed_under_cascade S R = true ->
  no_set_null_into S R = true ->
  mem (fst k) R = true ->
  snd (delete S k db)
  = filter (survives (collect S (length db) db [k])) db.
Proof.
  intros Hc Hn Hk. unfold delete. simpl.
  rewrite <- (map_id (filter _ db)) at 2. apply map_ext. intros r.
  apply (set_null_id R); [exact Hn|].
  apply collect_models; [exact Hc|]. intros key [<- | []]. exact Hk.
Qed.

Lemma delete_untouched (R : list string) (k : Key) (db : Store) :
  closed_under_cascade S R = true ->
  no_set_null_into S R = true ->
  mem (fst k) R = true ->
  (forall r', In r' (snd (delete S k db)) -> In r' db)
  /\ (forall r, In r db -> mem (row_model r) R = false ->
                In r (snd (delete S k db))).
Proof.
  intros Hc Hn Hk. rewrite (delete_only_removes R) by assumption. split.
  - intros r' H. apply filter_In in H. tauto.
  - intros r Hr Hm. apply filter_In. split; [exact Hr|].
    unfold survives. apply negb_true_iff. apply not_true_is_false. intros E.
    apply in_keys_In in E.
    assert (Hm' : mem (fst (key_of r)) R = true).
    { eapply collect_models; [exact Hc | | exact E].
      intros key [<- | []]. exact Hk. }
    simpl in Hm'. congruence.
Qed.

(** [SET_NULL] touches nullable columns only, so a row that had its NOT NULL
    columns filled still has. *)
Lemma set_null_not_null (doomed : list Key) (r : Row) :
  set_null_is_nullable S = true ->
  NoDup (field_names S (row_model r)) ->
  not_null_ok S r -> not_null_ok S (set_null S doomed r).
Proof.
  intros Hsn Hnd Hok. unfold not_null_ok, check_not_null in *. simpl.
  destruct (filter _ (fields_of S (row_model r))) as [|f0 l0] eqn:E0 in Hok;
    [|discriminate].
  rewrite filter_nil; [reflexivity|]. intros fd Hfd.
  assert (H0 : negb (f_null fd) && is_null (value_in (row_fields r) fd)
               = false).
  { destruct (negb (f_null fd) && is_null (value_in (row_fields r) fd))
      eqn:E; [|reflexivity].
    assert (Hin : In fd (filter (fun f => negb (f_null f)
                                          && is_null (value_in (row_fields r) f))
                           (fields_of S (row_model r))))
      by (apply filter_In; auto).
    rewrite E0 in Hin. contradiction. }
  destruct (f_null fd) eqn:En; [reflexivity|]. simpl in *.
  unfold value_in in *. rewrite assoc_nullify.
  destruct (assoc (f_name fd) (row_fields r)) as [v|]; [|exact H0]. simpl.
  unfold nullify. simpl.
  assert (Hf : find_field S (row_model r) (f_name fd) = Some fd)
    by (apply find_by_name; assumption).
  rewrite Hf. destruct v; try exact H0.
  destruct (f_kind fd) as [| | | | | | | | | | | | | |to od] eqn:Ek;
    try reflexivity.
  destruct od; [reflexivity|].
  exfalso. unfold fields_of in Hfd.
  destruct (find_model S (row_model r)) as [md|] eqn:Em; [|contradiction].
  apply find_model_some in Em. destruct Em as [Hmd _].
  unfold set_null_is_nullable in Hsn. rewrite forallb_forall in Hsn.
  specialize (Hsn md Hmd). rewrite forallb_forall in Hsn.
  specialize (Hsn fd Hfd). rewrite Ek, En in Hsn. discriminate.
Qed.

End MoreDeletion.

Section Leaf.

Variable S : Schema.

Lemma cascades_unreferenced (m : string) (pk : nat) (r : Row) :
  unreferenced_in S m = true -> cascades S [(m, pk)] r = false.
Proof.
  intros Hu. destruct (cascades S [(m, pk)] r) eqn:E; [|reflexivity].
  exfalso. unfold cascades in E. apply existsb_exists in E.
  destruct E as (fd & Hin & Hp). unfold fields_of in Hin.
  destruct (find_model S (row_model r)) as [md|] eqn:Em; [|contradiction].
  apply find_model_some in Em. destruct Em as [Hmd _].
  unfold unreferenced_in in Hu. rewrite forallb_forall in Hu.
  specialize (Hu md Hmd). rewrite forallb_forall in Hu. specialize (Hu fd Hin).
  unfold points_to in Hp.
  destruct (f_kind fd) as [| | | | | | | | | | | | | |to od]; try discriminate.
  destruct (row_get (f_name fd) r) as [[| | | |pk'| |]|]; try discriminate.
  apply andb_true_iff in Hp. destruct Hp as [_ Hp].
  apply in_keys_In in Hp. destruct Hp as [Hp | []]. inversion Hp; subst.
  rewrite String.eqb_refl in Hu. discriminate.
Qed.

Lemma collect_unreferenced (m : string) (pk fuel : nat) (db : Store) :
  unreferenced_in S m = true -> collect S fuel db [(m, pk)] = [(m, pk)].
Proof.
  intros Hu. destruct fuel as [|n]; [reflexivity|]. simpl.
  replace (doomed_next S db [(m, pk)]) with (@nil Row); [reflexivity|].
  symmetry. apply filter_nil. intros r _.
  rewrite (cascades_unreferenced m pk r Hu). apply andb_false_r.
Qed.

Lemma nullify_unreferenced (m : string) (pk : nat) (m' : string)
  (l : list (string * value)) :
  unreferenced_in S m = true -> map (nullify S [(m, pk)] m') l = l.
Proof.
  intros Hu. rewrite <- (map_id l) at 2. apply map_ext. intros [f v].
  unfold nullify. cbn [fst snd].
  destruct (find_field S m' f) as [fd|] eqn:Ef; [|reflexivity].
  destruct v; try reflexivity.
  destruct (f_kind fd) as [| | | | | | | | | | | | | |to od] eqn:Ek;
    try reflexivity.
  destruct od; [reflexivity|].
  destruct (in_keys (to, pk0) [(m, pk)]) eqn:E; [|reflexivity].
  exfalso. apply in_keys_In in E. destruct E as [E | []]. inversion E; subst.
  apply find_field_some in Ef. destruct Ef as [Hin _].
  unfold fields_of in Hin.
  destruct (find_model S m') as [md|] eqn:Em; [|contradiction].
  apply find_model_some in Em. destruct Em as [Hmd _].
  unfold unreferenced_in in Hu. rewrite forallb_forall in Hu.
  specialize (Hu md Hmd). rewrite forallb_forall in Hu.
  specialize (Hu fd Hin). rewrite Ek, String.eqb_refl in Hu. discriminate.
Qed.

Lemma delete_unreferenced (m : string) (pk : nat) (db : Store) :
  unreferenced_in S m = true ->
  delete S (m, pk) db
  = (Ok tt, filter (fun r => negb (key_eqb (key_of r) (m, pk))) db).
Proof.
  intros Hu. unfold delete. rewrite (collect_unreferenced m pk _ db Hu).
  f_equal.
  rewrite <- (map_id (filter (fun r => negb (key_eqb (key_of r) (m, pk))) db)).
  replace (filter (survives [(m, pk)]) db)
    with (filter (fun r => negb (key_eqb (key_of r) (m, pk))) db).
  - apply map_ext. intros r. unfold set_null.
    rewrite (nullify_unreferenced m pk _ _ Hu). now destruct r.
  - apply filter_ext. intros r. unfold survives, in_keys. simpl.
    now rewrite orb_false_r.
Qed.

(** A reference that pointed to a stored row still does after [delete]. *)
Lemma delete_keeps_target (k : Key) (db : Store) (to : string) (pk : nat) :
  ~ In (to, pk) (collect S (length db) db [k]) ->
  has_row to pk db = true ->
  has_row to pk (snd (delete S k db)) = true.
Proof.
  intros Hn H. unfold has_row in *. apply existsb_exists in H.
  destruct H as (t & Ht & Hm). apply andb_true_iff in Hm.
  destruct Hm as [Hm Hpk]. apply existsb_exists.
  exists (set_null S (collect S (length db) db [k]) t). split.
  - unfold delete. simpl. apply in_map. apply filter_In. split; [exact Ht|].
    unfold survives. apply negb_true_iff. apply not_true_is_false. intros E.
    apply in_keys_In in E. apply Hn.
    unfold is_model in Hm. apply String.eqb_eq in Hm. apply Nat.eqb_eq in Hpk.
    unfold key_of in E. now rewrite Hm, Hpk in E.
  - simpl. unfold is_model in *. simpl. now rewrite Hm, Hpk.
Qed.

End Leaf.

Lemma filter_swap {A : Type} (f g : A -> bool) (l : list A) :
  filter f (filter g l) = filter g (filter f l).
Proof.
  induction l as [|a l IH]; [reflexivity|]. simpl.
  destruct (f a) eqn:Ef; destruct (g a) eqn:Eg; simpl;
    rewrite ?Ef, ?Eg, IH; reflexivity.
Qed.

(** Where the keys of a deletion come from: the row deleted, or a row that
    cascades. *)
Lemma collect_origin (S : Schema) (fuel : nat) (db : Store)
  (doomed : list Key) (key : Key) :
  In key (collect S fuel db doomed) ->
  In key doomed
  \/ exists r D, In r db /\ key_of r = key /\ cascades S D r = true.
Proof.
  revert doomed. induction fuel as [|n IH]; intros doomed H; simpl in H;
    [now left|].
  destruct (doomed_next S db doomed) as [|r more] eqn:En; [now left|].
  apply IH in H. destruct H as [H | H]; [|now right].
  apply in_app_or in H. destruct H as [H | H]; [now left|].
  right. change (key_of r :: map key_of more)
           with (map key_of (r :: more)) in H.
  apply in_map_iff in H. destruct H as (r' & <- & Hr').
  rewrite <- En in Hr'. unfold doomed_next in Hr'. apply filter_In in Hr'.
  destruct Hr' as [Hin Hp]. apply andb_true_iff in Hp.
  exists r', doomed. tauto.
Qed.

Lemma list_max_In (l : list nat) (x : nat) : In x l -> x <= list_max l.
Proof.
  intros H. pose proof (proj1 (list_max_le l (list_max l)) (Nat.le_refl _)) as F.
  rewrite Forall_forall in F. now apply F.
Qed.

(** A stored key is below the next key of its model. *)
Lemma row_pk_lt_next (m : string) (d : Store) (r : Row) :
  In r (table m d) -> row_pk r < next_pk m d.
Proof.
  intros H. unfold next_pk.
  pose proof (list_max_In (map row_pk (table m d)) (row_pk r)
                (in_map row_pk _ _ H)). lia.
Qed.

End OrmFacts.

(* ================================================================== *)
(** * Facts about the schema of geo/models/cric.py                     *)
(* ================================================================== *)

Module CricFacts.

Import Orm OrmFacts.

Lemma cric_fields_nodup (m : string) : NoDup (field_names Cric.schema m).
Proof.
  apply field_names_nodup.
  repeat (constructor;
          [match goal with
           | |- NoDup ?l =>
               replace l with (nodup string_dec l) by (vm_compute; reflexivity);
               apply NoDup_nodup
           end|]).
  constructor.
Qed.

(** Deleting any row of the [cric.py] schema leaves no reference to a row
    that is gone. *)
Lemma cric_delete_no_dangling (k : Key) (db : Store) (r' : Row) (fd : Field)
  (to : string) (od : OnDelete) (pk : nat) :
  In r' (snd (delete Cric.schema k db)) ->
  In fd (fields_of Cric.schema (row_model r')) ->
  f_kind fd = ForeignKey to od ->
  row_get (f_name fd) r' = Some (VRef pk) ->
  ~ In (to, pk) (collect Cric.schema (length db) db [k]).
Proof. apply delete_no_dangling, cric_fields_nodup. Qed.

(** The three sets of models are closed under [CASCADE] references. *)
Lemma cric_cascade_closed :
  closed_under_cascade Cric.schema Cric.below_stadium = true
  /\ closed_under_cascade Cric.schema Cric.below_pitch = true
  /\ closed_under_cascade Cric.schema Cric.below_device = true.
Proof. repeat split; reflexivity. Qed.

Ltac by_schema Hm := first [rewrite Hm | rewrite <- Hm]; reflexivity.

Lemma root_doomed (S : Schema) (m : string) (pk : nat) (d : Store) :
  In (m, pk) (collect S (length d) d [(m, pk)]).
Proof. apply collect_mono. now left. Qed.

Lemma key_of_model (r : Row) (m : string) :
  row_model r = m -> key_of r = (m, row_pk r).
Proof. intros <-. reflexivity. Qed.

(** A row of a model outside [R] stays, with its [SET_NULL] reference to
    the deleted row cleared and every other column as it was. *)
Lemma delete_nulls (R : list string) (m : string) (pk : nat) (d : Store)
  (r : Row) (f : string) (fd : Field) :
  closed_under_cascade Cric.schema R = true ->
  mem m R = true ->
  mem (row_model r) R = false ->
  In r d ->
  find_field Cric.schema (row_model r) f = Some fd ->
  f_kind fd = ForeignKey m SET_NULL ->
  row_get f r = Some (VRef pk) ->
  exists r', In r' (snd (delete Cric.schema (m, pk) d))
             /\ key_of r' = key_of r
             /\ row_get f r' = Some VNull
             /\ forall g, ~ In g (set_null_columns Cric.schema (row_model r)) ->
                          row_get g r' = row_get g r.
Proof.
  intros Hc Hm Hr Hin Hf Hk Hv.
  exists (set_null Cric.schema
            (collect Cric.schema (length d) d [(m, pk)]) r).
  split; [|split; [reflexivity|split]].
  - now apply (delete_keeps Cric.schema R).
  - apply (set_null_clears Cric.schema _ r f m pk fd); auto.
    apply root_doomed.
  - intros g Hg. now apply set_null_keeps.
Qed.

End CricFacts.

(* ================================================================== *)
(** * Facts about plane geometry                                       *)
(* ================================================================== *)

Module PlaneFacts.
Local Open Scope Q_scope.

Lemma same_eq (a b : Plane.Coord) : Plane.same a b = true -> a = b.
Proof.
  destruct a as [[an ad] [bn bd]], b as [[cn cd] [dn dd]].
  unfold Plane.same. simpl.
  rewrite !andb_true_iff, !Z.eqb_eq, !Pos.eqb_eq.
  intros [[[-> ->] ->] ->]. reflexivity.
Qed.

Lemma coord_eqb_false (a b : Plane.Coord) :
  Plane.coord_eqb a b = false -> ~ Plane.coord_eq a b.
Proof.
  unfold Plane.coord_eqb, Plane.coord_eq. intros H [H1 H2].
  apply Qeq_bool_iff in H1. apply Qeq_bool_iff in H2.
  rewrite H1, H2 in H. discriminate.
Qed.

Lemma coord_eqb_true (a b : Plane.Coord) :
  Plane.coord_eqb a b = true -> Plane.coord_eq a b.
Proof.
  unfold Plane.coord_eqb, Plane.coord_eq. rewrite andb_true_iff.
  now rewrite !Qeq_bool_iff.
Qed.

Lemma rectangle_sound (ring : list Plane.Coord) :
  Plane.rectangle ring = true -> Plane.is_rectangle ring.
Proof.
  destruct ring as [|a [|b [|c [|d [|e [|x ring]]]]]]; try discriminate.
  unfold Plane.rectangle. rewrite !andb_true_iff, !negb_true_iff.
  intros [[[[[[[[[[Hs H1] H2] H3] H4] H5] H6] D1] D2] D3] D4].
  apply same_eq in Hs. subst e.
  exists a, b, c, d. split; [reflexivity|].
  repeat (split; [now apply coord_eqb_false|]).
  repeat split; now apply Qeq_bool_iff.
Qed.

Lemma box_sound (ring : list Plane.Coord) (o : Plane.Coord) :
  Plane.axis_aligned_box ring o = true ->
  Plane.is_axis_aligned_box ring o (fst (Plane.spans ring))
    (snd (Plane.spans ring)).
Proof.
  destruct ring as [|a [|b [|c [|d [|e [|x ring]]]]]]; try discriminate.
  unfold Plane.axis_aligned_box. rewrite !andb_true_iff, !negb_true_iff.
  intros [[[[[[Hs Hb] Hd] Hx] Hy] Mx] My].
  apply same_eq in Hs, Hb, Hd. subst e b d.
  destruct a as [x0 y0], c as [x1 y1]. simpl in *.
  exists x0, y0, x1, y1. split; [reflexivity|].
  split; [apply Qnot_le_lt; intros H; apply Qle_bool_iff in H; congruence|].
  split; [apply Qnot_le_lt; intros H; apply Qle_bool_iff in H; congruence|].
  split; [reflexivity|]. split; [reflexivity|].
  split; now apply Qeq_bool_iff.
Qed.

Lemma nearb_near (eps a b : Q) : Plane.nearb eps a b = true -> Plane.near eps a b.
Proof. unfold Plane.nearb, Plane.near. apply Qle_bool_iff. Qed.

End PlaneFacts.

(* ================================================================== *)
(** * Facts about the seed command                                     *)
(* ================================================================== *)

Module SeedFacts.

Import Orm OrmFacts SeedStadiums.

Lemma get_by_name (n : string) (d : Store) :
  get schema "Stadium" [("name", VStr n)] d =
  match named n d with
  | [] => (Raise DoesNotExist, d)
  | [r] => (Ok r, d)
  | _ :: _ :: _ => (Raise MultipleObjectsReturned, d)
  end.
Proof. reflexivity. Qed.

Lemma venue_ok_spec (v : Venue) :
  venue_ok v = true ->
  Text.chars (name v) <= 255 /\ Text.chars (country v) <= 80
  /\ Geos.Polygon (pitch_ring (fst (coords v)) (snd (coords v)))
     = Ok (VPolygon (pitch_ring (fst (coords v)) (snd (coords v)))).
Proof.
  unfold venue_ok. rewrite !andb_true_iff, !Nat.leb_le. intros [[Hn Hc] Hp].
  split; [exact Hn|]. split; [exact Hc|].
  unfold Geos.Polygon, pitch_ring in *.
  cbn [length Nat.ltb Nat.leb last] in *.
  destruct (Geos.same_coord _ _); [reflexivity | discriminate Hp].
Qed.

Lemma too_long_fits (f : Field) (n : nat) (s : string) :
  width (f_kind f) = Some n -> Text.chars s <= n ->
  too_long f (VStr s) = false /\ clip f (VStr s) = VStr s.
Proof.
  intros Hw Hs. unfold too_long, clip. rewrite Hw. split.
  - apply Nat.ltb_ge in Hs. now rewrite Hs.
  - now rewrite take_all.
Qed.

Lemma create_stadium (now : Z) (v : Venue) (d : Store) :
  venue_ok v = true ->
  create schema now "Stadium"
    (dict_update [("name", VStr (name v))]
       [("country", VStr (country v));
        ("location", Geos.Point (snd (coords v)) (fst (coords v)))]) d
  = (Ok (stadium_row d v), d ++ [stadium_row d v]).
Proof.
  intros Hok. apply venue_ok_spec in Hok. destruct Hok as (Hn & Hc & _).
  destruct (too_long_fits (field "name" (CharField 255)) 255 (name v)
              eq_refl Hn) as [Ln Cn].
  destruct (too_long_fits (nullable (field "country" (CharField 80))) 80
              (country v) eq_refl Hc) as [Lc Cc].
  unfold create.
  change (unexpected schema "Stadium" _) with (@None string).
  cbv beta iota.
  unfold insert.
  change (init_fields schema now "Stadium" _)
    with (row_fields (stadium_row d v)).
  assert (E : check_insert schema "Stadium" (row_fields (stadium_row d v)) d
              = None).
  { unfold check_insert, check_columns.
    assert (W : check_data schema "Stadium" (row_fields (stadium_row d v))
                = None).
    { unfold check_data.
      change (filter _ (fields_of schema "Stadium")) with
        (filter
           (fun f => too_long f (value_in (row_fields (stadium_row d v)) f)
                     || out_of_range f
                          (value_in (row_fields (stadium_row d v)) f))
           (m_fields GeoModels.Stadium)).
      unfold GeoModels.Stadium, m_fields. unfold filter.
      change (value_in _ (field "name" (CharField 255)))
        with (VStr (name v)).
      change (value_in _ (nullable (field "country" (CharField 80))))
        with (VStr (country v)).
      rewrite Ln, Lc. reflexivity. }
    rewrite W. reflexivity. }
  rewrite E. cbv zeta.
  replace (as_stored schema "Stadium" (row_fields (stadium_row d v)))
    with (row_fields (stadium_row d v)); [reflexivity|].
  unfold as_stored, stadium_row, row_fields. unfold map.
  change (find_field schema "Stadium" (fst ("name", VStr (name v))))
    with (Some (field "name" (CharField 255))).
  change (find_field schema "Stadium" (fst ("country", VStr (country v))))
    with (Some (nullable (field "country" (CharField 80)))).
  cbn [fst snd]. rewrite Cn, Cc. reflexivity.
Qed.

Lemma has_row_last (v : Venue) (d : Store) :
  has_row "Stadium" (next_pk "Stadium" d) (d ++ [stadium_row d v]) = true.
Proof.
  unfold has_row. rewrite existsb_app. apply orb_true_iff. right.
  simpl. now rewrite Nat.eqb_refl.
Qed.

Lemma next_pk_other (m : string) (d : Store) (r : Row) :
  is_model m r = false -> next_pk m (d ++ [r]) = next_pk m d.
Proof.
  intros H. unfold next_pk. rewrite table_app. simpl. rewrite H.
  now rewrite app_nil_r.
Qed.

Lemma create_pitch (now : Z) (v : Venue) (d : Store) :
  create schema now "Pitch"
    [ ("stadium", VRef (row_pk (stadium_row d v)));
      ("name", VStr "Main Pitch");
      ("area", VPolygon (pitch_ring (fst (coords v)) (snd (coords v))));
      ("centroid", attr "location" (stadium_row d v));
      ("surface_type", VStr "grass");
      ("current_condition", VStr "balanced") ]
    (d ++ [stadium_row d v])
  = (Ok (pitch_row d v), d ++ [stadium_row d v; pitch_row d v]).
Proof.
  unfold create.
  change (unexpected schema "Pitch" _) with (@None string).
  cbv beta iota. unfold insert.
  change (init_fields schema now "Pitch" _) with (row_fields (pitch_row d v)).
  assert (E : check_insert schema "Pitch" (row_fields (pitch_row d v))
                (d ++ [stadium_row d v]) = None).
  { unfold check_insert.
    replace (check_columns schema "Pitch" (row_fields (pitch_row d v)))
      with (@None Exn) by (vm_compute; reflexivity).
    replace (check_unique schema "Pitch"
               (as_stored schema "Pitch" (row_fields (pitch_row d v)))
               (d ++ [stadium_row d v]))
      with (@None Exn) by reflexivity.
    unfold or_else, check_references.
    change (filter _ (fields_of schema "Pitch")) with
      (if negb (has_row "Stadium" (next_pk "Stadium" d)
                  (d ++ [stadium_row d v]))
       then [field "stadium" (ForeignKey "Stadium" CASCADE)] else []).
    now rewrite has_row_last. }
  rewrite E. cbv zeta.
  replace (as_stored schema "Pitch" (row_fields (pitch_row d v)))
    with (row_fields (pitch_row d v)) by reflexivity.
  rewrite next_pk_other by reflexivity.
  now rewrite <- app_assoc.
Qed.

Lemma named_name (n : string) (d : Store) (r : Row) :
  In r (named n d) -> attr "name" r = VStr n.
Proof.
  unfold named. rewrite filter_In. intros [_ H].
  unfold matches in H. simpl in H. unfold attr.
  destruct (row_get "name" r) as [x|]; [|discriminate].
  rewrite andb_true_r in H. now apply value_eqb_VStr in H.
Qed.

Lemma seed_one_spec (now : Z) (v : Venue) (w : World) :
  venue_ok v = true ->
  seed_one now v w =
  match named (name v) (db w) with
  | [] =>
      (Ok tt,
       mkWorld (db w ++ [stadium_row (db w) v; pitch_row (db w) v])
               (stdout w ++ [created_line v]))
  | [_] => (Ok tt, mkWorld (db w) (stdout w ++ [exists_line v]))
  | _ :: _ :: _ => (Raise MultipleObjectsReturned, w)
  end.
Proof.
  intros Hok. destruct w as [d out]. simpl db. simpl stdout.
  unfold seed_one, bind, on_db, get_or_create, catch at 1. simpl db.
  unfold bind at 1. rewrite get_by_name.
  destruct (named (name v) d) as [|r [|r' rs]] eqn:E.
  - change (unexpected schema "Stadium" _) with (@None string).
    unfold catch, bind, ret. rewrite (create_stadium now v d Hok).
    apply venue_ok_spec in Hok. destruct Hok as (_ & _ & Hp).
    pose proof (create_pitch now v d) as P.
    destruct (coords v) as [lat lon] eqn:Ec. unfold lift.
    cbn [fst snd] in Hp, P. rewrite Hp. simpl db.
    rewrite P. unfold write. simpl. unfold created_line.
    reflexivity.
  - unfold ret, write. simpl. unfold exists_line.
    rewrite (named_name (name v) d r); [reflexivity|].
    rewrite E. now left.
  - reflexivity.
Qed.

Lemma matches_name (n : string) (r : Row) :
  matches [("name", VStr n)] r = value_eqb (attr "name" r) (VStr n).
Proof.
  unfold matches, attr. simpl. destruct (row_get "name" r); simpl.
  - apply andb_true_r.
  - reflexivity.
Qed.

Lemma named_app (n : string) (d e : Store) :
  named n (d ++ e) = named n d ++ named n e.
Proof. unfold named. now rewrite table_app, filter_app. Qed.

Lemma named_pair (n : string) (d : Store) (v : Venue) :
  named n [stadium_row d v; pitch_row d v] =
  if String.eqb (name v) n then [stadium_row d v] else [].
Proof.
  unfold named. simpl. destruct (String.eqb (name v) n); reflexivity.
Qed.

Lemma named_app_other (n : string) (d : Store) (v : Venue) :
  name v <> n ->
  named n (d ++ [stadium_row d v; pitch_row d v]) = named n d.
Proof.
  intros H. rewrite named_app, named_pair.
  apply String.eqb_neq in H. rewrite H. apply app_nil_r.
Qed.

Lemma absent_app_other (n : string) (d : Store) (v : Venue) :
  name v <> n ->
  absent n (d ++ [stadium_row d v; pitch_row d v]) = absent n d.
Proof. intros H. unfold absent. now rewrite named_app_other. Qed.

Lemma line_for_app_other (d : Store) (v v' : Venue) :
  name v <> name v' ->
  line_for (d ++ [stadium_row d v; pitch_row d v]) v' = line_for d v'.
Proof. intros H. unfold line_for. now rewrite absent_app_other. Qed.

Lemma seeded_incl (vs vs' : list Venue) (d : Store) (c : list Row) :
  incl vs vs' -> seeded vs d c -> seeded vs' d c.
Proof.
  intros Hi H. induction H; constructor; auto.
Qed.

Lemma firstn_In {A : Type} (k : nat) (l : list A) (x : A) :
  In x (firstn k l) -> In x l.
Proof.
  intros H. rewrite <- (firstn_skipn k l). apply in_or_app. now left.
Qed.

Lemma loop_spec (now : Z) (vs : list Venue) :
  Forall (fun v => venue_ok v = true) vs ->
  NoDup (map name vs) ->
  forall (w w' : World) (res : Result unit),
    for_each vs (seed_one now) w = (res, w') ->
    exists (k : nat) (created : list Row),
      db w' = db w ++ created
      /\ seeded vs (db w) created
      /\ stdout w' = stdout w ++ map (line_for (db w)) (firstn k vs)
      /\ map (attr "name") (table "Stadium" created)
         = map (fun v => VStr (name v))
               (filter (fun v => absent (name v) (db w)) (firstn k vs))
      /\ Forall (fun v => length (named (name v) (db w)) <= 1) (firstn k vs)
      /\ ((res = Ok tt /\ k = length vs)
          \/ (res = Raise MultipleObjectsReturned
              /\ exists v, nth_error vs k = Some v
                           /\ 2 <= length (named (name v) (db w)))).
Proof.
  induction vs as [|v vs IH]; intros Hok Hnd w w' res Hrun.
  - simpl in Hrun. unfold ret in Hrun. inversion Hrun; subst.
    exists 0, []. simpl. rewrite !app_nil_r. repeat split; auto.
    constructor.
  - inversion Hok as [|? ? Hv Hvs]; subst.
    simpl in Hnd. inversion Hnd as [|? ? Hnotin Hnd']; subst.
    assert (Hother : forall v', In v' vs -> name v <> name v').
    { intros v' Hin E. apply Hnotin. rewrite E. now apply in_map. }
    simpl in Hrun. unfold bind in Hrun. rewrite (seed_one_spec now v w Hv) in Hrun.
    destruct (named (name v) (db w)) as [|r [|r' rs]] eqn:E.
    + destruct (IH Hvs Hnd' _ _ _ Hrun)
        as (k & created & Hdb & Hseed & Hout & Hnames & Hle & Hres).
      simpl db in *. simpl stdout in *.
      assert (Habs : absent (name v) (db w) = true)
        by (unfold absent; now rewrite E).
      exists (S k), (stadium_row (db w) v :: pitch_row (db w) v :: created).
      split; [| split; [| split; [| split; [| split]]]].
      * rewrite Hdb. now rewrite <- app_assoc.
      * constructor; [now left|]. eapply seeded_incl; [|exact Hseed].
        intros x Hx. now right.
      * rewrite Hout. rewrite <- app_assoc. f_equal. simpl. f_equal.
        -- unfold line_for. now rewrite Habs.
        -- apply map_ext_in. intros v' Hin. apply line_for_app_other.
           apply Hother. eapply firstn_In. (* In v' (firstn k vs) -> In v' vs *)
           exact Hin.
      * simpl firstn. simpl filter. rewrite Habs. simpl. f_equal.
        rewrite Hnames. f_equal. apply filter_ext_in.
        intros v' Hin. apply absent_app_other. apply Hother.
        eapply firstn_In. exact Hin.
      * simpl firstn. constructor; [rewrite E; simpl; lia|].
        rewrite Forall_forall in Hle |- *. intros v' Hin.
        specialize (Hle v' Hin). rewrite named_app_other in Hle; [exact Hle|].
        apply Hother. eapply firstn_In. exact Hin.
      * destruct Hres as [[-> ->] | [-> (v' & Hnth & Hlen)]].
        -- left. auto.
        -- right. split; [reflexivity|]. exists v'. split; [exact Hnth|].
           rewrite named_app_other in Hlen; [exact Hlen|].
           apply Hother. eapply nth_error_In. exact Hnth.
    + destruct (IH Hvs Hnd' _ _ _ Hrun)
        as (k & created & Hdb & Hseed & Hout & Hnames & Hle & Hres).
      simpl db in *. simpl stdout in *.
      assert (Habs : absent (name v) (db w) = false)
        by (unfold absent; now rewrite E).
      exists (S k), created.
      split; [| split; [| split; [| split; [| split]]]].
      * exact Hdb.
      * eapply seeded_incl; [|exact Hseed]. intros x Hx. now right.
      * rewrite Hout. rewrite <- app_assoc. f_equal. simpl. f_equal.
        unfold line_for. now rewrite Habs.
      * simpl firstn. simpl filter. rewrite Habs. exact Hnames.
      * simpl firstn. constructor; [rewrite E; simpl; lia | exact Hle].
      * destruct Hres as [[-> ->] | [-> (v' & Hnth & Hlen)]].
        -- left. auto.
        -- right. split; [reflexivity|]. exists v'. split; [exact Hnth|exact Hlen].
    + inversion Hrun; subst. exists 0, []. simpl. rewrite !app_nil_r.
      split; [reflexivity|]. split; [constructor|].
      split; [reflexivity|]. split; [reflexivity|]. split; [constructor|].
      right. split; [reflexivity|]. exists v. split; [reflexivity|].
      rewrite E. simpl. lia.
Qed.

(** ** The ring of the sample pitch *)

Lemma rings_ok : forallb ring_ok stadiums_data = true.
Proof. vm_compute. reflexivity. Qed.

Lemma venue_ring (v : Venue) :
  In v stadiums_data ->
  exists (R : list Plane.Coord) (o : Plane.Coord),
    Binary64.exact_ring (pitch_ring (fst (coords v)) (snd (coords v)))
    = Some R
    /\ Binary64.exact_coord (snd (coords v), fst (coords v)) = Some o
    /\ Plane.is_rectangle R
    /\ Plane.coord_eq (Plane.centroid R) o
    /\ Plane.is_axis_aligned_box R o (fst (Plane.spans R))
         (snd (Plane.spans R))
    /\ Plane.near 1e-13 (fst (Plane.spans R)) 0.0006
    /\ Plane.near 1e-13 (snd (Plane.spans R)) 0.0006
    /\ (Plane.signed_area R < 0)%Q
    /\ Plane.near 1e-16 (Plane.signed_area R) (- (0.0006 * 0.0006))
    /\ Geos.on_globe (snd (coords v), fst (coords v))
    /\ Forall Geos.on_globe (pitch_ring (fst (coords v)) (snd (coords v))).
Proof.
  intros Hv. pose proof rings_ok as H. rewrite forallb_forall in H.
  specialize (H v Hv). unfold ring_ok in H.
  destruct (Binary64.exact_ring _) as [R|]; [|discriminate].
  destruct (Binary64.exact_coord _) as [o|]; [|discriminate].
  rewrite !andb_true_iff, negb_true_iff in H.
  destruct H as [[[[[[[[H1 H2] H3] H4] H5] H6] H7] H8] H9].
  exists R, o. split; [reflexivity|]. split; [reflexivity|].
  split; [now apply PlaneFacts.rectangle_sound|].
  split; [now apply PlaneFacts.coord_eqb_true|].
  split; [now apply PlaneFacts.box_sound|].
  split; [now apply PlaneFacts.nearb_near|].
  split; [now apply PlaneFacts.nearb_near|].
  split; [apply Qnot_le_lt; intros E; apply Qle_bool_iff in E; congruence|].
  split; [now apply PlaneFacts.nearb_near|].
  split; [exact H8|].
  apply Forall_forall. now apply forallb_forall.
Qed.

(** ** The rows a run appends *)

Lemma list_max_app_le (l l' : list nat) : list_max l <= list_max (l ++ l').
Proof. rewrite list_max_app. lia. Qed.

Lemma next_pk_app_le (m : string) (d e : Store) :
  next_pk m d <= next_pk m (d ++ e).
Proof.
  unfold next_pk. rewrite table_app, map_app.
  pose proof (list_max_app_le (map row_pk (table m d)) (map row_pk (table m e))).
  lia.
Qed.

Lemma next_pk_pair (d : Store) (v : Venue) :
  next_pk "Stadium" d < next_pk "Stadium" (d ++ [stadium_row d v; pitch_row d v]).
Proof.
  unfold next_pk at 2. rewrite table_app, map_app, list_max_app.
  change (map row_pk (table "Stadium" [stadium_row d v; pitch_row d v]))
    with [next_pk "Stadium" d].
  change (list_max [next_pk "Stadium" d])
    with (Nat.max (next_pk "Stadium" d) 0).
  lia.
Qed.

Lemma seeded_paired (vs : list Venue) (d : Store) (c : list Row) :
  seeded vs d c -> paired c.
Proof.
  induction 1; constructor; auto.
Qed.

Lemma seeded_stadium_pk (vs : list Venue) (d : Store) (c : list Row) :
  seeded vs d c ->
  forall s, In s c -> is_model "Stadium" s = true ->
            next_pk "Stadium" d <= row_pk s.
Proof.
  induction 1 as [|d v rest Hin Hs IH]; intros s Hs' Hm; [contradiction|].
  destruct Hs' as [<- | [<- | Hs']].
  - simpl. lia.
  - discriminate.
  - specialize (IH s Hs' Hm). pose proof (next_pk_pair d v). lia.
Qed.

Lemma seeded_pitch_ref (vs : list Venue) (d : Store) (c : list Row) :
  seeded vs d c ->
  forall p, In p c -> is_model "Pitch" p = true ->
            exists k, attr "stadium" p = VRef k /\ next_pk "Stadium" d <= k.
Proof.
  induction 1 as [|d v rest Hin Hs IH]; intros p Hp Hm; [contradiction|].
  destruct Hp as [<- | [<- | Hp]].
  - discriminate.
  - exists (next_pk "Stadium" d). split; [reflexivity | lia].
  - destruct (IH p Hp Hm) as (k & Hk & Hle). exists k. split; [exact Hk|].
    pose proof (next_pk_pair d v). lia.
Qed.

Lemma pitches_of_pair (s : Row) (d : Store) (v : Venue) (rest : list Row) :
  pitches_of s (stadium_row d v :: pitch_row d v :: rest) =
  if Nat.eqb (next_pk "Stadium" d) (row_pk s)
  then pitch_row d v :: pitches_of s rest
  else pitches_of s rest.
Proof. reflexivity. Qed.

Lemma seeded_pitches_of (vs : list Venue) (d : Store) (c : list Row) :
  seeded vs d c ->
  forall s, In s c -> is_model "Stadium" s = true ->
    exists v d', In v vs /\ s = stadium_row d' v
                 /\ pitches_of s c = [pitch_row d' v].
Proof.
  induction 1 as [|d v rest Hin Hs IH]; intros s Hs' Hm; [contradiction|].
  destruct Hs' as [<- | [<- | Hs']].
  - exists v, d. split; [exact Hin|]. split; [reflexivity|].
    rewrite pitches_of_pair.
    change (row_pk (stadium_row d v)) with (next_pk "Stadium" d).
    rewrite Nat.eqb_refl. f_equal.
    apply filter_nil. intros p Hp.
    destruct (is_model "Pitch" p) eqn:Ep; [|reflexivity]. simpl.
    destruct (seeded_pitch_ref _ _ _ Hs p Hp Ep) as (k & Hk & Hle).
    rewrite Hk. simpl. apply Nat.eqb_neq.
    pose proof (next_pk_pair d v). lia.
  - discriminate.
  - destruct (IH s Hs' Hm) as (v' & d' & Hv' & Es & Ep).
    exists v', d'. split; [exact Hv'|]. split; [exact Es|].
    rewrite <- Ep, pitches_of_pair.
    replace (Nat.eqb (next_pk "Stadium" d) (row_pk s)) with false; [reflexivity|].
    symmetry. apply Nat.eqb_neq.
    pose proof (seeded_stadium_pk _ _ _ Hs s Hs' Hm).
    pose proof (next_pk_pair d v). lia.
Qed.

Lemma seeded_tables (vs : list Venue) (d : Store) (c : list Row) :
  seeded vs d c ->
  length (table "Pitch" c) = length (table "Stadium" c).
Proof.
  induction 1; simpl; auto.
Qed.

Lemma seeded_no_stadium (vs : list Venue) (d : Store) (c : list Row) :
  seeded vs d c -> table "Stadium" c = [] -> c = [].
Proof.
  destruct 1; [reflexivity | discriminate].
Qed.

(** ** The run over the venue table *)

Lemma venues_ok : Forall (fun v => venue_ok v = true) stadiums_data.
Proof. repeat constructor. Qed.

Lemma venues_nodup : NoDup (map name stadiums_data).
Proof.
  simpl. repeat constructor; simpl; intuition discriminate.
Qed.

(** Counting the rows of a name through the names of the venues they were
    stored for. *)
Lemma count_by_names (n : string) (T : list Row) (V : list Venue) :
  map (attr "name") T = map (fun v => VStr (name v)) V ->
  length (filter (matches [("name", VStr n)]) T)
  = length (filter (fun v => String.eqb (name v) n) V).
Proof.
  revert V. induction T as [|t T IH]; intros [|v V] E; try discriminate.
  - reflexivity.
  - simpl in E. inversion E as [[Et ET]]. cbn [filter].
    rewrite matches_name, Et. cbn [value_eqb].
    destruct (String.eqb (name v) n); cbn [length]; rewrite (IH V ET);
      reflexivity.
Qed.

Lemma filter_name_notin (P : Venue -> bool) (n : string) (l : list Venue) :
  ~ In n (map name l) ->
  filter (fun v => String.eqb (name v) n) (filter P l) = [].
Proof.
  intros H. apply filter_nil. intros x Hx.
  apply filter_In in Hx. destruct Hx as [Hx _].
  apply String.eqb_neq. intros E. apply H. rewrite <- E. now apply in_map.
Qed.

Lemma count_name_filter (P : Venue -> bool) (l : list Venue) (v : Venue) :
  NoDup (map name l) -> In v l ->
  length (filter (fun x => String.eqb (name x) (name v)) (filter P l))
  = if P v then 1 else 0.
Proof.
  induction l as [|a l IH]; intros Hnd Hin; [contradiction|].
  simpl in Hnd. inversion Hnd as [|? ? Hnotin Hnd']; subst.
  destruct Hin as [-> | Hin].
  - cbn [filter]. destruct (P v) eqn:EP.
    + cbn [filter]. rewrite String.eqb_refl. cbn [length].
      now rewrite filter_name_notin.
    + now rewrite filter_name_notin.
  - assert (Hne : String.eqb (name a) (name v) = false).
    { apply String.eqb_neq. intros E. apply Hnotin. rewrite E. now apply in_map. }
    cbn [filter]. destruct (P a); cbn [filter]; rewrite ?Hne; now apply IH.
Qed.

(** What a run does, for the venue table of the command. *)
Lemma run_spec (now : Z) (d : Store) :
  exists (k : nat) (created : list Row),
    db (snd (run now d)) = d ++ created
    /\ seeded stadiums_data d created
    /\ stdout (snd (run now d)) = map (line_for d) (firstn k stadiums_data)
    /\ map (attr "name") (table "Stadium" created)
       = map (fun v => VStr (name v))
             (filter (fun v => absent (name v) d) (firstn k stadiums_data))
    /\ Forall (fun v => length (named (name v) d) <= 1)
              (firstn k stadiums_data)
    /\ ((fst (run now d) = Ok tt /\ k = length stadiums_data)
        \/ (fst (run now d) = Raise MultipleObjectsReturned
            /\ exists v, nth_error stadiums_data k = Some v
                         /\ 2 <= length (named (name v) d))).
Proof.
  destruct (run now d) as [res w] eqn:E. unfold run, handle in E.
  destruct (loop_spec now stadiums_data venues_ok venues_nodup _ _ _ E)
    as (k & created & H1 & H2 & H3 & H4 & H5 & H6).
  exists k, created. simpl in *. auto 7.
Qed.

(** A run that meets no name held twice goes through the whole table. *)
Lemma run_complete (now : Z) (d : Store) :
  (forall v, In v stadiums_data -> length (named (name v) d) <= 1) ->
  exists created : list Row,
    fst (run now d) = Ok tt
    /\ db (snd (run now d)) = d ++ created
    /\ seeded stadiums_data d created
    /\ stdout (snd (run now d)) = map (line_for d) stadiums_data
    /\ map (attr "name") (table "Stadium" created)
       = map (fun v => VStr (name v))
             (filter (fun v => absent (name v) d) stadiums_data).
Proof.
  intros H.
  destruct (run_spec now d) as (k & created & H1 & H2 & H3 & H4 & _ & H5).
  destruct H5 as [[Hres ->] | [_ (v & Hnth & Hlen)]].
  - exists created. rewrite firstn_all in H3, H4. auto.
  - apply nth_error_In in Hnth. specialize (H v Hnth). lia.
Qed.

Lemma named_created (d : Store) (created : list Row) (v : Venue) :
  map (attr "name") (table "Stadium" created)
  = map (fun v => VStr (name v))
        (filter (fun v => absent (name v) d) stadiums_data) ->
  In v stadiums_data ->
  length (named (name v) created) = if absent (name v) d then 1 else 0.
Proof.
  intros E Hin. unfold named. rewrite (count_by_names _ _ _ E).
  apply (count_name_filter (fun v => absent (name v) d) _ _ venues_nodup Hin).
Qed.


Lemma named_no_stadium (n : string) (d : Store) :
  table "Stadium" d = [] -> named n d = [].
Proof. intros H. unfold named. now rewrite H. Qed.

Lemma map_eq_nil_inv {A B : Type} (f : A -> B) (l : list A) :
  map f l = [] -> l = [].
Proof. destruct l; [reflexivity | discriminate]. Qed.

(** A run on a store where every venue has exactly one Stadium stores
    nothing. *)
Lemma run_all_present (now : Z) (d : Store) :
  (forall v, In v stadiums_data -> length (named (name v) d) = 1) ->
  fst (run now d) = Ok tt
  /\ db (snd (run now d)) = d
  /\ stdout (snd (run now d)) = map exists_line stadiums_data.
Proof.
  intros H.
  assert (Habs : forall v, In v stadiums_data -> absent (name v) d = false).
  { intros v Hv. specialize (H v Hv). unfold absent.
    destruct (named (name v) d); [discriminate | reflexivity]. }
  destruct (run_complete now d) as (created & Hres & Hdb & Hseed & Hout & Hnames).
  { intros v Hv. rewrite (H v Hv). lia. }
  split; [exact Hres|]. split.
  - rewrite Hdb.
    rewrite (filter_nil _ _ Habs) in Hnames. apply map_eq_nil_inv in Hnames.
    rewrite (seeded_no_stadium _ _ _ Hseed Hnames). apply app_nil_r.
  - rewrite Hout. apply map_ext_in. intros v Hv. unfold line_for.
    now rewrite (Habs v Hv).
Qed.

(** ** More about the rows a run appends *)
Lemma seeded_models (vs : list Venue) (d : Store) (c : list Row) :
  seeded vs d c ->
  forall r, In r c -> row_model r = "Stadium" \/ row_model r = "Pitch".
Proof.
  induction 1 as [|d v rest Hin Hs IH]; intros r Hr; [contradiction|].
  destruct Hr as [<- | [<- | Hr]]; auto.
Qed.

Lemma table_pair (d : Store) (v : Venue) (rest : list Row) :
  table "Stadium" (stadium_row d v :: pitch_row d v :: rest)
  = stadium_row d v :: table "Stadium" rest.
Proof. reflexivity. Qed.

(** Among the rows a run appends, a Stadium is the only one of its key. *)
Lemma seeded_stadium_alone (vs : list Venue) (d : Store) (c : list Row) :
  seeded vs d c ->
  forall s, In s c -> is_model "Stadium" s = true ->
    filter (fun r => Nat.eqb (row_pk r) (row_pk s)) (table "Stadium" c) = [s].
Proof.
  induction 1 as [|d v rest Hin Hs IH]; intros s Hs' Hm; [contradiction|].
  rewrite table_pair. cbn [filter].
  destruct Hs' as [<- | [<- | Hs']].
  - rewrite Nat.eqb_refl. f_equal. apply filter_nil. intros r Hr.
    apply table_In in Hr. destruct Hr as [Hr Hrm]. apply Nat.eqb_neq.
    assert (Hge : next_pk "Stadium" (d ++ [stadium_row d v; pitch_row d v])
                  <= row_pk r).
    { apply (seeded_stadium_pk _ _ _ Hs r Hr). unfold is_model.
      rewrite Hrm. reflexivity. }
    pose proof (next_pk_pair d v). simpl. lia.
  - discriminate.
  - replace (Nat.eqb (row_pk (stadium_row d v)) (row_pk s)) with false;
      [now apply IH|].
    symmetry. apply Nat.eqb_neq.
    pose proof (seeded_stadium_pk _ _ _ Hs s Hs' Hm).
    pose proof (next_pk_pair d v). simpl. lia.
Qed.

(** In the store a run leaves, a Stadium it appended is the only Stadium of
    its key. *)
Lemma seeded_stadium_only (vs : list Venue) (d : Store) (c : list Row)
  (s : Row) :
  seeded vs d c -> In s c -> is_model "Stadium" s = true ->
  filter (fun r => Nat.eqb (row_pk r) (row_pk s)) (table "Stadium" (d ++ c))
  = [s].
Proof.
  intros Hseed Hs Hm. rewrite table_app, filter_app.
  rewrite (seeded_stadium_alone _ _ _ Hseed s Hs Hm).
  rewrite filter_nil; [reflexivity|]. intros r Hr. apply Nat.eqb_neq.
  pose proof (row_pk_lt_next _ _ _ Hr).
  pose proof (seeded_stadium_pk _ _ _ Hseed s Hs Hm). lia.
Qed.


(** Every Pitch a run appends is the Pitch of a venue, and the Stadium it
    refers to was appended with it. *)
Lemma seeded_pitch_stadium (vs : list Venue) (d : Store) (c : list Row) :
  seeded vs d c ->
  forall p, In p c -> is_model "Pitch" p = true ->
    exists v d', In v vs /\ p = pitch_row d' v /\ In (stadium_row d' v) c.
Proof.
  induction 1 as [|d v rest Hin Hs IH]; intros p Hp Hm; [contradiction|].
  destruct Hp as [<- | [<- | Hp]].
  - discriminate.
  - exists v, d. split; [exact Hin|]. split; [reflexivity | now left].
  - destruct (IH p Hp Hm) as (v' & d' & Hv' & Ep & Hs').
    exists v', d'. split; [exact Hv'|]. split; [exact Ep|]. right. now right.
Qed.

Lemma named_filter (n : string) (f : Row -> bool) (d : Store) :
  named n (filter f d) = filter f (named n d).
Proof.
  unfold named, table. rewrite (filter_swap (is_model "Stadium") f).
  apply filter_swap.
Qed.

Lemma same_name_same_venue (l : list Venue) (a b : Venue) :
  NoDup (map name l) -> In a l -> In b l -> name a = name b -> a = b.
Proof.
  induction l as [|x l IH]; intros Hnd Ha Hb E; [contradiction|].
  simpl in Hnd. inversion Hnd as [|? ? Hnotin Hnd']; subst.
  destruct Ha as [-> | Ha], Hb as [-> | Hb]; auto.
  - exfalso. apply Hnotin. rewrite E. now apply in_map.
  - exfalso. apply Hnotin. rewrite <- E. now apply in_map.
Qed.

Lemma filter_by_name (l : list Venue) (v : Venue) :
  NoDup (map name l) -> In v l ->
  filter (fun u => String.eqb (name u) (name v)) l = [v].
Proof.
  induction l as [|x l IH]; intros Hnd Hin; [contradiction|].
  simpl in Hnd. inversion Hnd as [|? ? Hnotin Hnd']; subst. cbn [filter].
  destruct Hin as [-> | Hin].
  - rewrite String.eqb_refl. f_equal. apply filter_nil. intros u Hu.
    apply String.eqb_neq. intros E. apply Hnotin. rewrite <- E.
    now apply in_map.
  - replace (String.eqb (name x) (name v)) with false; [now apply IH|].
    symmetry. apply String.eqb_neq. intros E. apply Hnotin. rewrite E.
    now apply in_map.
Qed.

(** In [geo/models.py] only a Pitch holds a reference. *)
Lemma geo_cascades_pitch (D : list Key) (r : Row) :
  cascades GeoModels.schema D r = true -> row_model r = "Pitch".
Proof.
  unfold cascades, fields_of, GeoModels.schema, find_model.
  change (m_name GeoModels.Stadium) with "Stadium".
  change (m_name GeoModels.Pitch) with "Pitch".
  destruct (String.eqb "Stadium" (row_model r)) eqn:E1.
  - intros H. exfalso. simpl in H. discriminate.
  - destruct (String.eqb "Pitch" (row_model r)) eqn:E2.
    + intros _. apply String.eqb_eq in E2. now symmetry.
    + intros H. discriminate.
Qed.

Lemma geo_delete (k : Key) (d : Store) :
  mem (fst k) ["Stadium"; "Pitch"] = true ->
  snd (delete GeoModels.schema k d)
  = filter (survives (collect GeoModels.schema (length d) d [k])) d.
Proof.
  intros H. apply (delete_only_removes GeoModels.schema ["Stadium"; "Pitch"]);
    [reflexivity | reflexivity | exact H].
Qed.

(** The rows a run appends are of the types their columns hold and pass
    the checks on their columns. *)
Lemma seeded_rows (vs : list Venue) (d : Store) (c : list Row) :
  seeded vs d c ->
  forall r, In r c ->
    exists v d', In v vs /\ (r = stadium_row d' v \/ r = pitch_row d' v).
Proof.
  induction 1 as [|d v rest Hin Hs IH]; intros r Hr; [contradiction|].
  destruct Hr as [<- | [<- | Hr]]; eauto.
Qed.

Lemma seeded_well_typed (d : Store) (c : list Row) :
  seeded stadiums_data d c ->
  forall r, In r c ->
    well_typed schema (row_model r) (row_fields r) = true
    /\ check_columns schema (row_model r) (row_fields r) = None.
Proof.
  intros Hseed r Hr.
  destruct (seeded_rows _ _ _ Hseed r Hr) as (v & d' & Hv & E).
  simpl in Hv.
  repeat (destruct Hv as [<- | Hv];
          [destruct E as [-> | ->]; vm_compute; split; reflexivity|]).
  contradiction.
Qed.

(** Creating a Stadium of [geo/models.py] from a name. *)
Lemma create_named (now : Z) (n : string) (d : Store) :
  create GeoModels.schema now "Stadium" [("name", VStr n)] d
  = if Nat.ltb 255 (Text.chars n) && negb (Text.blank (Text.drop 255 n))
    then (Raise (DataError "name"), d)
    else (Ok (bare_stadium (next_pk "Stadium" d) n),
          d ++ [bare_stadium (next_pk "Stadium" d) (Text.take 255 n)]).
Proof.
  unfold create.
  change (unexpected GeoModels.schema "Stadium" _) with (@None string).
  cbv beta iota. unfold insert.
  change (init_fields GeoModels.schema now "Stadium" _)
    with (row_fields (bare_stadium 0 n)).
  assert (W : check_data GeoModels.schema "Stadium"
                (row_fields (bare_stadium 0 n))
              = if Nat.ltb 255 (Text.chars n)
                   && negb (Text.blank (Text.drop 255 n))
                then Some (DataError "name") else None).
  { unfold check_data.
    change (filter _ (fields_of GeoModels.schema "Stadium")) with
      (filter
         (fun f => too_long f (value_in (row_fields (bare_stadium 0 n)) f)
                   || out_of_range f
                        (value_in (row_fields (bare_stadium 0 n)) f))
         (m_fields GeoModels.Stadium)).
    unfold GeoModels.Stadium, m_fields. unfold filter.
    change (too_long (field "name" (CharField 255)) _)
      with (Nat.ltb 255 (Text.chars n)
            && negb (Text.blank (Text.drop 255 n))).
    destruct (Nat.ltb 255 (Text.chars n)
              && negb (Text.blank (Text.drop 255 n))); reflexivity. }
  unfold check_insert, check_columns. rewrite W.
  destruct (Nat.ltb 255 (Text.chars n)
            && negb (Text.blank (Text.drop 255 n))); reflexivity.
Qed.

Lemma fresh_key (m : string) (d : Store) (r : Row) :
  In r d -> key_of r <> (m, next_pk m d).
Proof.
  intros Hr E. unfold key_of in E. injection E as Em Ek.
  assert (Hlt : row_pk r < next_pk m d).
  { apply row_pk_lt_next. now apply table_In. }
  rewrite Ek in Hlt. exact (Nat.lt_irrefl _ Hlt).
Qed.

End SeedFacts.

(* ================================================================== *)
(** * The properties of the specification                              *)
(* ================================================================== *)

Import Orm OrmFacts SeedStadiums SeedFacts.

(** ** The seed command *)

(** C1.  From a database without Stadium and Pitch rows, two runs of the
    seed command in a row both end normally and leave exactly ten Stadium
    rows and ten Pitch rows; the second run leaves the database as the first
    one left it: it stores nothing and alters nothing. *)
Theorem seed_twice_is_idempotent (now1 now2 : Z) (d : Store) :
  table "Stadium" d = [] ->
  table "Pitch" d = [] ->
  let w1 := snd (run now1 d) in
  let r2 := run now2 (db w1) in
  fst (run now1 d) = Ok tt
  /\ fst r2 = Ok tt
  /\ length (table "Stadium" (db (snd r2))) = 10
  /\ length (table "Pitch" (db (snd r2))) = 10
  /\ db (snd r2) = db w1.
Proof.
  intros HS HP w1 r2.
  assert (Habs : forall v, In v stadiums_data -> absent (name v) d = true).
  { intros v _. unfold absent. now rewrite named_no_stadium. }
  destruct (run_complete now1 d)
    as (created & Hres & Hdb & Hseed & Hout & Hnames).
  { intros v _. rewrite named_no_stadium by assumption. simpl. lia. }
  assert (Hone : forall v, In v stadiums_data ->
                           length (named (name v) (db w1)) = 1).
  { intros v Hv. unfold w1. rewrite Hdb, named_app, length_app.
    rewrite named_no_stadium by assumption.
    rewrite (named_created d created v Hnames Hv), (Habs v Hv). reflexivity. }
  destruct (run_all_present now2 (db w1) Hone) as (Hres2 & Hdb2 & _).
  fold r2 in Hres2, Hdb2.
  assert (HlenS : length (table "Stadium" created) = 10).
  { rewrite <- (length_map (attr "name")), Hnames, length_map.
    rewrite forallb_filter_id; [reflexivity|].
    apply forallb_forall. exact Habs. }
  split; [exact Hres|]. split; [exact Hres2|].
  rewrite Hdb2. unfold w1. rewrite Hdb, !table_app, HS, HP. simpl.
  rewrite (seeded_tables _ _ _ Hseed), HlenS. auto.
Qed.

Lemma seed_twice_is_idempotent_witness :
  table "Stadium" [] = [] /\ table "Pitch" [] = []
  /\ fst (run 0 []) = Ok tt
  /\ fst (run 1 (db (snd (run 0 [])))) = Ok tt
  /\ length (table "Stadium" (db (snd (run 1 (db (snd (run 0 []))))))) = 10
  /\ length (table "Pitch" (db (snd (run 1 (db (snd (run 0 []))))))) = 10
  /\ db (snd (run 1 (db (snd (run 0 []))))) = db (snd (run 0 [])).
Proof.
  split; [reflexivity|]. split; [reflexivity|].
  apply (seed_twice_is_idempotent 0 1 []); reflexivity.
Defined.

(** C2.  For every Stadium row a run of the seed command stores, the run
    stores exactly one Pitch row that refers to it; that row is named
    "Main Pitch" and its area is a polygon.  The ring of the polygon, as the
    binary64 coordinates that are stored, is a rectangle with four corners,
    and the centroid of that rectangle is the stadium's location, exactly;
    the location is also what the centroid column of the Pitch holds. *)
Theorem created_stadium_has_main_pitch (now : Z) (d : Store) :
  exists created : list Row,
    db (snd (run now d)) = d ++ created
    /\ forall s, In s created -> is_model "Stadium" s = true ->
       exists (p : Row) (ring : list (float * float)) (x y : float)
              (R : list Plane.Coord) (o : Plane.Coord),
         pitches_of s created = [p]
         /\ attr "name" p = VStr "Main Pitch"
         /\ attr "area" p = VPolygon ring
         /\ attr "location" s = VPoint x y
         /\ attr "centroid" p = VPoint x y
         /\ Binary64.exact_ring ring = Some R
         /\ Binary64.exact_coord (x, y) = Some o
         /\ Plane.is_rectangle R
         /\ Plane.coord_eq (Plane.centroid R) o.
Proof.
  destruct (run_spec now d) as (k & created & Hdb & Hseed & _).
  exists created. split; [exact Hdb|]. intros s Hs Hm.
  destruct (seeded_pitches_of _ _ _ Hseed s Hs Hm) as (v & d' & Hv & -> & Hp).
  destruct (venue_ring v Hv) as (R & o & HR & Ho & Hrect & Hcen & _).
  exists (pitch_row d' v), (pitch_ring (fst (coords v)) (snd (coords v))),
         (snd (coords v)), (fst (coords v)), R, o.
  split; [exact Hp|]. repeat (split; [reflexivity|]).
  split; [exact HR|]. split; [exact Ho|]. split; assumption.
Qed.

(** C3, as the code has it.  A run goes through the venue table in order and
    handles its first [k] venues: all ten, unless it meets a venue whose name
    is carried by more than one Stadium, where it stops with
    [MultipleObjectsReturned].  For the venues handled, a Stadium row is stored
    exactly for those whose name no Stadium carried, each followed at once by
    its Pitch row and by nothing else, and exactly one line is written per
    venue: the creation line when the two rows were stored, the
    already-exists line otherwise. *)
Theorem seed_per_venue (now : Z) (d : Store) :
  exists (k : nat) (created : list Row),
    db (snd (run now d)) = d ++ created
    /\ paired created
    /\ map (attr "name") (table "Stadium" created)
       = map (fun v => VStr (name v))
             (filter (fun v => absent (name v) d) (firstn k stadiums_data))
    /\ stdout (snd (run now d)) = map (line_for d) (firstn k stadiums_data)
    /\ Forall (fun v => length (named (name v) d) <= 1)
              (firstn k stadiums_data)
    /\ ((fst (run now d) = Ok tt /\ k = 10)
        \/ (fst (run now d) = Raise MultipleObjectsReturned
            /\ exists v, nth_error stadiums_data k = Some v
                         /\ 2 <= length (named (name v) d))).
Proof.
  destruct (run_spec now d)
    as (k & created & Hdb & Hseed & Hout & Hnames & Hle & Hres).
  exists k, created. split; [exact Hdb|].
  split; [exact (seeded_paired _ _ _ Hseed)|]. auto.
Qed.

(** C3 as stated fails: on a database where "Eden Park" is stored twice the
    run stops at the third venue; two lines are written, not ten, and "The
    Oval", which no Stadium carried, gets no Stadium. *)
Lemma seed_per_venue_counterexample :
  snd (create_twice "Eden Park" []) = two_edens
  /\ fst (run 0 two_edens) = Raise MultipleObjectsReturned
  /\ length (stdout (snd (run 0 two_edens))) = 2
  /\ absent "The Oval" two_edens = true
  /\ absent "The Oval" (db (snd (run 0 two_edens))) = true.
Proof. vm_compute. repeat split; reflexivity. Qed.

(** C4, as the code has it.  On a database where none of the ten names is
    carried by more than one Stadium, the run ends normally, and for every
    venue it either found the one Stadium of that name, which is still the
    only one, or found none and stored one, which is now the only one.  On a
    database where the name of some venue is carried by more than one Stadium,
    the run raises [MultipleObjectsReturned]. *)
Theorem precheck_without_duplicates (now : Z) (d : Store) :
  ((forall v, In v stadiums_data -> length (named (name v) d) <= 1) ->
   fst (run now d) = Ok tt
   /\ exists created : list Row,
        db (snd (run now d)) = d ++ created
        /\ forall v, In v stadiums_data ->
             (exists r, named (name v) d = [r]
                        /\ named (name v) (db (snd (run now d))) = [r])
             \/ (named (name v) d = []
                 /\ exists s, In s created
                              /\ named (name v) (db (snd (run now d))) = [s]))
  /\ ((exists v, In v stadiums_data /\ 2 <= length (named (name v) d)) ->
      fst (run now d) = Raise MultipleObjectsReturned).
Proof.
  split.
  - intros H.
    destruct (run_complete now d H)
      as (created & Hres & Hdb & Hseed & Hout & Hnames).
    split; [exact Hres|]. exists created. split; [exact Hdb|].
    intros v Hv. pose proof (named_created d created v Hnames Hv) as Hc.
    rewrite Hdb, named_app. specialize (H v Hv). unfold absent in Hc.
    destruct (named (name v) d) as [|r [|r' rs]] eqn:E.
    + right. split; [reflexivity|].
      destruct (named (name v) created) as [|s [|s' ss]] eqn:Ec;
        try discriminate.
      exists s. split; [|reflexivity].
      assert (Hin : In s (named (name v) created)) by (rewrite Ec; now left).
      unfold named in Hin. apply filter_In in Hin. destruct Hin as [Hin _].
      apply table_In in Hin. tauto.
    + left. exists r. split; [reflexivity|].
      destruct (named (name v) created); [reflexivity | discriminate].
    + simpl in H. lia.
  - intros (v & Hv & Hlen).
    destruct (run_spec now d) as (k & created & _ & _ & _ & _ & Hle & Hres).
    destruct Hres as [[_ ->] | [H _]]; [|exact H].
    rewrite firstn_all in Hle. rewrite Forall_forall in Hle.
    specialize (Hle v Hv). lia.
Qed.

Lemma precheck_without_duplicates_witness :
  (forall v, In v stadiums_data -> length (named (name v) one_oval) <= 1)
  /\ fst (run 0 one_oval) = Ok tt
  /\ exists created : list Row,
       db (snd (run 0 one_oval)) = one_oval ++ created
       /\ forall v, In v stadiums_data ->
            (exists r, named (name v) one_oval = [r]
                       /\ named (name v) (db (snd (run 0 one_oval))) = [r])
            \/ (named (name v) one_oval = []
                /\ exists s, In s created
                             /\ named (name v) (db (snd (run 0 one_oval)))
                                = [s]).
Proof.
  assert (H : forall v, In v stadiums_data ->
                        length (named (name v) one_oval) <= 1).
  { intros v Hv. simpl in Hv.
    repeat (destruct Hv as [<- | Hv]; [vm_compute; lia|]). contradiction. }
  split; [exact H|].
  exact (proj1 (precheck_without_duplicates 0 one_oval) H).
Defined.

(** C4 as stated fails: the name column is not unique, two [create] calls
    with the name of the first venue go through, and on the database they
    leave the existence check of the run raises [MultipleObjectsReturned]. *)
Lemma precheck_counterexample :
  snd (create_twice "Lord's Cricket Ground" []) = two_lords
  /\ length (named "Lord's Cricket Ground" two_lords) = 2
  /\ run 0 two_lords = (Raise MultipleObjectsReturned, mkWorld two_lords []).
Proof. vm_compute. repeat split; reflexivity. Qed.

(** The keyword arguments of the seed command's [Pitch.objects.create] fit
    the Pitch of [geo/models.py]; the Pitch of [geo/models/cric.py] refuses
    them. *)
Lemma seed_keywords_need_models_py (now : Z) (d : Store)
  (stadium area centroid : value) :
  unexpected GeoModels.schema "Pitch"
    [ ("stadium", stadium); ("name", VStr "Main Pitch"); ("area", area);
      ("centroid", centroid); ("surface_type", VStr "grass");
      ("current_condition", VStr "balanced") ] = None
  /\ create Cric.schema now "Pitch"
       [ ("stadium", stadium); ("name", VStr "Main Pitch"); ("area", area);
         ("centroid", centroid); ("surface_type", VStr "grass");
         ("current_condition", VStr "balanced") ] d
     = (Raise (TypeError "current_condition"), d).
Proof. split; reflexivity. Qed.

(** C5.  The Stadium and Pitch the seed command and the admin import are
    those of [geo/models.py]: their columns are name, city, country, location
    and stadium, name, area, centroid, surface_type, current_condition; they
    have no slug, capacity, boundary, timestamp, length or width column (the
    admin's current_condition column is not one of the other Pitch), and no
    column or tuple of columns is declared unique.  Every Stadium row the seed
    command stores has these four columns and no slug. *)
Theorem imported_models_are_models_py :
  SeedStadiums.schema = [GeoModels.Stadium; GeoModels.Pitch]
  /\ map Admin.model Admin.registry = [GeoModels.Stadium; GeoModels.Pitch]
  /\ field_names GeoModels.schema "Stadium"
     = ["name"; "city"; "country"; "location"]
  /\ field_names GeoModels.schema "Pitch"
     = ["stadium"; "name"; "area"; "centroid"; "surface_type";
        "current_condition"]
  /\ forallb (fun f => negb (has_field GeoModels.schema "Stadium" f)
                       && negb (has_field GeoModels.schema "Pitch" f))
       ["slug"; "capacity"; "boundary"; "created_at"; "updated_at";
        "timestamp"; "length_m"; "width_m"] = true
  /\ forallb (has_field GeoModels.schema "Pitch")
       (Admin.list_display Admin.PitchAdmin) = true
  /\ has_field Cric.schema "Pitch" "current_condition" = false
  /\ forallb (fun m => forallb (fun f => negb (f_unique f)) (m_fields m))
       GeoModels.schema = true
  /\ unique_sets GeoModels.schema "Stadium" = []
  /\ unique_sets GeoModels.schema "Pitch" = []
  /\ (forall (now : Z) (d : Store),
        exists created : list Row,
          db (snd (run now d)) = d ++ created
          /\ forall s, In s created -> is_model "Stadium" s = true ->
               row_get "slug" s = None
               /\ map fst (row_fields s)
                  = ["name"; "city"; "country"; "location"]).
Proof.
  repeat (split; [reflexivity|]).
  intros now d.
  destruct (run_spec now d) as (k & created & Hdb & Hseed & _).
  exists created. split; [exact Hdb|]. intros s Hs Hm.
  destruct (seeded_pitches_of _ _ _ Hseed s Hs Hm) as (v & d' & _ & -> & _).
  split; reflexivity.
Qed.

(** C10, as the code has it.  The venue table lists the latitude first
    (every first number is within 90 degrees, not every second one is).  A
    run stores a Stadium row for the venues that had none, in table order up
    to the venue at which it stops, if it does.  Every Stadium row it stores
    is the row of a venue, and its location is the point (longitude,
    latitude); the area of its Pitch is a closed ring of five coordinates,
    the first equal to the last, whose four corners, longitude first, are
    those of an axis-aligned rectangle centred exactly on the location, with
    a width and a height that are 0.0006 up to the rounding of binary64:
    within 1e-13 of it. *)
Theorem seed_coordinates (now : Z) (d : Store) :
  forallb latitude_first stadiums_data = true
  /\ existsb beyond_latitude stadiums_data = true
  /\ exists (k : nat) (created : list Row),
       db (snd (run now d)) = d ++ created
       /\ map (attr "name") (table "Stadium" created)
          = map (fun v => VStr (name v))
                (filter (fun v => absent (name v) d) (firstn k stadiums_data))
       /\ ((fst (run now d) = Ok tt /\ k = 10)
           \/ (fst (run now d) = Raise MultipleObjectsReturned
               /\ exists v, nth_error stadiums_data k = Some v
                            /\ 2 <= length (named (name v) d)))
       /\ forall s, In s created -> is_model "Stadium" s = true ->
            exists (v : Venue) (p : Row) (ring : list (float * float))
                   (R : list Plane.Coord) (o : Plane.Coord) (w h : Q),
              In v stadiums_data
              /\ attr "name" s = VStr (name v)
              /\ attr "location" s = VPoint (snd (coords v)) (fst (coords v))
              /\ pitches_of s created = [p]
              /\ attr "area" p = VPolygon ring
              /\ length ring = 5
              /\ nth_error ring 0 = nth_error ring 4
              /\ Binary64.exact_ring ring = Some R
              /\ Binary64.exact_coord (snd (coords v), fst (coords v)) = Some o
              /\ Plane.is_axis_aligned_box R o w h
              /\ Plane.near 1e-13 w 0.0006
              /\ Plane.near 1e-13 h 0.0006.
Proof.
  split; [vm_compute; reflexivity|]. split; [vm_compute; reflexivity|].
  destruct (run_spec now d)
    as (k & created & Hdb & Hseed & Hout & Hnames & _ & Hres).
  exists k, created. split; [exact Hdb|]. split; [exact Hnames|].
  split; [exact Hres|].
  intros s Hs Hm.
  destruct (seeded_pitches_of _ _ _ Hseed s Hs Hm) as (v & d' & Hv & -> & Hp).
  destruct (venue_ring v Hv)
    as (R & o & HR & Ho & _ & _ & Hbox & Hw & Hh & _).
  exists v, (pitch_row d' v), (pitch_ring (fst (coords v)) (snd (coords v))),
         R, o, (fst (Plane.spans R)), (snd (Plane.spans R)).
  split; [exact Hv|]. split; [reflexivity|]. split; [reflexivity|].
  split; [exact Hp|]. split; [reflexivity|]. split; [reflexivity|].
  split; [reflexivity|]. split; [exact HR|]. split; [exact Ho|].
  split; [exact Hbox|]. split; assumption.
Qed.

(** C10 as stated fails: for the first venue, on an empty database, the
    ring that is stored is not a square of side 0.0006.  The differences
    and sums with 0.0003 are rounded to binary64: neither the width nor the
    height of the ring is 0.0006, and they differ from each other, so that
    the ring is a square of no side at all. *)
Lemma seed_coordinates_counterexample :
  let ring := pitch_ring (fst (coords lords)) (snd (coords lords)) in
  nth_error stadiums_data 0 = Some lords
  /\ option_map (attr "name") (nth_error (db (snd (run 0 []))) 0)
     = Some (VStr "Lord's Cricket Ground")
  /\ option_map (attr "location") (nth_error (db (snd (run 0 []))) 0)
     = Some (VPoint (snd (coords lords)) (fst (coords lords)))
  /\ option_map (attr "stadium") (nth_error (db (snd (run 0 []))) 1)
     = option_map (fun s => VRef (row_pk s))
         (nth_error (db (snd (run 0 []))) 0)
  /\ option_map (attr "area") (nth_error (db (snd (run 0 []))) 1)
     = Some (VPolygon ring)
  /\ exists (R : list Plane.Coord) (o : Plane.Coord),
       Binary64.exact_ring ring = Some R
       /\ Binary64.exact_coord (snd (coords lords), fst (coords lords))
          = Some o
       /\ ~ (fst (Plane.spans R) == 0.0006)%Q
       /\ ~ (snd (Plane.spans R) == 0.0006)%Q
       /\ ~ (fst (Plane.spans R) == snd (Plane.spans R))%Q
       /\ forall side : Q, ~ Plane.is_axis_aligned_square R o side.
Proof.
  intros ring.
  split; [reflexivity|]. split; [vm_compute; reflexivity|].
  split; [vm_compute; reflexivity|]. split; [vm_compute; reflexivity|].
  split; [vm_compute; reflexivity|].
  destruct (Binary64.exact_ring ring) as [R|] eqn:ER;
    [|vm_compute in ER; discriminate].
  destruct (Binary64.exact_coord (snd (coords lords), fst (coords lords)))
    as [o|] eqn:Eo; [|vm_compute in Eo; discriminate].
  exists R, o. split; [reflexivity|]. split; [reflexivity|].
  vm_compute in ER. injection ER as <-.
  assert (Hne : forall a b : Q, Qeq_bool a b = false -> ~ (a == b)%Q).
  { intros a b E H. apply Qeq_bool_iff in H. congruence. }
  split; [apply Hne; vm_compute; reflexivity|].
  split; [apply Hne; vm_compute; reflexivity|].
  split; [apply Hne; vm_compute; reflexivity|].
  intros side (x0 & y0 & x1 & y1 & E & _ & _ & Hw & Hh & _).
  inversion E; subst. rewrite <- Hh in Hw. revert Hw.
  apply Hne. vm_compute. reflexivity.
Qed.

(** The first venue, from an empty database. *)
Lemma seed_first_venue_example :
  option_map row_fields (nth_error (db (snd (run 0 []))) 0)
  = Some [ ("name", VStr "Lord's Cricket Ground"); ("city", VNull);
           ("country", VStr "England");
           ("location", VPoint (snd (coords lords)) (fst (coords lords))) ]
  /\ nth_error (stdout (snd (run 0 []))) 0
     = Some (SUCCESS "Created stadium and pitch: Lord's Cricket Ground")
  /\ stdout (snd (run 1 (db (snd (run 0 [])))))
     = map exists_line stadiums_data.
Proof. vm_compute. repeat split; reflexivity. Qed.

(** ** The schema of [geo/models/cric.py] *)



(** A second Stadium with a stored slug and a negative capacity, and a
    second Inning with a stored (match, number) pair and a number of overs
    beyond the range of its column: the checks on the columns come first. *)
Lemma insert_checks_come_first_example :
  insert Cric.schema "Stadium"
    (init_fields Cric.schema 0 "Stadium"
       [("name", VStr "Eden Park, Auckland"); ("slug", VStr "eden-park");
        ("capacity", VInt (-1))]) Cric.sample
  = (Raise (IntegrityError (Check "capacity")), Cric.sample)
  /\ insert Cric.schema "Inning"
       (init_fields Cric.schema 0 "Inning"
          [("match", VRef 1); ("number", VInt 1); ("overs", VInt 40000)])
       [mkRow "Inning" 1 [("match", VRef 1); ("number", VInt 1)]]
     = (Raise (DataError "overs"),
        [mkRow "Inning" 1 [("match", VRef 1); ("number", VInt 1)]]).
Proof. vm_compute. split; reflexivity. Qed.

Lemma insert_second_slug_example :
  insert Cric.schema "Stadium" Cric.eden_park Cric.sample
  = (Raise (IntegrityError (Unique ["slug"])), Cric.sample).
Proof. vm_compute. reflexivity. Qed.

(** C7.  Deleting a Stadium raises nothing; the Stadium is gone and so is
    every Pitch whose stadium column refers to it; every Match that referred
    to it is still stored under its key, with NULL in its stadium column and
    every column other than stadium and pitch as before. *)
Theorem delete_stadium_cascades (pk : nat) (d : Store) :
  let d' := snd (delete Cric.schema ("Stadium", pk) d) in
  fst (delete Cric.schema ("Stadium", pk) d) = Ok tt
  /\ (forall r, In r d' -> key_of r <> ("Stadium", pk))
  /\ (forall p, In p d -> row_model p = "Pitch" ->
                row_get "stadium" p = Some (VRef pk) ->
                forall r, In r d' -> key_of r <> key_of p)
  /\ (forall m, In m d -> row_model m = "Match" ->
                row_get "stadium" m = Some (VRef pk) ->
                exists m', In m' d' /\ key_of m' = key_of m
                           /\ row_get "stadium" m' = Some VNull
                           /\ forall f, f <> "stadium" -> f <> "pitch" ->
                                        row_get f m' = row_get f m).
Proof.
  intros d'. split; [reflexivity|]. split; [|split].
  - intros r. apply delete_removes_key.
  - intros p Hp Hm Hv. apply delete_removes_child; [exact Hp|].
    apply (cascades_via Cric.schema _ p "stadium" "Stadium" pk
             (field "stadium" (ForeignKey "Stadium" CASCADE)));
      [rewrite Hm; reflexivity | reflexivity | exact Hv | now left].
  - intros m Hin Hm Hv.
    exists (set_null Cric.schema
              (collect Cric.schema (length d) d [("Stadium", pk)]) m).
    split; [|split; [reflexivity|split]].
    + apply (delete_keeps Cric.schema Cric.below_stadium);
        [reflexivity | reflexivity | rewrite Hm; reflexivity | exact Hin].
    + apply (set_null_clears Cric.schema _ m "stadium" "Stadium" pk
               (nullable (field "stadium" (ForeignKey "Stadium" SET_NULL))));
        [rewrite Hm; reflexivity | reflexivity | exact Hv |].
      apply collect_mono. now left.
    + intros f Hf1 Hf2. apply set_null_keeps. rewrite Hm.
      change (set_null_columns Cric.schema "Match") with ["pitch"; "stadium"].
      intros [E | [E | []]]; congruence.
Qed.

(** C8.  Deleting a Pitch raises nothing; the Pitch is gone and so is every
    PitchSnapshot, SoilSample, SatelliteImage, CameraImage and PitchMetric
    whose pitch column refers to it; every SensorDevice that referred to it is
    still stored under its key, with NULL in its pitch column and every other
    column as before. *)
Theorem delete_pitch_cascades (pk : nat) (d : Store) :
  let d' := snd (delete Cric.schema ("Pitch", pk) d) in
  fst (delete Cric.schema ("Pitch", pk) d) = Ok tt
  /\ (forall r, In r d' -> key_of r <> ("Pitch", pk))
  /\ (forall c, In c d -> In (row_model c) Cric.pitch_children ->
                row_get "pitch" c = Some (VRef pk) ->
                forall r, In r d' -> key_of r <> key_of c)
  /\ (forall s, In s d -> row_model s = "SensorDevice" ->
                row_get "pitch" s = Some (VRef pk) ->
                exists s', In s' d' /\ key_of s' = key_of s
                           /\ row_get "pitch" s' = Some VNull
                           /\ forall f, f <> "pitch" ->
                                        row_get f s' = row_get f s).
Proof.
  intros d'. split; [reflexivity|]. split; [|split].
  - intros r. apply delete_removes_key.
  - intros c Hc Hm Hv. apply delete_removes_child; [exact Hc|].
    simpl in Hm.
    repeat (destruct Hm as [Hm | Hm];
            [eapply (cascades_via Cric.schema _ c "pitch" "Pitch" pk);
             [rewrite <- Hm; reflexivity | reflexivity | exact Hv | now left]|]).
    contradiction.
  - intros s Hin Hm Hv.
    exists (set_null Cric.schema
              (collect Cric.schema (length d) d [("Pitch", pk)]) s).
    split; [|split; [reflexivity|split]].
    + apply (delete_keeps Cric.schema Cric.below_pitch);
        [reflexivity | reflexivity | rewrite Hm; reflexivity | exact Hin].
    + apply (set_null_clears Cric.schema _ s "pitch" "Pitch" pk
               (nullable (field "pitch" (ForeignKey "Pitch" SET_NULL))));
        [rewrite Hm; reflexivity | reflexivity | exact Hv |].
      apply collect_mono. now left.
    + intros f Hf. apply set_null_keeps. rewrite Hm.
      change (set_null_columns Cric.schema "SensorDevice") with ["pitch"].
      intros [E | []]; congruence.
Qed.

(** C9.  Deleting a SensorDevice raises nothing; the device is gone and so
    is every SensorReading whose device column refers to it. *)
Theorem delete_device_cascades (pk : nat) (d : Store) :
  let d' := snd (delete Cric.schema ("SensorDevice", pk) d) in
  fst (delete Cric.schema ("SensorDevice", pk) d) = Ok tt
  /\ (forall r, In r d' -> key_of r <> ("SensorDevice", pk))
  /\ (forall c, In c d -> row_model c = "SensorReading" ->
                row_get "device" c = Some (VRef pk) ->
                forall r, In r d' -> key_of r <> key_of c).
Proof.
  intros d'. split; [reflexivity|]. split.
  - intros r. apply delete_removes_key.
  - intros c Hc Hm Hv. apply delete_removes_child; [exact Hc|].
    eapply (cascades_via Cric.schema _ c "device" "SensorDevice" pk);
      [rewrite Hm; reflexivity | reflexivity | exact Hv | now left].
Qed.

(** The three deletions on the sample database. *)
Lemma delete_stadium_example :
  map key_of (snd (delete Cric.schema ("Stadium", 1) Cric.sample))
  = [("SensorDevice", 1); ("SensorReading", 1); ("Match", 1);
     ("Stadium", 2); ("Pitch", 2)]
  /\ In (mkRow "Match" 1
           [("pitch", VNull); ("stadium", VNull); ("name", VStr "Final")])
        (snd (delete Cric.schema ("Stadium", 1) Cric.sample))
  /\ In (mkRow "SensorDevice" 1 [("uid", VStr "d-1"); ("pitch", VNull)])
        (snd (delete Cric.schema ("Stadium", 1) Cric.sample)).
Proof. vm_compute. intuition. Qed.

Lemma delete_pitch_example :
  snd (delete Cric.schema ("Pitch", 1) Cric.sample)
  = [ mkRow "Stadium" 1
        [("name", VStr "Eden Park"); ("slug", VStr "eden-park")];
      mkRow "StadiumFeature" 1 [("stadium", VRef 1); ("key", VStr "soil")];
      mkRow "SensorDevice" 1 [("uid", VStr "d-1"); ("pitch", VNull)];
      mkRow "SensorReading" 1 [("device", VRef 1)];
      mkRow "Match" 1
        [("pitch", VNull); ("stadium", VRef 1); ("name", VStr "Final")];
      mkRow "Stadium" 2
        [("name", VStr "Newlands"); ("slug", VStr "newlands")];
      mkRow "Pitch" 2 [("stadium", VRef 2); ("name", VStr "Main")] ].
Proof. vm_compute. reflexivity. Qed.

Lemma delete_device_example :
  map key_of (snd (delete Cric.schema ("SensorDevice", 1) Cric.sample))
  = [("Stadium", 1); ("StadiumFeature", 1); ("Pitch", 1);
     ("PitchSnapshot", 1); ("PitchAnalysis", 1); ("PitchMetric", 1);
     ("Match", 1); ("Stadium", 2); ("Pitch", 2)].
Proof. vm_compute. reflexivity. Qed.

(* ================================================================== *)
(** * Further properties of the code                                   *)
(* ================================================================== *)

Import CricFacts.

(** ** The seed command and the models of [geo/models.py] *)

(** X1.  Whatever the database, a run of the seed command ends normally or
    raises [MultipleObjectsReturned], and it raises exactly when the name of
    some venue is carried by two or more Stadiums.  In both cases every row
    that was stored is still there, unchanged and in place: the run only
    appends rows, and only Stadium and Pitch rows. *)
Theorem seed_keeps_stored_rows (now : Z) (d : Store) :
  (fst (run now d) = Ok tt \/ fst (run now d) = Raise MultipleObjectsReturned)
  /\ (fst (run now d) = Raise MultipleObjectsReturned
      <-> exists v, In v stadiums_data /\ 2 <= length (named (name v) d))
  /\ exists created : list Row,
       db (snd (run now d)) = d ++ created
       /\ forall r, In r created ->
                    row_model r = "Stadium" \/ row_model r = "Pitch".
Proof.
  destruct (run_spec now d)
    as (k & created & Hdb & Hseed & Hout & Hnames & Hle & Hres).
  split; [|split].
  - destruct Hres as [[H _] | [H _]]; auto.
  - split.
    + intros H. destruct Hres as [[H' _] | [_ (v & Hnth & Hlen)]];
        [congruence|].
      exists v. split; [eapply nth_error_In; exact Hnth | exact Hlen].
    + intros (v & Hv & Hlen).
      destruct Hres as [[_ ->] | [H _]]; [|exact H].
      rewrite firstn_all in Hle. rewrite Forall_forall in Hle.
      specialize (Hle v Hv). lia.
  - exists created. split; [exact Hdb|]. exact (seeded_models _ _ _ Hseed).
Qed.

(** X2.  The command is idempotent on every database on which it completes:
    when no venue name is carried by more than one Stadium, a run that follows
    a run ends normally, stores nothing and writes the ten already-exists
    lines. *)
Theorem seed_again_stores_nothing (now1 now2 : Z) (d : Store) :
  (forall v, In v stadiums_data -> length (named (name v) d) <= 1) ->
  run now2 (db (snd (run now1 d)))
  = (Ok tt, mkWorld (db (snd (run now1 d))) (map exists_line stadiums_data)).
Proof.
  intros H.
  destruct (run_complete now1 d H)
    as (created & Hres & Hdb & Hseed & Hout & Hnames).
  assert (Hone : forall v, In v stadiums_data ->
                   length (named (name v) (db (snd (run now1 d)))) = 1).
  { intros v Hv. rewrite Hdb, named_app, length_app.
    rewrite (named_created d created v Hnames Hv).
    specialize (H v Hv). unfold absent.
    destruct (named (name v) d) as [|r [|r' rs]]; simpl in *; lia. }
  destruct (run_all_present now2 _ Hone) as (H1 & H2 & H3).
  destruct (run now2 (db (snd (run now1 d)))) as [res [db' out]].
  simpl in *. now subst.
Qed.

Lemma seed_again_stores_nothing_witness :
  (forall v, In v stadiums_data -> length (named (name v) one_oval) <= 1)
  /\ run 1 (db (snd (run 0 one_oval)))
     = (Ok tt,
        mkWorld (db (snd (run 0 one_oval))) (map exists_line stadiums_data)).
Proof.
  assert (H : forall v, In v stadiums_data ->
                        length (named (name v) one_oval) <= 1).
  { intros v Hv. simpl in Hv.
    repeat (destruct Hv as [<- | Hv]; [vm_compute; lia|]). contradiction. }
  split; [exact H|]. exact (seed_again_stores_nothing 0 1 one_oval H).
Defined.

(** X3.  The command and the cascade of [Pitch.stadium] compose: once a
    Stadium that a run stored for a venue is deleted, no Stadium carries the
    venue's name and no Pitch refers to the deleted Stadium; the next run ends
    normally, stores that venue's Stadium and Pitch again and nothing else,
    and writes the creation line for that venue and the already-exists line for
    the nine others.  The new Stadium has the columns of the deleted one, the
    new Pitch refers to it, and their keys are keys of no row that was left. *)
Theorem reseed_after_delete (now1 now2 : Z) (d : Store) (v : Venue) :
  (forall u, In u stadiums_data -> length (named (name u) d) <= 1) ->
  In v stadiums_data ->
  absent (name v) d = true ->
  exists s,
    named (name v) (db (snd (run now1 d))) = [s]
    /\ let d2 := snd (delete GeoModels.schema ("Stadium", row_pk s)
                        (db (snd (run now1 d)))) in
       named (name v) d2 = []
       /\ pitches_of s d2 = []
       /\ exists s' p' : Row,
            run now2 d2
            = (Ok tt,
               mkWorld (d2 ++ [s'; p'])
                 (map (fun u => if String.eqb (name u) (name v)
                                then created_line u else exists_line u)
                      stadiums_data))
            /\ row_model s' = "Stadium"
            /\ row_fields s' = row_fields s
            /\ row_model p' = "Pitch"
            /\ row_get "stadium" p' = Some (VRef (row_pk s'))
            /\ attr "name" p' = VStr "Main Pitch"
            /\ forall r, In r d2 ->
                         key_of r <> key_of s' /\ key_of r <> key_of p'.
Proof.
  intros H Hv Habs.
  destruct (run_complete now1 d H)
    as (created & Hres & Hdb & Hseed & Hout & Hnames).
  set (d1 := db (snd (run now1 d))) in *.
  (* one Stadium per venue after the first run *)
  assert (Hone : forall u, In u stadiums_data ->
                   length (named (name u) d1) = 1).
  { intros u Hu. rewrite Hdb, named_app, length_app.
    rewrite (named_created d created u Hnames Hu).
    specialize (H u Hu). unfold absent.
    destruct (named (name u) d) as [|r [|r' rs]]; simpl in *; lia. }
  (* the Stadium of [v] was appended by the first run *)
  assert (Hs : exists s, named (name v) d1 = [s] /\ In s created
                         /\ is_model "Stadium" s = true).
  { pose proof (named_created d created v Hnames Hv) as Hc.
    rewrite Habs in Hc. rewrite Hdb, named_app.
    unfold absent in Habs.
    destruct (named (name v) d) as [|x xs]; [|discriminate]. simpl.
    destruct (named (name v) created) as [|s [|s' ss]] eqn:Ec;
      try discriminate.
    exists s. split; [reflexivity|].
    assert (Hin : In s (named (name v) created)) by (rewrite Ec; now left).
    unfold named in Hin. apply filter_In in Hin. destruct Hin as [Hin _].
    apply table_In in Hin. destruct Hin as [Hin Hm]. split; [exact Hin|].
    unfold is_model. rewrite Hm. reflexivity. }
  destruct Hs as (s & Hns & Hsc & Hsm). exists s. split; [exact Hns|].
  intros d2.
  set (D := collect GeoModels.schema (length d1) d1 [("Stadium", row_pk s)]).
  assert (Hd2 : d2 = filter (survives D) d1)
    by (apply geo_delete; reflexivity).
  (* a Stadium other than [s] survives *)
  assert (Hsurv : forall r, In r (table "Stadium" d1) -> r <> s ->
                            survives D r = true).
  { intros r Hr Hne. unfold survives. apply negb_true_iff.
    apply not_true_is_false. intros E. apply in_keys_In in E.
    apply table_In in Hr. destruct Hr as [Hr Hrm].
    apply collect_origin in E. destruct E as [[E | []] | (r0 & D0 & _ & E & Hc)].
    - unfold key_of in E. inversion E as [[E1 E2]].
      assert (Hin : In r (filter (fun x => Nat.eqb (row_pk x) (row_pk s))
                            (table "Stadium" d1))).
      { apply filter_In. split; [now apply table_In|].
        apply Nat.eqb_eq. now symmetry. }
      rewrite Hdb in Hin.
      rewrite (seeded_stadium_only _ _ _ s Hseed Hsc Hsm) in Hin.
      destruct Hin as [Hin | []]. congruence.
    - apply geo_cascades_pitch in Hc. unfold key_of in E.
      inversion E as [[E1 E2]]. congruence. }
  assert (Hsgone : survives D s = false).
  { unfold survives. apply negb_false_iff. apply in_keys_In.
    unfold D. apply collect_mono. left. unfold key_of.
    unfold is_model in Hsm. apply String.eqb_eq in Hsm. now rewrite Hsm. }
  (* the names after the deletion *)
  assert (Hnv : named (name v) d2 = []).
  { rewrite Hd2, named_filter, Hns. simpl. now rewrite Hsgone. }
  assert (Hnu : forall u, In u stadiums_data -> name u <> name v ->
                          named (name u) d2 = named (name u) d1
                          /\ length (named (name u) d2) = 1).
  { intros u Hu Hne. specialize (Hone u Hu).
    destruct (named (name u) d1) as [|r [|r' rs]] eqn:En; try discriminate.
    rewrite Hd2, named_filter, En. simpl.
    rewrite Hsurv; [auto| |].
    - assert (Hin : In r (named (name u) d1)) by (rewrite En; now left).
      unfold named in Hin. apply filter_In in Hin. tauto.
    - intros ->.
      assert (H1 : In s (named (name u) d1)) by (rewrite En; now left).
      assert (H2 : In s (named (name v) d1)) by (rewrite Hns; now left).
      apply named_name in H1. apply named_name in H2. congruence. }
  assert (Habs2 : forall u, In u stadiums_data ->
                    absent (name u) d2 = String.eqb (name u) (name v)).
  { intros u Hu. destruct (String.eqb (name u) (name v)) eqn:E.
    - apply String.eqb_eq in E. rewrite E. unfold absent. now rewrite Hnv.
    - apply String.eqb_neq in E. destruct (Hnu u Hu E) as [_ Hl].
      unfold absent. destruct (named (name u) d2); [discriminate|reflexivity]. }
  split; [exact Hnv|]. split.
  { (* no Pitch of [s] is left *)
    unfold pitches_of. apply filter_nil. intros p Hp.
    destruct (is_model "Pitch" p) eqn:Em; [|reflexivity]. simpl.
    destruct (value_eqb (attr "stadium" p) (VRef (row_pk s))) eqn:Ev;
      [|reflexivity].
    exfalso. apply value_eqb_VRef in Ev.
    rewrite Hd2 in Hp. apply filter_In in Hp. destruct Hp as [Hp Hsv].
    assert (Hc : cascades GeoModels.schema [("Stadium", row_pk s)] p = true).
    { unfold is_model in Em. apply String.eqb_eq in Em.
      apply (cascades_via GeoModels.schema _ p "stadium" "Stadium" (row_pk s)
               (field "stadium" (ForeignKey "Stadium" CASCADE)));
        [rewrite Em; reflexivity | reflexivity | | now left].
      unfold attr in Ev. destruct (row_get "stadium" p) as [x|];
        [now subst | discriminate]. }
    assert (Hk : In (key_of p) D).
    { unfold D. destruct d1 as [|r0 d1']; [contradiction|].
      now apply collect_direct. }
    unfold survives in Hsv. apply negb_true_iff in Hsv.
    apply in_keys_In in Hk. congruence. }
  (* the second run *)
  destruct (run_complete now2 d2)
    as (created2 & Hres2 & Hdb2 & Hseed2 & Hout2 & Hnames2).
  { intros u Hu. destruct (String.eqb (name u) (name v)) eqn:E.
    - apply String.eqb_eq in E. rewrite E, Hnv. simpl. lia.
    - apply String.eqb_neq in E. destruct (Hnu u Hu E) as [_ Hl]. lia. }
  rewrite (filter_ext_in _ (fun u => String.eqb (name u) (name v)) _ Habs2)
    in Hnames2.
  rewrite (filter_by_name _ v venues_nodup Hv) in Hnames2.
  assert (Hc2 : created2 = [stadium_row d2 v; pitch_row d2 v]).
  { destruct Hseed2 as [d0|d0 v' rest Hv' Hrest]; [discriminate|].
    rewrite table_pair in Hnames2. simpl in Hnames2.
    inversion Hnames2 as [[E1 E2]].
    apply map_eq_nil_inv in E2.
    rewrite (seeded_no_stadium _ _ _ Hrest E2).
    rewrite (same_name_same_venue _ v' v venues_nodup Hv' Hv E1).
    reflexivity. }
  exists (stadium_row d2 v), (pitch_row d2 v).
  split; [|split; [reflexivity|split; [|split; [reflexivity|split;
            [reflexivity|split; [reflexivity|]]]]]].
  - destruct (run now2 d2) as [res [db2 out2]].
    cbn [fst snd db stdout] in Hres2, Hdb2, Hout2.
    subst res db2 out2. f_equal. f_equal; [now rewrite Hc2|].
    apply map_ext_in. intros u Hu. unfold line_for. now rewrite (Habs2 u Hu).
  - destruct (seeded_pitches_of _ _ _ Hseed s Hsc Hsm)
      as (v' & d' & Hv' & Es & _).
    assert (Hin : In s (named (name v) d1)) by (rewrite Hns; now left).
    apply named_name in Hin. rewrite Es in Hin.
    change (attr "name" (stadium_row d' v')) with (VStr (name v')) in Hin.
    inversion Hin as [En].
    rewrite (same_name_same_venue _ v' v venues_nodup Hv' Hv En) in Es.
    rewrite Es. reflexivity.
  - intros r Hr. unfold key_of. split; intros E; injection E as Em Ek.
    + assert (Hlt : row_pk r < next_pk "Stadium" d2).
      { apply (row_pk_lt_next "Stadium"). now apply table_In. }
      change (row_pk (stadium_row d2 v)) with (next_pk "Stadium" d2) in Ek.
      rewrite Ek in Hlt. exact (Nat.lt_irrefl _ Hlt).
    + assert (Hlt : row_pk r < next_pk "Pitch" d2).
      { apply (row_pk_lt_next "Pitch"). now apply table_In. }
      change (row_pk (pitch_row d2 v)) with (next_pk "Pitch" d2) in Ek.
      rewrite Ek in Hlt. exact (Nat.lt_irrefl _ Hlt).
Qed.


Lemma reseed_after_delete_witness :
  (forall u, In u stadiums_data -> length (named (name u) []) <= 1)
  /\ In eden_park stadiums_data
  /\ absent (name eden_park) [] = true
  /\ exists s,
       named (name eden_park) (db (snd (run 0 []))) = [s]
       /\ let d2 := snd (delete GeoModels.schema ("Stadium", row_pk s)
                           (db (snd (run 0 [])))) in
          named (name eden_park) d2 = []
          /\ pitches_of s d2 = []
          /\ exists s' p' : Row,
               run 1 d2
               = (Ok tt,
                  mkWorld (d2 ++ [s'; p'])
                    (map (fun u => if String.eqb (name u) (name eden_park)
                                   then created_line u else exists_line u)
                         stadiums_data))
               /\ row_model s' = "Stadium"
               /\ row_fields s' = row_fields s
               /\ row_model p' = "Pitch"
               /\ row_get "stadium" p' = Some (VRef (row_pk s'))
               /\ attr "name" p' = VStr "Main Pitch"
               /\ forall r, In r d2 ->
                            key_of r <> key_of s' /\ key_of r <> key_of p'.
Proof.
  assert (H1 : forall u, In u stadiums_data ->
                         length (named (name u) []) <= 1)
    by (intros u _; simpl; lia).
  assert (H2 : In eden_park stadiums_data) by (simpl; tauto).
  split; [exact H1|]. split; [exact H2|]. split; [reflexivity|].
  exact (reseed_after_delete 0 1 [] _ H1 H2 eq_refl).
Defined.

(** X4.  Every location the command stores is a point of the globe
    (longitude within 180 degrees, latitude within 90), and so is every corner
    of the pitch ring stored with it. *)
Theorem seed_coordinates_on_globe (now : Z) (d : Store) :
  exists created : list Row,
    db (snd (run now d)) = d ++ created
    /\ forall s, In s created -> is_model "Stadium" s = true ->
         exists (x y : float) (p : Row) (ring : list (float * float)),
           attr "location" s = VPoint x y
           /\ Geos.on_globe (x, y)
           /\ pitches_of s created = [p]
           /\ attr "area" p = VPolygon ring
           /\ Forall Geos.on_globe ring.
Proof.
  destruct (run_spec now d) as (k & created & Hdb & Hseed & _).
  exists created. split; [exact Hdb|]. intros s Hs Hm.
  destruct (seeded_pitches_of _ _ _ Hseed s Hs Hm) as (v & d' & Hv & -> & Hp).
  destruct (venue_ring v Hv)
    as (R & o & _ & _ & _ & _ & _ & _ & _ & _ & _ & Hloc & Hring).
  exists (snd (coords v)), (fst (coords v)), (pitch_row d' v),
         (pitch_ring (fst (coords v)) (snd (coords v))).
  split; [reflexivity|]. split; [exact Hloc|].
  split; [exact Hp|]. split; [reflexivity | exact Hring].
Qed.

(** X5.  The ring of every Pitch the command stores runs clockwise: on the
    exact numbers the stored coordinates stand for, its signed area is
    negative, and it is 0.0006 by 0.0006 square degrees up to 1e-16. *)
Theorem ring_is_clockwise (now : Z) (d : Store) :
  exists created : list Row,
    db (snd (run now d)) = d ++ created
    /\ forall p, In p created -> is_model "Pitch" p = true ->
         exists (ring : list (float * float)) (R : list Plane.Coord),
           attr "area" p = VPolygon ring
           /\ Binary64.exact_ring ring = Some R
           /\ (Plane.signed_area R < 0)%Q
           /\ Plane.near 1e-16 (Plane.signed_area R) (- (0.0006 * 0.0006)).
Proof.
  destruct (run_spec now d) as (k & created & Hdb & Hseed & _).
  exists created. split; [exact Hdb|]. intros p Hp Hm.
  destruct (seeded_pitch_stadium _ _ _ Hseed p Hp Hm)
    as (v & d' & Hv & -> & _).
  destruct (venue_ring v Hv)
    as (R & o & HR & _ & _ & _ & _ & _ & _ & Hneg & Harea & _).
  exists (pitch_ring (fst (coords v)) (snd (coords v))), R.
  split; [reflexivity|]. split; [exact HR|]. split; assumption.
Qed.


(** On a store without the stadium the pitch refers to, [Pitch.__str__]
    raises. *)
Lemma pitch_str_example :
  fst (ModelsPy.Pitch_str
         (mkRow "Pitch" 1 [("stadium", VRef 9); ("name", VStr "Main")]) [])
  = Raise DoesNotExist.
Proof. reflexivity. Qed.

(** X7.  Creating a Stadium of [geo/models.py] from a name never fails for
    the name being taken.  On every database, a name of at most 255
    characters (characters, not bytes) is stored in a new row (city, country
    and location NULL) under a key that no row has; a longer name is refused
    with a [DataError] that leaves the database as it was, unless what exceeds
    255 characters is only spaces: then the object returned carries the name
    as given and the row is stored with the first 255 characters. *)
Theorem stadium_name_width (now : Z) (n : string) (d : Store) :
  Text.well_formed n = true ->
  (Text.chars n <= 255 ->
   exists pk : nat,
     create GeoModels.schema now "Stadium" [("name", VStr n)] d
     = (Ok (bare_stadium pk n), d ++ [bare_stadium pk n])
     /\ forall r, In r d -> key_of r <> ("Stadium", pk))
  /\ (255 < Text.chars n -> Text.blank (Text.drop 255 n) = false ->
      create GeoModels.schema now "Stadium" [("name", VStr n)] d
      = (Raise (DataError "name"), d))
  /\ (255 < Text.chars n -> Text.blank (Text.drop 255 n) = true ->
      exists pk : nat,
        create GeoModels.schema now "Stadium" [("name", VStr n)] d
        = (Ok (bare_stadium pk n), d ++ [bare_stadium pk (Text.take 255 n)])
        /\ Text.chars (Text.take 255 n) <= 255
        /\ forall r, In r d -> key_of r <> ("Stadium", pk)).
Proof.
  intros _. rewrite create_named. split; [|split].
  - intros H. exists (next_pk "Stadium" d).
    rewrite (take_all 255 n H). apply Nat.ltb_ge in H. rewrite H.
    split; [reflexivity|]. intros r. apply fresh_key.
  - intros H Hb. apply Nat.ltb_lt in H. rewrite H, Hb. reflexivity.
  - intros H Hb. exists (next_pk "Stadium" d).
    rewrite Hb, andb_false_r.
    split; [reflexivity|]. split; [apply chars_take|].
    intros r. apply fresh_key.
Qed.

Lemma stadium_name_width_witness :
  Text.well_formed accents = true
  /\ String.length accents = 256
  /\ Text.chars accents = 128
  /\ exists pk : nat,
       create GeoModels.schema 0 "Stadium" [("name", VStr accents)] []
       = (Ok (bare_stadium pk accents), [bare_stadium pk accents]).
Proof.
  assert (H : Text.well_formed accents = true) by (vm_compute; reflexivity).
  assert (C : Text.chars accents <= 255) by (vm_compute; lia).
  split; [exact H|]. split; [vm_compute; reflexivity|].
  split; [vm_compute; reflexivity|].
  destruct (proj1 (stadium_name_width 0 accents [] H) C) as (pk & E & _).
  exists pk. exact E.
Defined.

(** ** The schema of [geo/models/cric.py] *)



(** X9.  Deleting a Stadium reaches down the references: its StadiumFeatures
    are gone, and so are the PitchSnapshots, SoilSamples, SatelliteImages,
    CameraImages and PitchMetrics of its Pitches and the PitchAnalyses of
    those snapshots. *)
Theorem delete_stadium_reaches (pk : nat) (d : Store) :
  let d' := snd (delete Cric.schema ("Stadium", pk) d) in
  (forall f, In f d -> row_model f = "StadiumFeature" ->
             row_get "stadium" f = Some (VRef pk) -> gone d' f)
  /\ (forall p c, In p d -> row_model p = "Pitch" ->
                  row_get "stadium" p = Some (VRef pk) ->
                  In c d -> In (row_model c) Cric.pitch_children ->
                  row_get "pitch" c = Some (VRef (row_pk p)) -> gone d' c)
  /\ (forall p s a, In p d -> row_model p = "Pitch" ->
                    row_get "stadium" p = Some (VRef pk) ->
                    In s d -> row_model s = "PitchSnapshot" ->
                    row_get "pitch" s = Some (VRef (row_pk p)) ->
                    In a d -> row_model a = "PitchAnalysis" ->
                    row_get "snapshot" a = Some (VRef (row_pk s)) ->
                    gone d' a).
Proof.
  intros d'.
  assert (Hp : forall p, In p d -> row_model p = "Pitch" ->
                 row_get "stadium" p = Some (VRef pk) ->
                 In ("Pitch", row_pk p)
                    (collect Cric.schema (length d) d [("Stadium", pk)])).
  { intros p Hin Hm Hv. rewrite <- (key_of_model p "Pitch" Hm).
    eapply (collect_step Cric.schema _ d p "stadium" "Stadium" pk);
      [exact Hin | by_schema Hm | reflexivity | exact Hv | apply root_doomed]. }
  assert (Hc : forall p c, In p d -> row_model p = "Pitch" ->
                 row_get "stadium" p = Some (VRef pk) ->
                 In c d -> In (row_model c) Cric.pitch_children ->
                 row_get "pitch" c = Some (VRef (row_pk p)) ->
                 In (key_of c)
                    (collect Cric.schema (length d) d [("Stadium", pk)])).
  { intros p c Hin Hm Hv Hcin Hcm Hcv. specialize (Hp p Hin Hm Hv).
    simpl in Hcm.
    repeat (destruct Hcm as [Hcm | Hcm];
            [eapply (collect_step Cric.schema _ d c "pitch" "Pitch" (row_pk p));
             [exact Hcin | by_schema Hcm | reflexivity | exact Hcv | exact Hp]|]).
    contradiction. }
  split; [|split].
  - intros f Hin Hm Hv. unfold gone. apply delete_removes_doomed.
    eapply (collect_step Cric.schema _ d f "stadium" "Stadium" pk);
      [exact Hin | by_schema Hm | reflexivity | exact Hv | apply root_doomed].
  - intros p c Hin Hm Hv Hcin Hcm Hcv. unfold gone.
    apply delete_removes_doomed. now apply (Hc p c).
  - intros p s a Hin Hm Hv Hsin Hsm Hsv Hain Ham Hav. unfold gone.
    apply delete_removes_doomed.
    assert (Hs : In ("PitchSnapshot", row_pk s)
                   (collect Cric.schema (length d) d [("Stadium", pk)])).
    { rewrite <- (key_of_model s "PitchSnapshot" Hsm).
      apply (Hc p s); auto. rewrite Hsm. simpl. tauto. }
    eapply (collect_step Cric.schema _ d a "snapshot" "PitchSnapshot" (row_pk s));
      [exact Hain | by_schema Ham | reflexivity | exact Hav | exact Hs].
Qed.

(** X10.  Deleting a Match removes the Match, its Innings, PlayerTrackPoints
    and team links, the Overs of those Innings and the Deliveries of those
    Overs; it alters no row: every row left was stored as it is, and every row
    of another model (teams, players, pitches, stadiums) is left. *)
Theorem delete_match_cascades (pk : nat) (d : Store) :
  let d' := snd (delete Cric.schema ("Match", pk) d) in
  (forall r, In r d' -> key_of r <> ("Match", pk))
  /\ (forall c, In c d ->
                In (row_model c) ["Inning"; "PlayerTrackPoint"; "Match_teams"] ->
                row_get "match" c = Some (VRef pk) -> gone d' c)
  /\ (forall i o, In i d -> row_model i = "Inning" ->
                  row_get "match" i = Some (VRef pk) ->
                  In o d -> row_model o = "Over" ->
                  row_get "inning" o = Some (VRef (row_pk i)) -> gone d' o)
  /\ (forall i o b, In i d -> row_model i = "Inning" ->
                    row_get "match" i = Some (VRef pk) ->
                    In o d -> row_model o = "Over" ->
                    row_get "inning" o = Some (VRef (row_pk i)) ->
                    In b d -> row_model b = "Delivery" ->
                    row_get "over" b = Some (VRef (row_pk o)) -> gone d' b)
  /\ (forall r, In r d' -> In r d)
  /\ (forall r, In r d -> mem (row_model r) Cric.below_match = false ->
                In r d').
Proof.
  intros d'.
  assert (Hc : forall c, In c d ->
                 In (row_model c) ["Inning"; "PlayerTrackPoint"; "Match_teams"] ->
                 row_get "match" c = Some (VRef pk) ->
                 In (key_of c)
                    (collect Cric.schema (length d) d [("Match", pk)])).
  { intros c Hin Hm Hv. simpl in Hm.
    repeat (destruct Hm as [Hm | Hm];
            [eapply (collect_step Cric.schema _ d c "match" "Match" pk);
             [exact Hin | by_schema Hm | reflexivity | exact Hv
             | apply root_doomed]|]).
    contradiction. }
  assert (Ho : forall i o, In i d -> row_model i = "Inning" ->
                 row_get "match" i = Some (VRef pk) ->
                 In o d -> row_model o = "Over" ->
                 row_get "inning" o = Some (VRef (row_pk i)) ->
                 In ("Over", row_pk o)
                    (collect Cric.schema (length d) d [("Match", pk)])).
  { intros i o Hin Hm Hv Hoin Hom Hov.
    rewrite <- (key_of_model o "Over" Hom).
    eapply (collect_step Cric.schema _ d o "inning" "Inning" (row_pk i));
      [exact Hoin | by_schema Hom | reflexivity | exact Hov |].
    rewrite <- (key_of_model i "Inning" Hm). apply Hc; auto.
    rewrite Hm. simpl. tauto. }
  split; [|split; [|split; [|split]]].
  - intros r. apply delete_removes_key.
  - intros c Hin Hm Hv. unfold gone. apply delete_removes_doomed.
    now apply Hc.
  - intros i o Hin Hm Hv Hoin Hom Hov. unfold gone.
    apply delete_removes_doomed. rewrite (key_of_model o "Over" Hom).
    now apply (Ho i o).
  - intros i o b Hin Hm Hv Hoin Hom Hov Hbin Hbm Hbv. unfold gone.
    apply delete_removes_doomed.
    eapply (collect_step Cric.schema _ d b "over" "Over" (row_pk o));
      [exact Hbin | by_schema Hbm | reflexivity | exact Hbv |].
    now apply (Ho i o).
  - apply (delete_untouched Cric.schema Cric.below_match); reflexivity.
Qed.

(** X11.  Deleting a Team removes the Team and its links to matches; its
    Players stay with NULL for the team and every other column as before, the
    Innings in which it batted or bowled stay with NULL in that column, and
    every Match stays as it was. *)
Theorem delete_team_nulls (pk : nat) (d : Store) :
  let d' := snd (delete Cric.schema ("Team", pk) d) in
  (forall r, In r d' -> key_of r <> ("Team", pk))
  /\ (forall l, In l d -> row_model l = "Match_teams" ->
                row_get "team" l = Some (VRef pk) -> gone d' l)
  /\ (forall p, In p d -> row_model p = "Player" ->
                row_get "team" p = Some (VRef pk) ->
                exists p', In p' d' /\ key_of p' = key_of p
                           /\ row_get "team" p' = Some VNull
                           /\ forall g, g <> "team" ->
                                        row_get g p' = row_get g p)
  /\ (forall i f, In i d -> row_model i = "Inning" ->
                  In f ["batting_team"; "bowling_team"] ->
                  row_get f i = Some (VRef pk) ->
                  exists i', In i' d' /\ key_of i' = key_of i
                             /\ row_get f i' = Some VNull
                             /\ forall g, g <> "batting_team" ->
                                          g <> "bowling_team" ->
                                          row_get g i' = row_get g i)
  /\ (forall m, In m d -> row_model m = "Match" -> In m d').
Proof.
  intros d'. split; [|split; [|split; [|split]]].
  - intros r. apply delete_removes_key.
  - intros l Hin Hm Hv. unfold gone. apply delete_removes_child; [exact Hin|].
    eapply (cascades_via Cric.schema _ l "team" "Team" pk);
      [by_schema Hm | reflexivity | exact Hv | now left].
  - intros p Hin Hm Hv.
    destruct (delete_nulls Cric.below_team "Team" pk d p "team"
                (nullable (field "team" (ForeignKey "Team" SET_NULL))))
      as (p' & H1 & H2 & H3 & H4);
      [reflexivity | reflexivity | by_schema Hm | exact Hin | by_schema Hm
      | reflexivity | exact Hv |].
    exists p'. repeat (split; [assumption|]). intros g Hg. apply H4.
    rewrite Hm. change (set_null_columns Cric.schema "Player") with ["team"].
    intros [E | []]. congruence.
  - intros i f Hin Hm Hf Hv.
    assert (Hfd : exists fd, find_field Cric.schema (row_model i) f = Some fd
                             /\ f_kind fd = ForeignKey "Team" SET_NULL).
    { rewrite Hm. simpl in Hf.
      destruct Hf as [<- | [<- | []]]; eexists; split; reflexivity. }
    destruct Hfd as (fd & Hfd & Hk).
    destruct (delete_nulls Cric.below_team "Team" pk d i f fd)
      as (i' & H1 & H2 & H3 & H4);
      [reflexivity | reflexivity | by_schema Hm | exact Hin | exact Hfd
      | exact Hk | exact Hv |].
    exists i'. repeat (split; [assumption|]). intros g Hg1 Hg2. apply H4.
    rewrite Hm.
    change (set_null_columns Cric.schema "Inning")
      with ["batting_team"; "bowling_team"].
    intros [E | [E | []]]; congruence.
  - intros m Hin Hm.
    assert (H : In (set_null Cric.schema
                      (collect Cric.schema (length d) d [("Team", pk)]) m) d').
    { apply (delete_keeps Cric.schema Cric.below_team);
        [reflexivity | reflexivity | by_schema Hm | exact Hin]. }
    rewrite (set_null_id_model Cric.schema Cric.below_team) in H;
      [exact H | by_schema Hm |].
    apply collect_models; [reflexivity|]. intros key [<- | []]. reflexivity.
Qed.


(** X13.  Deleting a row of a model that no reference points to (a
    StadiumFeature, SoilSample, SensorReading, SatelliteImage, CameraImage,
    team link, Delivery, PlayerTrackPoint, PitchMetric, PitchAnalysis or
    IngestionEvent) removes the rows of that key and does nothing else: no
    parent is deleted, no column is changed. *)
Theorem delete_unreferenced_row (m : string) (pk : nat) (d : Store) :
  In m Cric.unreferenced ->
  delete Cric.schema (m, pk) d
  = (Ok tt, filter (fun r => negb (key_eqb (key_of r) (m, pk))) d).
Proof.
  intros Hm. apply delete_unreferenced. simpl in Hm.
  repeat (destruct Hm as [<- | Hm]; [reflexivity|]). contradiction.
Qed.

Lemma delete_unreferenced_row_witness :
  In "SensorReading" Cric.unreferenced
  /\ delete Cric.schema ("SensorReading", 1) Cric.sample
     = (Ok tt,
        filter (fun r => negb (key_eqb (key_of r) ("SensorReading", 1)))
               Cric.sample).
Proof.
  assert (H : In "SensorReading" Cric.unreferenced) by (simpl; tauto).
  split; [exact H|]. exact (delete_unreferenced_row "SensorReading" 1 _ H).
Defined.

(** X14.  Deleting a SensorDevice alters no row: every row left was stored
    as it is, and every row that is neither a SensorDevice nor a SensorReading
    is left. *)
Theorem delete_device_touches_nothing_else (pk : nat) (d : Store) :
  let d' := snd (delete Cric.schema ("SensorDevice", pk) d) in
  (forall r', In r' d' -> In r' d)
  /\ (forall r, In r d -> row_model r <> "SensorDevice" ->
                row_model r <> "SensorReading" -> In r d').
Proof.
  intros d'.
  destruct (delete_untouched Cric.schema Cric.below_device
              ("SensorDevice", pk) d eq_refl eq_refl eq_refl) as [H1 H2].
  split; [exact H1|]. intros r Hr Hd Hs. apply H2; [exact Hr|].
  unfold mem, Cric.below_device. simpl.
  apply String.eqb_neq in Hd. apply String.eqb_neq in Hs.
  now rewrite Hd, Hs.
Qed.

(** X15.  No deletion leaves a dangling reference: when a row that is left
    holds a key in a reference column and that key named a stored row before
    the deletion, it still names a stored row after it. *)
Theorem delete_keeps_references (k : Key) (d : Store) (r' : Row)
  (fd : Field) (to : string) (od : OnDelete) (pk : nat) :
  In r' (snd (delete Cric.schema k d)) ->
  In fd (fields_of Cric.schema (row_model r')) ->
  f_kind fd = ForeignKey to od ->
  row_get (f_name fd) r' = Some (VRef pk) ->
  has_row to pk d = true ->
  has_row to pk (snd (delete Cric.schema k d)) = true.
Proof.
  intros Hr Hfd Hk Hv Hrow. apply delete_keeps_target; [|exact Hrow].
  exact (cric_delete_no_dangling k d r' fd to od pk Hr Hfd Hk Hv).
Qed.

Lemma delete_keeps_references_witness :
  In (mkRow "Pitch" 2 [("stadium", VRef 2); ("name", VStr "Main")])
     (snd (delete Cric.schema ("Stadium", 1) Cric.sample))
  /\ In (field "stadium" (ForeignKey "Stadium" CASCADE))
        (fields_of Cric.schema "Pitch")
  /\ has_row "Stadium" 2 Cric.sample = true
  /\ has_row "Stadium" 2 (snd (delete Cric.schema ("Stadium", 1) Cric.sample))
     = true.
Proof.
  assert (H1 : In (mkRow "Pitch" 2 [("stadium", VRef 2); ("name", VStr "Main")])
                  (snd (delete Cric.schema ("Stadium", 1) Cric.sample)))
    by (vm_compute; tauto).
  assert (H2 : In (field "stadium" (ForeignKey "Stadium" CASCADE))
                  (fields_of Cric.schema "Pitch"))
    by (vm_compute; tauto).
  assert (H3 : has_row "Stadium" 2 Cric.sample = true) by reflexivity.
  split; [exact H1|]. split; [exact H2|]. split; [exact H3|].
  exact (delete_keeps_references ("Stadium", 1) Cric.sample _ _ "Stadium"
           CASCADE 2 H1 H2 eq_refl eq_refl H3).
Defined.

(** X16.  No deletion puts a NULL into a column declared NOT NULL: every
    [SET_NULL] column is nullable, so when every row had its NOT NULL columns
    filled before a deletion, every row left has them filled after it. *)
Theorem delete_keeps_not_null (k : Key) (d : Store) :
  (forall r, In r d -> not_null_ok Cric.schema r) ->
  forall r', In r' (snd (delete Cric.schema k d)) ->
             not_null_ok Cric.schema r'.
Proof.
  intros H r' Hr'. apply delete_In in Hr'. destruct Hr' as (r & Hr & _ & ->).
  apply set_null_not_null;
    [reflexivity | apply cric_fields_nodup | now apply H].
Qed.

Lemma delete_keeps_not_null_witness :
  (forall r, In r Cric.squad -> not_null_ok Cric.schema r)
  /\ (forall r', In r' (snd (delete Cric.schema ("Team", 1) Cric.squad)) ->
                 not_null_ok Cric.schema r')
  /\ map (row_get "team") (snd (delete Cric.schema ("Team", 1) Cric.squad))
     = [Some VNull].
Proof.
  assert (H : forall r, In r Cric.squad -> not_null_ok Cric.schema r).
  { intros r [<- | [<- | []]]; reflexivity. }
  split; [exact H|]. split; [|reflexivity].
  exact (delete_keeps_not_null ("Team", 1) Cric.squad H).
Defined.
